(** * RecordTheseHands collector: clip extraction, bounds and classification

    A shallow embedding of the collector scripts

      - [server/collector/dump_4.py]      (module [Dump4])
      - [server/collector/verify_clips.py] (module [VerifyClips])
      - [server/collector/check.py]        (module [Check])
      - [server/collector/video_2.py]      (module [Video2])

    together with the properties of the pipeline that the specification
    states about them.  Python floats are IEEE-754 binary64 numbers and are
    modelled by the Standard Library's [spec_float] at precision 53; Python
    dictionaries with a fixed set of keys are records whose fields say
    whether the key is absent, [null] or carries a value. *)

From Stdlib Require Import ZArith String Ascii List Bool Lia.
From Stdlib Require Import Floats.SpecFloat Floats.PrimFloat Floats.FloatOps.
From stdpp Require Import gmap strings list sorting pretty.

Set Warnings "-inexact-float".
Local Open Scope string_scope.
Local Open Scope list_scope.
Local Open Scope Z_scope.

(** ** Python values *)

(** Exceptions that the modelled code can raise. *)
Inductive exn := ZeroDivisionError | TypeError | ValueError.

(** The outcome of a Python call: a value or a raised exception. *)
Inductive except (A : Type) : Type :=
| Ok (a : A)
| Raise (e : exn).
Arguments Ok {A} a.
Arguments Raise {A} e.

#[global] Instance except_ret : MRet except := fun A a => Ok a.
#[global] Instance except_bind : MBind except := fun A B k m =>
  match m with
  | Ok a => k a
  | Raise e => Raise e
  end.

(** One key of a dictionary read from JSON or from the document store. *)
Inductive field (A : Type) : Type :=
| Absent            (* the key is not in the dictionary *)
| Null              (* the key is there and holds None / null *)
| Val (a : A).      (* the key holds a value *)
Arguments Absent {A}.
Arguments Null {A}.
Arguments Val {A} a.

(** [d.get(key, default)]; Python's [None] is Rocq's [None]. *)
Definition get {A} (f : field A) (default : option A) : option A :=
  match f with
  | Absent => default
  | Null => None
  | Val a => Some a
  end.

(** [key in d]. *)
Definition has_key {A} (f : field A) : bool :=
  match f with
  | Absent => false
  | _ => true
  end.

(** Truth value of an optional boolean and of an optional string. *)
Definition truthy (v : option bool) : bool :=
  match v with
  | Some b => b
  | None => false
  end.

Definition truthy_str (v : option string) : bool :=
  match v with
  | Some s => negb (String.eqb s "")
  | None => false
  end.

Definition is_None {A} (v : option A) : bool :=
  match v with
  | None => true
  | Some _ => false
  end.

(** [v == 'literal'] for a value that is a string or None. *)
Definition str_eq (v : option string) (s : string) : bool :=
  match v with
  | Some t => String.eqb t s
  | None => false
  end.

(** ** Binary64 floating point *)

Module PyFloat.

Definition prec : Z := 53.
Definition emax : Z := 1024.

Definition float : Type := spec_float.

Definition fadd : float → float → float := SFadd prec emax.
Definition fsub : float → float → float := SFsub prec emax.
Definition fmul : float → float → float := SFmul prec emax.
Definition fdiv : float → float → float := SFdiv prec emax.
Definition flt : float → float → bool := SFltb.
Definition fle : float → float → bool := SFleb.

(** [float(n)] for an integer, rounded to nearest even. *)
Definition of_Z (n : Z) : float := binary_normalize prec emax n 0 false.
Definition of_nat (n : nat) : float := of_Z (Z.of_nat n).

(** The literals of the source. *)
Definition f0_0 : float := Eval cbv in Prim2SF 0.0%float.
Definition f0_3 : float := Eval cbv in Prim2SF 0.3%float.
Definition f0_5 : float := Eval cbv in Prim2SF 0.5%float.
Definition f0_7 : float := Eval cbv in Prim2SF 0.7%float.
Definition f1_0 : float := Eval cbv in Prim2SF 1.0%float.
Definition f2_0 : float := Eval cbv in Prim2SF 2.0%float.
Definition f20 : float := Eval cbv in Prim2SF 20.0%float.
Definition f20_0001 : float := Eval cbv in Prim2SF 20.0001%float.
Definition f70 : float := Eval cbv in Prim2SF 70.0%float.
Definition f85 : float := Eval cbv in Prim2SF 85.0%float.
Definition f95 : float := Eval cbv in Prim2SF 95.0%float.
Definition f100 : float := Eval cbv in Prim2SF 100.0%float.

(** [n / d] rounded to the nearest integer, ties to even ([0 <= n], [0 < d]). *)
Definition round_half_even (n d : Z) : Z :=
  let q := n / d in
  let r := n mod d in
  match 2 * r ?= d with
  | Lt => q
  | Gt => q + 1
  | Eq => if Z.even q then q else q + 1
  end.

(** [f"{x:.1f}"]: the exact binary value rounded to one decimal. *)
Definition format_1f (x : float) : string :=
  match x with
  | S754_nan => "nan"
  | S754_infinity s => if s then "-inf" else "inf"
  | S754_zero s => if s then "-0.0" else "0.0"
  | S754_finite s m e =>
      let tenths :=
        match e with
        | Zneg p => round_half_even (10 * Zpos m) (2 ^ Zpos p)
        | _ => 10 * Zpos m * 2 ^ e
        end in
      (if s then "-" else "") +:+ pretty (tenths / 10) +:+ "."
        +:+ pretty (tenths mod 10)
  end.

End PyFloat.
Import PyFloat.

(** ** The Clip Record *)

(** The [summary] dictionary of one clip, as [dump_4.py] writes it and the
    classifiers read it back from the JSON dump.  The identifier keys hold an
    integer or a string whenever they are there; [promptText] and [valid] are
    copied from the document store and may be null. *)
Record summary := {
  userId : option string;
  sessionIndex : option Z;
  clipIndex : option Z;
  filename : option string;
  promptText : field string;
  valid : field bool;
  tutorial : option bool;
  start_s : field float;
  end_s : field float
}.

(** The summary with [valid] replaced. *)
Definition with_valid (v : field bool) (s : summary) : summary :=
  {| userId := userId s; sessionIndex := sessionIndex s;
     clipIndex := clipIndex s; filename := filename s;
     promptText := promptText s; valid := v; tutorial := tutorial s;
     start_s := start_s s; end_s := end_s s |}.

(** The summary with [start_s] and [end_s] replaced. *)
Definition with_bounds (a b : field float) (s : summary) : summary :=
  {| userId := userId s; sessionIndex := sessionIndex s;
     clipIndex := clipIndex s; filename := filename s;
     promptText := promptText s; valid := valid s; tutorial := tutorial s;
     start_s := a; end_s := b |}.

(** ** verify_clips.py *)

Module VerifyClips.

(** The keys of the [results] dictionary, in insertion order. *)
Inductive bucket :=
| high_confidence
| medium_confidence
| low_confidence
| invalid
| incomplete.

#[global] Instance bucket_eq_dec : EqDecision bucket.
Proof. solve_decision. Defined.

(** The entries of [clip_info['issues']]; the strings of the source carry
    the duration printed with two decimals, the constructors carry the
    duration itself. *)
Inductive issue :=
| User_marked_as_INVALID
| Missing_critical_data
| Too_short (duration : float)
| Unusually_long (duration : float)
| Very_short (duration : float)
| Good_duration (duration : float).

(** [clip_info]; [ci_session] is rendered as [s%03d] by the source. *)
Record clip_info := {
  ci_prompt : option string;
  ci_session : Z;
  ci_filename : option string;
  ci_valid : option bool;
  ci_start_s : option float;
  ci_end_s : option float;
  ci_duration : option float;
  ci_issues : list issue
}.

Definition add_issue (i : issue) (c : clip_info) : clip_info :=
  {| ci_prompt := ci_prompt c; ci_session := ci_session c;
     ci_filename := ci_filename c; ci_valid := ci_valid c;
     ci_start_s := ci_start_s c; ci_end_s := ci_end_s c;
     ci_duration := ci_duration c; ci_issues := ci_issues c ++ [i] |}.

(** The body of the loop over the clips (lines 33-84): the bucket the clip
    goes to and the [clip_info] appended there. *)
Definition categorize (s : summary) : bucket * clip_info :=
  let prompt := get (promptText s) (Some "N/A") in
  let valid := get (valid s) (Some false) in
  let start_s := get (start_s s) None in
  let end_s := get (end_s s) None in
  let filename := default "N/A" (filename s) in
  let session := default 0 (sessionIndex s) in
  let duration :=
    match start_s, end_s with
    | Some a, Some b => Some (fsub b a)
    | _, _ => None
    end in
  let clip_info :=
    {| ci_prompt := prompt; ci_session := session;
       ci_filename := Some filename; ci_valid := valid;
       ci_start_s := start_s; ci_end_s := end_s;
       ci_duration := duration; ci_issues := [] |} in
  if negb (truthy valid) then
    (invalid, add_issue User_marked_as_INVALID clip_info)
  else if is_None start_s || is_None end_s || str_eq prompt "N/A" then
    (incomplete, add_issue Missing_critical_data clip_info)
  else
    match duration with
    | Some d =>
        if flt d f0_5 then (low_confidence, add_issue (Too_short d) clip_info)
        else if flt f20 d then
          (medium_confidence, add_issue (Unusually_long d) clip_info)
        else if flt d f1_0 then
          (medium_confidence, add_issue (Very_short d) clip_info)
        else (high_confidence, add_issue (Good_duration d) clip_info)
    | None => (low_confidence, clip_info)
    end.

Definition bucket_of (s : summary) : bucket := fst (categorize s).

(** The [results] dictionary: one list per bucket. *)
Record results := {
  r_high_confidence : list clip_info;
  r_medium_confidence : list clip_info;
  r_low_confidence : list clip_info;
  r_invalid : list clip_info;
  r_incomplete : list clip_info
}.

Definition no_results : results :=
  {| r_high_confidence := []; r_medium_confidence := [];
     r_low_confidence := []; r_invalid := []; r_incomplete := [] |}.

(** [results[b]]. *)
Definition lookup_bucket (r : results) (b : bucket) : list clip_info :=
  match b with
  | high_confidence => r_high_confidence r
  | medium_confidence => r_medium_confidence r
  | low_confidence => r_low_confidence r
  | invalid => r_invalid r
  | incomplete => r_incomplete r
  end.

(** [results[b].append(c)]. *)
Definition append_to (b : bucket) (c : clip_info) (r : results) : results :=
  match b with
  | high_confidence =>
      {| r_high_confidence := r_high_confidence r ++ [c];
         r_medium_confidence := r_medium_confidence r;
         r_low_confidence := r_low_confidence r;
         r_invalid := r_invalid r; r_incomplete := r_incomplete r |}
  | medium_confidence =>
      {| r_high_confidence := r_high_confidence r;
         r_medium_confidence := r_medium_confidence r ++ [c];
         r_low_confidence := r_low_confidence r;
         r_invalid := r_invalid r; r_incomplete := r_incomplete r |}
  | low_confidence =>
      {| r_high_confidence := r_high_confidence r;
         r_medium_confidence := r_medium_confidence r;
         r_low_confidence := r_low_confidence r ++ [c];
         r_invalid := r_invalid r; r_incomplete := r_incomplete r |}
  | invalid =>
      {| r_high_confidence := r_high_confidence r;
         r_medium_confidence := r_medium_confidence r;
         r_low_confidence := r_low_confidence r;
         r_invalid := r_invalid r ++ [c]; r_incomplete := r_incomplete r |}
  | incomplete =>
      {| r_high_confidence := r_high_confidence r;
         r_medium_confidence := r_medium_confidence r;
         r_low_confidence := r_low_confidence r;
         r_invalid := r_invalid r; r_incomplete := r_incomplete r ++ [c] |}
  end.

(** The loop of lines 32-84, started from [r]. *)
Definition categorize_all (clips : list summary) (r : results) : results :=
  fold_left (fun r s => append_to (fst (categorize s)) (snd (categorize s)) r)
            clips r.

(** The verdict printed under the score. *)
Inductive assessment := EXCELLENT | GOOD | FAIR | POOR.

Definition assess (confidence_score : float) : assessment :=
  if fle f95 confidence_score then EXCELLENT
  else if fle f85 confidence_score then GOOD
  else if fle f70 confidence_score then FAIR
  else POOR.

(** [calculate_overall_confidence(results, total)]: the score it prints. *)
Definition calculate_overall_confidence (r : results) (total : nat)
  : except float :=
  let high := length (r_high_confidence r) in
  let medium := length (r_medium_confidence r) in
  let low := length (r_low_confidence r) in
  let weighted :=
    fadd (fadd (fmul (of_nat high) f1_0) (fmul (of_nat medium) f0_7))
         (fmul (of_nat low) f0_3) in
  match total with
  | O => Raise ZeroDivisionError
  | _ => Ok (fmul (fdiv weighted (of_nat total)) f100)
  end.

(** The console report formats [clip['prompt']] with [:<15], which raises
    for None. *)
Definition print_prompts (l : list clip_info) : except unit :=
  if forallb (fun c => negb (is_None (ci_prompt c))) l then Ok tt
  else Raise TypeError.

(** [verify_clip_quality], on the summaries of the clips of the dump: the
    [results] it returns and the score it prints on the way. *)
Definition verify_clip_quality (clips : list summary)
  : except (results * float) :=
  let results := categorize_all clips no_results in
  let total := length clips in
  (* the percentages of the breakdown divide by [total] *)
  match total with O => Raise ZeroDivisionError | _ => Ok tt end ;;
  print_prompts (r_medium_confidence results ++ r_low_confidence results) ;;
  print_prompts (r_invalid results) ;;
  score ← calculate_overall_confidence results total ;
  Ok (results, score).

End VerifyClips.

(** ** check.py *)

Module Check.

(** The three lists of [analyze_clips]. *)
Inductive status := VALID | INVALID | MISSING_DATA.

#[global] Instance status_eq_dec : EqDecision status.
Proof. solve_decision. Defined.

(** The body of the loop of lines 25-38. *)
Definition status_of (s : summary) : status :=
  let has_timestamps := has_key (start_s s) && has_key (end_s s) in
  let has_prompt := has_key (promptText s) in
  let is_valid := get (valid s) (Some false) in
  if negb has_timestamps || negb has_prompt then MISSING_DATA
  else if truthy is_valid then VALID
  else INVALID.

(** [(valid_clips, invalid_clips, missing_data_clips)] after the loop. *)
Definition categorize_all (clips : list summary)
  : list summary * list summary * list summary :=
  fold_left
    (fun '(v, i, m) s =>
       match status_of s with
       | MISSING_DATA => (v, i, m ++ [s])
       | VALID => (v ++ [s], i, m)
       | INVALID => (v, i ++ [s], m)
       end)
    clips ([], [], []).

End Check.

(** ** Regular expressions *)

(** The fragment of Python's [re] that the collector uses, over strings of
    code points below 256.  Matching backtracks in the order of Python's
    engine: a greedy repetition or option first tries to take more. *)
Module Re.

Inductive regex :=
| Chars (p : ascii → bool)            (* one character of a class *)
| Times (n : nat) (p : ascii → bool)  (* class{n} *)
| Plus (p : ascii → bool)             (* class+, greedy *)
| Lit (s : string)                    (* literal text *)
| Seq (r1 r2 : regex)
| Opt (r : regex)                     (* r?, greedy *)
| Group (n : nat) (r : regex)         (* the n-th capturing group *)
| Bos                                 (* ^ *)
| Eos.                                (* $ *)

Infix "+>" := Seq (at level 60, right associativity).

(** [\d], [.] and [[^-]]. *)
Definition digit (c : ascii) : bool :=
  let n := N_of_ascii c in (48 <=? n)%N && (n <=? 57)%N.
Definition dot (c : ascii) : bool := negb (Ascii.eqb c "010").
Definition not_dash (c : ascii) : bool := negb (Ascii.eqb c "-").

(** [s] without its prefix [l], when it starts with [l]. *)
Fixpoint strip_prefix (l s : string) : option string :=
  match l, s with
  | EmptyString, _ => Some s
  | String a l', String b s' =>
      if Ascii.eqb a b then strip_prefix l' s' else None
  | String _ _, EmptyString => None
  end.

Section Matcher.
Context {A : Type}.

(** After [pos] characters, with [s] left: [n] characters of the class. *)
Fixpoint times (n : nat) (p : ascii → bool) (k : nat → string → option A)
    (pos : nat) (s : string) : option A :=
  match n with
  | O => k pos s
  | S n' =>
      match s with
      | String c s' => if p c then times n' p k (S pos) s' else None
      | EmptyString => None
      end
  end.

(** One or more characters of the class, the longest run first. *)
Fixpoint plus (p : ascii → bool) (k : nat → string → option A)
    (pos : nat) (s : string) : option A :=
  match s with
  | String c s' =>
      if p c then
        match plus p k (S pos) s' with
        | Some r => Some r
        | None => k (S pos) s'
        end
      else None
  | EmptyString => None
  end.
End Matcher.

Fixpoint run (r : regex) (pos : nat) (s : string) (caps : gmap nat string)
    (k : nat → string → gmap nat string → option (gmap nat string))
  : option (gmap nat string) :=
  match r with
  | Chars p => times 1 p (fun pos' s' => k pos' s' caps) pos s
  | Times n p => times n p (fun pos' s' => k pos' s' caps) pos s
  | Plus p => plus p (fun pos' s' => k pos' s' caps) pos s
  | Lit l =>
      match strip_prefix l s with
      | Some s' => k (pos + String.length l)%nat s' caps
      | None => None
      end
  | Seq r1 r2 =>
      run r1 pos s caps (fun pos' s' caps' => run r2 pos' s' caps' k)
  | Opt r' =>
      match run r' pos s caps k with
      | Some res => Some res
      | None => k pos s caps
      end
  | Group n r' =>
      run r' pos s caps
        (fun pos' s' caps' =>
           k pos' s' (<[n := substring 0 (pos' - pos) s]> caps'))
  | Bos => if Nat.eqb pos 0 then k pos s caps else None
  | Eos =>
      if String.eqb s "" || String.eqb s (String "010" "") then k pos s caps
      else None
  end.

(** [re.match(pattern, string)]: the match is anchored at the start of the
    string and may stop before its end. *)
Definition re_match (pattern : regex) (s : string)
  : option (gmap nat string) :=
  run pattern 0 s ∅ (fun _ _ caps => Some caps).

(** [m.group(n)]. *)
Definition group (m : gmap nat string) (n : nat) : option string := m !! n.

(** [int(s)] for a string of decimal digits. *)
Definition int_digits (s : string) : Z :=
  fold_left (fun acc c => 10 * acc + (Z.of_N (N_of_ascii c) - 48))
            (list_ascii_of_string s) 0.

(** [int(m.group(n))] for a group that matched digits. *)
Definition int_group (m : gmap nat string) (n : nat) : Z :=
  int_digits (default "" (group m n)).

End Re.

(** ** dump_4.py *)

Module Dump4.
Import Re.

(** A [datetime]: the wall-clock reading in microseconds since the start
    of 0001-01-01, and the UTC offset in microseconds of an aware value. *)
Record datetime := {
  wall : Z;
  utcoffset : option Z
}.

(** [a - b] on datetimes, in microseconds: naive values are compared by
    their wall clocks, aware values after moving both to UTC, and mixing
    the two raises. *)
Definition datetime_sub (a b : datetime) : except Z :=
  match utcoffset a, utcoffset b with
  | None, None => Ok (wall a - wall b)
  | Some oa, Some ob => Ok ((wall a - oa) - (wall b - ob))
  | _, _ => Raise TypeError
  end.

(** [a / b] on integers with [0 < b]: the quotient rounded to binary64. *)
Definition int_truediv (a b : Z) : float :=
  match a with
  | Z0 => S754_zero false
  | Zpos p => fdiv (S754_finite false p 0) (S754_finite false (Z.to_pos b) 0)
  | Zneg p => fdiv (S754_finite true p 0) (S754_finite false (Z.to_pos b) 0)
  end.

(** [timedelta.total_seconds()] of a difference given in microseconds. *)
Definition total_seconds (microseconds : Z) : float :=
  int_truediv microseconds (10 ^ 6).

(** [s.endswith("Z")] and [s[:-1]]. *)
Fixpoint endswith_Z (s : string) : bool :=
  match s with
  | EmptyString => false
  | String c EmptyString => Ascii.eqb c "Z"
  | String _ s' => endswith_Z s'
  end.

Fixpoint drop_last (s : string) : string :=
  match s with
  | EmptyString => EmptyString
  | String _ EmptyString => EmptyString
  | String c s' => String c (drop_last s')
  end.

(** The event-timestamp keys of a clip document and the other keys the
    collector reads.  [other_keys] says whether the dictionary has keys
    beyond these. *)
Record prompt_data := {
  prompt : field string
}.

Record clip_data := {
  clipId : field string;
  doc_filename : field string;          (* "filename" *)
  promptData : field prompt_data;
  doc_valid : field bool;               (* "valid" *)
  videoStart : field string;
  startButtonDownTimestamp : field string;
  startButtonUpTimestamp : field string;
  restartButtonDownTimestamp : field string;
  swipeForwardTimestamp : field string;
  swipeBackTimestamp : field string;
  other_keys : bool
}.

(** A document of the store: its top-level keys and its ["data"] map. *)
Record doc_dict := {
  data : field clip_data;
  top : clip_data
}.

Record document := {
  id : string;
  to_dict : doc_dict
}.

(** An element of [clips]. *)
Record clip := {
  c_summary : summary;                   (* "summary" *)
  full : doc_dict
}.

(** Truth value of a dictionary: it has a key. *)
Definition nonempty (d : clip_data) : bool :=
  has_key (clipId d) || has_key (doc_filename d) || has_key (promptData d)
  || has_key (doc_valid d) || has_key (videoStart d)
  || has_key (startButtonDownTimestamp d)
  || has_key (startButtonUpTimestamp d)
  || has_key (restartButtonDownTimestamp d)
  || has_key (swipeForwardTimestamp d) || has_key (swipeBackTimestamp d)
  || other_keys d.

(** [doc_dict.get("data") or doc_dict], and [None] when that is falsy. *)
Definition data_or_doc (d : doc_dict) : option clip_data :=
  match data d with
  | Val m => if nonempty m then Some m
             else Some (top d)          (* the document has the key "data" *)
  | Null => Some (top d)
  | Absent => if nonempty (top d) then Some (top d) else None
  end.

(** Why a clip document was skipped. *)
Inductive skip_reason :=
| empty_data
| no_clipId
| clipId_format_mismatch (clip_id : string)
| no_filename
| filename_format_mismatch (filename : string)
| session_index_mismatch.

(** [[^-]+-s(\d{3})-(\d{3})] *)
Definition clip_id_pattern : regex :=
  Plus not_dash +> Lit "-s" +> Group 1 (Times 3 digit) +> Lit "-"
  +> Group 2 (Times 3 digit).

(** [^(tutorial-)?(.+[^-]+)-[^-]+-s(\d{3})-.+\.mp4$] *)
Definition filename_pattern : regex :=
  Bos +> Opt (Group 1 (Lit "tutorial-"))
  +> Group 2 (Plus dot +> Plus not_dash)
  +> Lit "-" +> Plus not_dash +> Lit "-s" +> Group 3 (Times 3 digit)
  +> Lit "-" +> Plus dot +> Lit ".mp4" +> Eos.

Section Timestamps.

(** [datetime.datetime.fromisoformat], which raises [ValueError] on a
    string it does not accept. *)
Variable fromisoformat : string → except datetime.

Definition _parse_iso_timestamp (ts : string) : except datetime :=
  let ts := if endswith_Z ts then drop_last ts +:+ "+00:00" else ts in
  fromisoformat ts.

Definition get_clip_bounds_in_video (clip_data : clip_data)
  : except (option float * option float) :=
  let video_start := get (videoStart clip_data) None in
  if negb (truthy_str video_start) then Ok (None, None) else
  let clip_start := get (startButtonDownTimestamp clip_data) None in
  let clip_start :=
    if negb (truthy_str clip_start)
    then get (startButtonUpTimestamp clip_data) None else clip_start in
  if negb (truthy_str clip_start) then Ok (None, None) else
  let clip_end := get (restartButtonDownTimestamp clip_data) None in
  let clip_end :=
    if negb (truthy_str clip_end)
    then get (swipeForwardTimestamp clip_data) None else clip_end in
  let clip_end :=
    if negb (truthy_str clip_end)
    then get (swipeBackTimestamp clip_data) None else clip_end in
  if negb (truthy_str clip_end) then Ok (None, None) else
  video_start_time ← _parse_iso_timestamp (default "" video_start) ;
  clip_start_time ← _parse_iso_timestamp (default "" clip_start) ;
  clip_end_time ← _parse_iso_timestamp (default "" clip_end) ;
  start_delta ← datetime_sub clip_start_time video_start_time ;
  end_delta ← datetime_sub clip_end_time video_start_time ;
  Ok (Some (total_seconds start_delta), Some (total_seconds end_delta)).

(** What one document of the stream does to the run. *)
Inductive outcome :=
| Clip (c : clip)                       (* appended to [clips] *)
| Session (d : clip_data)               (* appended to [sessions] *)
| Skipped (r : skip_reason)             (* [continue] after a message *)
| Ignored.                              (* nothing happens *)

(** [value if value is not None], as a key that is set or left out. *)
Definition set_if_not_None {A} (v : option A) : field A :=
  match v with
  | Some a => Val a
  | None => Absent
  end.

(** A key set to a value that may be None. *)
Definition set_to {A} (v : option A) : field A :=
  match v with
  | Some a => Val a
  | None => Null
  end.

(** The body of the loop of [get_data] for a clip document. *)
Definition clip_document (doc_dict : doc_dict) : except outcome :=
  match data_or_doc doc_dict with
  | None => Ok (Skipped empty_data)
  | Some data =>
  let clip_id := get (clipId data) None in
  if negb (truthy_str clip_id) then Ok (Skipped no_clipId) else
  let clip_id := default "" clip_id in
  match re_match clip_id_pattern clip_id with
  | None => Ok (Skipped (clipId_format_mismatch clip_id))
  | Some m =>
  let session_index := int_group m 1 in
  let clip_index := int_group m 2 in
  let filename := get (doc_filename data) None in
  if negb (truthy_str filename) then Ok (Skipped no_filename) else
  let filename := default "" filename in
  match re_match filename_pattern filename with
  | None => Ok (Skipped (filename_format_mismatch filename))
  | Some m =>
  let tutorial_prefix := group m 1 in
  let user_id := group m 2 in
  if negb (session_index =? int_group m 3)
  then Ok (Skipped session_index_mismatch) else
  let prompt_data :=
    match promptData data with
    | Val pd => pd
    | _ => {| prompt := Absent |}
    end in
  let simple_clip :=
    {| userId := user_id;
       sessionIndex := Some session_index;
       clipIndex := Some clip_index;
       filename := Some filename;
       promptText := set_to (get (prompt prompt_data) None);
       valid := set_to (get (doc_valid data) None);
       tutorial := if truthy_str tutorial_prefix then Some true else None;
       start_s := Absent;
       end_s := Absent |} in
  '(start_s, end_s) ← get_clip_bounds_in_video data ;
  let simple_clip :=
    with_bounds (set_if_not_None start_s) (set_if_not_None end_s)
                simple_clip in
  Ok (Clip {| c_summary := simple_clip; full := doc_dict |})
  end end end.

Definition process (doc_data : document) : except outcome :=
  if String.prefix "clipData-" (id doc_data) then
    clip_document (to_dict doc_data)
  else if String.prefix "sessionData-" (id doc_data) then
    match data_or_doc (to_dict doc_data) with
    | Some data => Ok (Session data)
    | None => Ok Ignored
    end
  else Ok Ignored.

(** The lists and the messages of a run of [get_data]. *)
Record collected := {
  clips : list clip;
  sessions : list clip_data;
  skipped : list (string * skip_reason)   (* document id, reason *)
}.

Definition record (doc_data : document) (o : outcome) (acc : collected)
  : collected :=
  match o with
  | Clip c =>
      {| clips := clips acc ++ [c]; sessions := sessions acc;
         skipped := skipped acc |}
  | Session d =>
      {| clips := clips acc; sessions := sessions acc ++ [d];
         skipped := skipped acc |}
  | Skipped r =>
      {| clips := clips acc; sessions := sessions acc;
         skipped := skipped acc ++ [(id doc_data, r)] |}
  | Ignored => acc
  end.

(** The loop of [get_data] over the documents of one user, from the
    lists collected so far. *)
Fixpoint get_data_from (docs : list document) (acc : collected)
  : except collected :=
  match docs with
  | [] => Ok acc
  | doc_data :: rest =>
      o ← process doc_data ;
      get_data_from rest (record doc_data o acc)
  end.

Definition get_data (docs : list document) : except collected :=
  get_data_from docs {| clips := []; sessions := []; skipped := [] |}.

End Timestamps.

End Dump4.

(** ** video_2.py *)

Module Video2.

(** The [category] column of the prompt status report. *)
Inductive category :=
| completed_first_try
| completed_with_retries
| never_accepted
| unknown
| completely_skipped.

#[global] Instance category_eq_dec : EqDecision category.
Proof. solve_decision. Defined.

(** The three sets built by the loop of lines 36-47. *)
Record prompt_sets := {
  attempted_prompts : gset string;
  completed_prompts : gset string;
  rejected_prompts : gset string
}.

Definition no_prompts : prompt_sets :=
  {| attempted_prompts := ∅; completed_prompts := ∅;
     rejected_prompts := ∅ |}.

(** The body of that loop. *)
Definition track (sets : prompt_sets) (s : summary) : prompt_sets :=
  let prompt := get (promptText s) None in
  let valid := get (valid s) (Some false) in
  if truthy_str prompt then
    let prompt := default "" prompt in
    if truthy valid then
      {| attempted_prompts := attempted_prompts sets ∪ {[prompt]};
         completed_prompts := completed_prompts sets ∪ {[prompt]};
         rejected_prompts := rejected_prompts sets |}
    else
      {| attempted_prompts := attempted_prompts sets ∪ {[prompt]};
         completed_prompts := completed_prompts sets;
         rejected_prompts := rejected_prompts sets ∪ {[prompt]} |}
  else sets.

Definition track_all (clips : list summary) : prompt_sets :=
  fold_left track clips no_prompts.

(** [sorted] on strings: the order of [String.le], by code points. *)
Definition sorted_strings (s : gset string) : list string :=
  merge_sort String.le (elements s).

(** The category of an attempted prompt (lines 74-85). *)
Definition categorize (sets : prompt_sets) (prompt : string) : category :=
  if bool_decide (prompt ∈ completed_prompts sets)
     && negb (bool_decide (prompt ∈ rejected_prompts sets))
  then completed_first_try
  else if bool_decide (prompt ∈ completed_prompts sets)
          && bool_decide (prompt ∈ rejected_prompts sets)
  then completed_with_retries
  else if bool_decide (prompt ∈ rejected_prompts sets)
          && negb (bool_decide (prompt ∈ completed_prompts sets))
  then never_accepted
  else unknown.

(** [prompt_report]: one entry per attempted prompt; the status text of an
    entry is fixed by its category. *)
Definition report (sets : prompt_sets) : list (string * category) :=
  map (fun prompt => (prompt, categorize sets prompt))
      (sorted_strings (attempted_prompts sets)).

(** Whitespace in the sense of [str.strip], below code point 256. *)
Definition isspace (c : ascii) : bool :=
  let n := N_of_ascii c in
  ((9 <=? n) && (n <=? 13) || (28 <=? n) && (n <=? 32)
   || (n =? 133) || (n =? 160))%N.

Fixpoint lstrip (s : string) : string :=
  match s with
  | String c s' => if isspace c then lstrip s' else s
  | EmptyString => EmptyString
  end.

Definition strip (s : string) : string :=
  String.rev (lstrip (String.rev (lstrip s))).

(** [set(line.strip() for line in f if line.strip())] *)
Definition expected_prompts_of (lines : list string) : gset string :=
  list_to_set (filter (fun l => l ≠ "") (map strip lines)).

(** [expected_prompts]: None without a file that could be opened. *)
Definition load_expected_prompts (file : option (list string))
  : option (gset string) :=
  option_map expected_prompts_of file.

(** [expected_prompts - attempted_prompts] when [expected_prompts] is
    truthy, sorted; None when the branch is not taken. *)
Definition missing_prompts (expected_prompts : option (gset string))
    (attempted_prompts : gset string) : option (list string) :=
  match expected_prompts with
  | Some expected =>
      if bool_decide (expected ≠ ∅)
      then Some (sorted_strings (expected ∖ attempted_prompts))
      else None
  | None => None
  end.

(** The order of [sorted(..., key=lambda x: x['prompt'])]. *)
Definition by_prompt (a b : string * category) : Prop :=
  String.le (fst a) (fst b).

#[global] Instance by_prompt_dec : RelDecision by_prompt.
Proof. intros a b. unfold by_prompt. apply _. Defined.

(** The rows of [prompt_status_report.csv] below the header: prompt and
    category (status and notes are fixed by the category). *)
Definition create_missing_prompts_csv
    (prompt_report : list (string * category))
    (expected_prompts : option (gset string))
    (attempted_prompts : gset string) : list (string * category) :=
  merge_sort by_prompt prompt_report
  ++ match missing_prompts expected_prompts attempted_prompts with
     | Some missing => map (fun prompt => (prompt, completely_skipped)) missing
     | None => []
     end.

(** An entry of [sessions[session]]. *)
Record session_clip := {
  clip_index : Z;
  sc_prompt : option string;
  sc_valid : option bool
}.

(** The order of [sorted(..., key=lambda x: x['clip_index'])]. *)
Definition by_clip_index (a b : session_clip) : Prop :=
  clip_index a ≤ clip_index b.

#[global] Instance by_clip_index_dec : RelDecision by_clip_index.
Proof. intros a b. unfold by_clip_index. apply _. Defined.

(** The body of the grouping loop of lines 155-167. *)
Definition add_clip (sessions : gmap Z (list session_clip)) (s : summary)
  : gmap Z (list session_clip) :=
  let session := sessionIndex s in
  let clip_index := clipIndex s in
  let prompt := get (promptText s) (Some "Unknown") in
  let valid := get (valid s) (Some false) in
  match session, clip_index with
  | Some session, Some clip_index =>
      <[session :=
          default [] (sessions !! session)
          ++ [{| clip_index := clip_index; sc_prompt := prompt;
                 sc_valid := valid |}]]> sessions
  | _, _ => sessions
  end.

(** [sessions] after the loop. *)
Definition group_by_session (clips : list summary)
  : gmap Z (list session_clip) :=
  fold_left add_clip clips ∅.

Definition sorted_ints (l : list Z) : list Z := merge_sort Z.le l.

(** [min(l)] and [max(l)] of a list with head [x]. *)
Definition min_list (x : Z) (l : list Z) : Z := fold_left Z.min l x.
Definition max_list (x : Z) (l : list Z) : Z := fold_left Z.max l x.

(** [range(a, b)] *)
Definition range (a b : Z) : list Z := seqZ a (b - a).

(** [sorted(missing_indices)] for the clips of one session (lines
    172-180); [[]] when there is no clip. *)
Definition missing_indices (session_clips : list session_clip) : list Z :=
  let session_clips :=
    merge_sort by_clip_index session_clips in
  let indices := map clip_index session_clips in
  match indices with
  | [] => []
  | i :: rest =>
      let expected_indices :=
        range (min_list i rest) (max_list i rest + 1) in
      let missing_indices : gset Z :=
        list_to_set expected_indices ∖ list_to_set indices in
      sorted_ints (elements missing_indices)
  end.

(** [analyze_session_gaps]: the sessions it reports, in the order of the
    report, each with its missing indices. *)
Definition analyze_session_gaps (clips : list summary) : list (Z * list Z) :=
  let sessions := group_by_session clips in
  omap (fun session =>
          let missing := missing_indices (default [] (sessions !! session)) in
          if bool_decide (missing ≠ []) then Some (session, missing) else None)
       (sorted_ints (elements (dom sessions))).

(** What [detect_missing_prompts] prints, writes and returns. *)
Record detection := {
  prompt_report : list (string * category);       (* returned *)
  never_attempted : option (list string);         (* printed *)
  session_gaps : list (Z * list Z);               (* printed *)
  csv_rows : list (string * category)             (* written *)
}.

Definition detect_missing_prompts (clips : list summary)
    (expected_prompts_file : option (list string)) : detection :=
  let sets := track_all clips in
  let expected_prompts := load_expected_prompts expected_prompts_file in
  let prompt_report := report sets in
  {| prompt_report := prompt_report;
     never_attempted :=
       missing_prompts expected_prompts (attempted_prompts sets);
     session_gaps := analyze_session_gaps clips;
     csv_rows :=
       create_missing_prompts_csv prompt_report expected_prompts
                                  (attempted_prompts sets) |}.

End Video2.

(** ** A reader for the recorder's timestamps *)

(** The recorder writes its timestamps as
    [YYYY-MM-DDTHH:MM:SS[.ffffff][+HH:MM]].  [Iso.fromisoformat] reads that
    form with the value [datetime.fromisoformat] gives it, and no other
    form: it is narrower than [datetime.fromisoformat], which also takes a
    fraction of another length, a space for the T or a time without
    seconds.  It is the instance the examples run with, on timestamps of
    the recorder's form; no general statement depends on it. *)
Module Iso.
Import Re Dump4.

(** [n] decimal digits at the head of [s]: their value and the rest. *)
Fixpoint digits (n : nat) (s : string) : option (Z * string) :=
  match n with
  | O => Some (0, s)
  | S n' =>
      match s with
      | String c s' =>
          if digit c then
            '(v, rest) ← digits n' s' ;
            Some ((Z.of_N (N_of_ascii c) - 48) * 10 ^ Z.of_nat n' + v, rest)
          else None
      | EmptyString => None
      end
  end.

Definition expect (c : ascii) (s : string) : option string :=
  match s with
  | String a s' => if Ascii.eqb a c then Some s' else None
  | EmptyString => None
  end.

Definition is_leap (y : Z) : bool :=
  (y mod 4 =? 0) && (negb (y mod 100 =? 0) || (y mod 400 =? 0)).

Definition days_in_month (y m : Z) : Z :=
  if m =? 2 then (if is_leap y then 29 else 28)
  else if (m =? 4) || (m =? 6) || (m =? 9) || (m =? 11) then 30
  else 31.

(** Days from 0001-01-01 to the given date of the proleptic Gregorian
    calendar. *)
Definition days_before (y m d : Z) : Z :=
  let y' := if m <=? 2 then y - 1 else y in
  let era := y' / 400 in
  let yoe := y' - era * 400 in
  let doy := (153 * (if 2 <? m then m - 3 else m + 9) + 2) / 5 + d - 1 in
  let doe := yoe * 365 + yoe / 4 - yoe / 100 + doy in
  era * 146097 + doe - 306.

Definition checked (b : bool) : option unit :=
  if b then Some tt else None.

(** The optional [.ffffff]. *)
Definition fraction (s : string) : option (Z * string) :=
  match expect "." s with
  | Some s' => digits 6 s'
  | None => Some (0, s)
  end.

(** The optional [+HH:MM] or [-HH:MM], in microseconds, up to the end of
    the string. *)
Definition offset (s : string) : option (option Z) :=
  match s with
  | EmptyString => Some None
  | String c s' =>
      sign ← (if Ascii.eqb c "+" then Some 1
              else if Ascii.eqb c "-" then Some (-1) else None) ;
      '(h, s') ← digits 2 s' ;
      s' ← expect ":" s' ;
      '(m, s') ← digits 2 s' ;
      checked ((h <? 24) && (m <? 60) && String.eqb s' "") ;;
      Some (Some (sign * (h * 60 + m) * 60 * 10 ^ 6))
  end.

Definition read (s : string) : option datetime :=
  '(y, s) ← digits 4 s ;
  s ← expect "-" s ;
  '(mo, s) ← digits 2 s ;
  s ← expect "-" s ;
  '(d, s) ← digits 2 s ;
  s ← expect "T" s ;
  '(h, s) ← digits 2 s ;
  s ← expect ":" s ;
  '(mi, s) ← digits 2 s ;
  s ← expect ":" s ;
  '(sec, s) ← digits 2 s ;
  '(us, s) ← fraction s ;
  off ← offset s ;
  checked ((1 <=? y) && (1 <=? mo) && (mo <=? 12) && (1 <=? d)
           && (d <=? days_in_month y mo) && (h <? 24) && (mi <? 60)
           && (sec <? 60)) ;;
  Some {| wall :=
            (((days_before y mo d * 24 + h) * 60 + mi) * 60 + sec) * 10 ^ 6
            + us;
          utcoffset := off |}.

Definition fromisoformat (s : string) : except datetime :=
  match read s with
  | Some d => Ok d
  | None => Raise ValueError
  end.

End Iso.

(** ** Vocabulary of the statements *)

(** Further float constants used in the examples. *)
Definition f3_0 : float := Eval cbv in Prim2SF 3.0%float.
Definition f5_0 : float := Eval cbv in Prim2SF 5.0%float.
Definition f5_5 : float := Eval cbv in Prim2SF 5.5%float.

(** [d < +mc·2^ec] and [+mc·2^ec < d], read off the representation of [d]. *)
Definition below (d : float) (mc : positive) (ec : Z) : Prop :=
  match d with
  | S754_nan => False
  | S754_infinity s => s = true
  | S754_zero _ => True
  | S754_finite s m e => s = true ∨ e < ec ∨ (e = ec ∧ Zpos m < Zpos mc)
  end.

Definition above (d : float) (mc : positive) (ec : Z) : Prop :=
  match d with
  | S754_nan => False
  | S754_infinity s => s = false
  | S754_zero _ => False
  | S754_finite s m e => s = false ∧ (ec < e ∨ (e = ec ∧ Zpos mc < Zpos m))
  end.

(** The chain of comparisons of lines 71-82 of [verify_clips.py]. *)
Definition tier (d : float) : VerifyClips.bucket :=
  if flt d f0_5 then VerifyClips.low_confidence
  else if flt f20 d then VerifyClips.medium_confidence
  else if flt d f1_0 then VerifyClips.medium_confidence
  else VerifyClips.high_confidence.

(** The number of records of the batch that go to a bucket. *)
Definition count (b : VerifyClips.bucket) (clips : list summary) : nat :=
  length (filter (fun s => VerifyClips.bucket_of s = b) clips).

(** The console report of [verify_clip_quality] can print the record: a
    null prompt is only met in the buckets that are not printed. *)
Definition reviewable (s : summary) : Prop :=
  promptText s = Null →
  VerifyClips.bucket_of s = VerifyClips.high_confidence
  ∨ VerifyClips.bucket_of s = VerifyClips.incomplete.

(** [(countHigh·1.0 + countMedium·0.7 + countLow·0.3) / totalRecords × 100]
    in binary64, evaluated from left to right. *)
Definition aggregate_confidence_score
    (countHigh countMedium countLow totalRecords : nat) : float :=
  fmul (fdiv (fadd (fadd (fmul (of_nat countHigh) f1_0)
                         (fmul (of_nat countMedium) f0_7))
                   (fmul (of_nat countLow) f0_3))
             (of_nat totalRecords))
       f100.

(** The first candidate that holds a non-empty string: the collector's
    test [if not x] takes a missing key, None and the empty string alike. *)
Fixpoint first_present (candidates : list (field string)) : option string :=
  match candidates with
  | [] => None
  | Val s :: rest => if String.eqb s "" then first_present rest else Some s
  | _ :: rest => first_present rest
  end.

(** Every character of the string is in the class. *)
Fixpoint all_chars (p : ascii → bool) (s : string) : bool :=
  match s with
  | EmptyString => true
  | String c s' => p c && all_chars p s'
  end.

(** The clip id grammar of the specification:
    [<prefix>-s<3-digit-session>-<3-digit-clip-index>], prefix without dash. *)
Definition clip_id_grammar (s : string) : Prop :=
  ∃ prefix session clip_index,
    s = prefix +:+ "-s" +:+ session +:+ "-" +:+ clip_index
    ∧ prefix ≠ "" ∧ all_chars Re.not_dash prefix = true
    ∧ String.length session = 3%nat ∧ all_chars Re.digit session = true
    ∧ String.length clip_index = 3%nat
    ∧ all_chars Re.digit clip_index = true.

(** The string starts with a clip id. *)
Definition begins_with_clip_id (s : string) : Prop :=
  ∃ t rest, s = t +:+ rest ∧ clip_id_grammar t.

(** The document has no extractable prompt payload. *)
Definition no_prompt_payload (d : Dump4.clip_data) : Prop :=
  match Dump4.promptData d with
  | Val pd => get (Dump4.prompt pd) None = None
  | _ => True
  end.

(** The prompt appears on a record of the batch whose [valid] flag is true,
    or on one whose flag is not (false, null or missing). *)
Definition accepted (clips : list summary) (p : string) : Prop :=
  ∃ s, s ∈ clips ∧ promptText s = Val p ∧ valid s = Val true.

Definition refused (clips : list summary) (p : string) : Prop :=
  ∃ s, s ∈ clips ∧ promptText s = Val p ∧ valid s ≠ Val true.

(** The clip indices observed in a session, in the order of the batch. *)
Definition observed_indices (clips : list summary) (session : Z) : list Z :=
  omap (fun s => if decide (sessionIndex s = Some session)
                 then clipIndex s else None) clips.

(** The gaps the detector computes for a session of the batch. *)
Definition gaps_of (clips : list summary) (session : Z) : list Z :=
  Video2.missing_indices
    (default [] (Video2.group_by_session clips !! session)).

(** ** Example records *)

Definition example_clip (p : field string) (v : field bool)
    (a b : field float) : summary :=
  {| userId := Some "lenovo_p1"; sessionIndex := Some 1; clipIndex := Some 0;
     filename := Some "lenovo_p1-5c963ab3-s001-2025-11-18T16:52:49.273236Z.mp4";
     promptText := p; valid := v; tutorial := None;
     start_s := a; end_s := b |}.

Definition indexed_clip (session clip : Z) : summary :=
  {| userId := Some "lenovo_p1"; sessionIndex := Some session;
     clipIndex := Some clip; filename := None; promptText := Null;
     valid := Val true; tutorial := None; start_s := Absent;
     end_s := Absent |}.

Definition example_timestamps : Dump4.clip_data :=
  {| Dump4.clipId := Val "5c963ab3-s001-000";
     Dump4.doc_filename :=
       Val "lenovo_p1-5c963ab3-s001-2025-11-18T16:52:49.273236Z.mp4";
     Dump4.promptData := Val {| Dump4.prompt := Val "Rich" |};
     Dump4.doc_valid := Val true;
     Dump4.videoStart := Val "2025-11-18T16:52:49.273236Z";
     Dump4.startButtonDownTimestamp := Val "2025-11-18T16:52:51.273236Z";
     Dump4.startButtonUpTimestamp := Val "2025-11-18T16:52:51.400000Z";
     Dump4.restartButtonDownTimestamp := Absent;
     Dump4.swipeForwardTimestamp := Val "2025-11-18T16:52:54.773236Z";
     Dump4.swipeBackTimestamp := Absent;
     Dump4.other_keys := true |}.

Definition example_data (clip_id : string)
    (prompt_data : field Dump4.prompt_data) : Dump4.clip_data :=
  {| Dump4.clipId := Val clip_id;
     Dump4.doc_filename :=
       Val "lenovo_p1-5c963ab3-s001-2025-11-18T16:52:49.273236Z.mp4";
     Dump4.promptData := prompt_data;
     Dump4.doc_valid := Val true;
     Dump4.videoStart := Absent;
     Dump4.startButtonDownTimestamp := Absent;
     Dump4.startButtonUpTimestamp := Absent;
     Dump4.restartButtonDownTimestamp := Absent;
     Dump4.swipeForwardTimestamp := Absent;
     Dump4.swipeBackTimestamp := Absent;
     Dump4.other_keys := false |}.

Definition no_keys : Dump4.clip_data :=
  {| Dump4.clipId := Absent; Dump4.doc_filename := Absent;
     Dump4.promptData := Absent; Dump4.doc_valid := Absent;
     Dump4.videoStart := Absent;
     Dump4.startButtonDownTimestamp := Absent;
     Dump4.startButtonUpTimestamp := Absent;
     Dump4.restartButtonDownTimestamp := Absent;
     Dump4.swipeForwardTimestamp := Absent;
     Dump4.swipeBackTimestamp := Absent;
     Dump4.other_keys := false |}.

Definition example_document (name : string) (d : Dump4.clip_data)
  : Dump4.document :=
  {| Dump4.id := name;
     Dump4.to_dict := {| Dump4.data := Val d; Dump4.top := no_keys |} |}.

(** The batch of the end-to-end example: a valid clip of two seconds, an
    invalid clip, and a valid clip without [end_s]. *)
Definition example_batch : list summary :=
  [example_clip (Val "Rich") (Val true) (Val f1_0) (Val f3_0);
   example_clip (Val "Poor") (Val false) (Val f1_0) (Val f3_0);
   example_clip (Val "Thick") (Val true) (Val f1_0) Absent].

(** A session with the clip indices 0, 1, 3, 4 next to a session of one
    clip. *)
Definition example_session : list summary :=
  [indexed_clip 1 0; indexed_clip 1 1; indexed_clip 2 7;
   indexed_clip 1 3; indexed_clip 1 4].

(** A prompt retried after a rejection, next to a prompt never accepted. *)
Definition example_attempts : list summary :=
  [example_clip (Val "Rich") (Val false) Absent Absent;
   example_clip (Val "Rich") (Val true) (Val f0_0) (Val f2_0);
   example_clip (Val "Poor") Null (Val f0_0) (Val f2_0)].

(** ** The exact score *)

(** Further float constants of the score examples. *)
Definition f30 : float := Eval cbv in Prim2SF 30.0%float.
Definition f50 : float := Eval cbv in Prim2SF 50.0%float.

(** The score in exact arithmetic is the fraction
    [(10·countHigh + 7·countMedium + 3·countLow)·10 / totalRecords]: its
    numerator. *)
Definition exact_score_numerator (countHigh countMedium countLow : nat) : Z :=
  (10 * Z.of_nat countHigh + 7 * Z.of_nat countMedium
   + 3 * Z.of_nat countLow) * 10.

(** [|x - num/den| <= 2^-40] for a float that is a number and [0 < den],
    decided in integer arithmetic on the mantissa and exponent of [x]. *)
Definition within (x : float) (num den : Z) : bool :=
  match x with
  | S754_zero _ => Z.abs num * 2 ^ 40 <=? den
  | S754_finite s m e =>
      let sm := if s then Zneg m else Zpos m in
      match e with
      | Zneg p =>
          Z.abs (sm * den - num * 2 ^ Zpos p) * 2 ^ 40 <=? den * 2 ^ Zpos p
      | _ => Z.abs (sm * 2 ^ e * den - num) * 2 ^ 40 <=? den
      end
  | _ => false
  end.

(** The float score of every combination of counts over at most [bound]
    records is within [2^-40] of the exact score. *)
Definition scores_within (bound : nat) : bool :=
  forallb (fun total =>
    forallb (fun high =>
      forallb (fun medium =>
        forallb (fun low =>
          if (high + medium + low <=? total)%nat
          then within (aggregate_confidence_score high medium low total)
                      (exact_score_numerator high medium low)
                      (Z.of_nat total)
          else true)
          (seq 0 (S bound)))
        (seq 0 (S bound)))
      (seq 0 (S bound)))
    (seq 1 bound).

(** A batch with one clip of each confidence tier: 2.0 s, 0.7 s, 0.3 s. *)
Definition example_grades : list summary :=
  [example_clip (Val "Rich") (Val true) (Val f1_0) (Val f3_0);
   example_clip (Val "Poor") (Val true) (Val f0_0) (Val f0_7);
   example_clip (Val "Thick") (Val true) (Val f0_0) (Val f0_3)].

(** The batch of the end-to-end example with the prompt N/A on its first
    clip. *)
Definition example_batch_na : list summary :=
  [example_clip (Val "N/A") (Val true) (Val f1_0) (Val f3_0);
   example_clip (Val "Poor") (Val false) (Val f1_0) (Val f3_0);
   example_clip (Val "Thick") (Val true) (Val f1_0) Absent].

(** A clip document without any key, and one that passes the identifier
    checks and has no prompt, with a video start that is not a timestamp. *)
Definition empty_document : Dump4.document :=
  {| Dump4.id := "clipData-0";
     Dump4.to_dict := {| Dump4.data := Absent; Dump4.top := no_keys |} |}.

Definition unreadable_timestamps : Dump4.clip_data :=
  {| Dump4.clipId := Val "5c963ab3-s001-000";
     Dump4.doc_filename :=
       Val "lenovo_p1-5c963ab3-s001-2025-11-18T16:52:49.273236Z.mp4";
     Dump4.promptData := Absent;
     Dump4.doc_valid := Val true;
     Dump4.videoStart := Val "yesterday";
     Dump4.startButtonDownTimestamp := Val "2025-11-18T16:52:51.273236Z";
     Dump4.startButtonUpTimestamp := Absent;
     Dump4.restartButtonDownTimestamp := Absent;
     Dump4.swipeForwardTimestamp := Val "2025-11-18T16:52:54.773236Z";
     Dump4.swipeBackTimestamp := Absent;
     Dump4.other_keys := false |}.

(** Equality of the keys of a dictionary is decided by that of the values. *)
#[global] Instance field_eq_dec {A} `{EqDecision A} : EqDecision (field A).
Proof. solve_decision. Defined.

(** ** Sorting and formatting as Python does *)

Module PySorted.

Section Sorted.
Context {A : Type} (R : relation A) `{!RelDecision R}.

(** [x] goes before the first element that it is not above. *)
Fixpoint insert_before (x : A) (l : list A) : list A :=
  match l with
  | [] => [x]
  | y :: l' => if decide (R x y) then x :: l else y :: insert_before x l'
  end.

(** [sorted(l, key=...)] for the order [R] of the keys: the sort is stable,
    elements with equal keys keep the order they have in [l]. *)
Definition py_sorted (l : list A) : list A := foldr insert_before [] l.

End Sorted.

(** [s.zfill(width)] for a string of digits. *)
Fixpoint zeros (n : nat) : string :=
  match n with
  | O => ""
  | S n' => String "0" (zeros n')
  end.

Definition zfill (width : nat) (s : string) : string :=
  zeros (width - String.length s) +:+ s.

(** [f"{n:03d}"]: at least three characters, the sign included. *)
Definition format_03d (n : Z) : string :=
  if n <? 0 then "-" +:+ zfill 2 (pretty (- n)) else zfill 3 (pretty n).

(** [f"{x:.2f}"]: the exact binary value rounded to two decimals. *)
Definition format_2f (x : float) : string :=
  match x with
  | S754_nan => "nan"
  | S754_infinity s => if s then "-inf" else "inf"
  | S754_zero s => if s then "-0.00" else "0.00"
  | S754_finite s m e =>
      let hundredths :=
        match e with
        | Zneg p => round_half_even (100 * Zpos m) (2 ^ Zpos p)
        | _ => 100 * Zpos m * 2 ^ e
        end in
      (if s then "-" else "") +:+ pretty (hundredths / 100) +:+ "."
        +:+ zfill 2 (pretty (hundredths mod 100))
  end.

(** Truth value of a float: zero is false, NaN is true. *)
Definition float_truthy (x : float) : bool :=
  match x with
  | S754_zero _ => false
  | _ => true
  end.

End PySorted.

(** ** verify_clips.py: the report file *)

Module VerifyClipsCsv.
Import VerifyClips PySorted.

(** A row of [clip_verification_report.csv] below the header.  The first
    column is the name of the bucket in upper case, [valid_flag] is YES for
    [true] and NO for [false], the issues are joined with ["; "]. *)
Record csv_row := {
  confidence : bucket;
  row_prompt : option string;
  row_session : string;
  duration_s : string;
  valid_flag : bool;
  row_issues : list issue;
  row_filename : option string
}.

Definition row_of (confidence : bucket) (clip : clip_info) : csv_row :=
  {| confidence := confidence;
     row_prompt := ci_prompt clip;
     row_session := "s" +:+ format_03d (ci_session clip);
     duration_s :=
       match ci_duration clip with
       | Some d => if float_truthy d then format_2f d else "N/A"
       | None => "N/A"
       end;
     valid_flag := truthy (ci_valid clip);
     row_issues := ci_issues clip;
     row_filename := ci_filename clip |}.

(** [create_verification_csv(results)]: the rows, bucket after bucket in the
    order of the keys of [results]. *)
Definition create_verification_csv (results : results) : list csv_row :=
  flat_map (fun confidence =>
              map (row_of confidence) (lookup_bucket results confidence))
           [high_confidence; medium_confidence; low_confidence; invalid;
            incomplete].

End VerifyClipsCsv.

(** ** check.py: the reports *)

Module CheckReport.
Import Check PySorted.

(** [(x.get('sessionIndex', 0), x.get('clipIndex', 0))] *)
Definition sort_key (s : summary) : Z * Z :=
  (default 0 (sessionIndex s), default 0 (clipIndex s)).

(** The order of tuples of two integers. *)
Definition pair_le (a b : Z * Z) : Prop :=
  a.1 < b.1 ∨ (a.1 = b.1 ∧ a.2 ≤ b.2).

Definition by_session_clip (x y : summary) : Prop :=
  pair_le (sort_key x) (sort_key y).

#[global] Instance by_session_clip_dec : RelDecision by_session_clip.
Proof. intros x y. unfold by_session_clip, pair_le. apply _. Defined.

#[global] Instance by_session_clip_total : Total by_session_clip.
Proof.
  intros x y. unfold by_session_clip, pair_le.
  destruct (sort_key x), (sort_key y); simpl. lia.
Qed.

(** A value handed to [csv.writer]: None and the empty string are both
    written as an empty cell. *)
Inductive cell :=
| PyNone
| Str (s : string)
| Int (n : Z)
| Float (x : float).

Definition str_cell (v : option string) : cell :=
  match v with
  | Some s => Str s
  | None => PyNone
  end.

Definition float_cell (v : option float) : cell :=
  match v with
  | Some x => Float x
  | None => PyNone
  end.

(** A row of [clip_analysis_report.csv] below the header; the notes are
    fixed by the status. *)
Record report_row := {
  col_status : status;
  col_user_id : cell;
  col_session : string;
  col_clip_index : cell;
  col_filename : cell;
  col_prompt_text : cell;
  col_start_s : cell;
  col_end_s : cell
}.

Definition row_of (st : status) (clip : summary) : report_row :=
  {| col_status := st;
     col_user_id := Str (default "" (userId clip));
     col_session := "s" +:+ format_03d (default 0 (sessionIndex clip));
     col_clip_index :=
       match clipIndex clip with
       | Some n => Int n
       | None => Str ""
       end;
     col_filename := Str (default "" (filename clip));
     col_prompt_text :=
       str_cell (get (promptText clip)
                     (Some (if decide (st = MISSING_DATA) then "N/A" else "")));
     col_start_s :=
       if decide (st = MISSING_DATA) then Str ""
       else match start_s clip with
            | Absent => Str ""
            | f => float_cell (get f None)
            end;
     col_end_s :=
       if decide (st = MISSING_DATA) then Str ""
       else match end_s clip with
            | Absent => Str ""
            | f => float_cell (get f None)
            end |}.

(** [create_full_report]: the rows it writes. *)
Definition create_full_report (valid_clips invalid_clips missing_clips
    : list summary) : list report_row :=
  map (row_of VALID) (py_sorted by_session_clip valid_clips)
  ++ map (row_of INVALID) (py_sorted by_session_clip invalid_clips)
  ++ map (row_of MISSING_DATA) missing_clips.

(** The status column of the prompt statistics. *)
Inductive completion := DONE | INCOMPLETE.

(** A line of the statistics: prompt, completed, skipped, status. *)
Record prompt_line := {
  line_prompt : string;
  completed : nat;
  skipped : nat;
  line_status : completion
}.

(** [clip.get('promptText', 'Unknown')] *)
Definition prompt_key (s : summary) : option string :=
  get (promptText s) (Some "Unknown").

(** The number of clips of the list counted under a prompt. *)
Definition tally (clips : list summary) (prompt : string) : nat :=
  length (filter (fun s => prompt_key s = Some prompt) clips).

(** [print_prompt_statistics]: the lines it prints.  A null prompt among the
    keys cannot be sorted with strings nor formatted with [:<20]. *)
Definition print_prompt_statistics (valid_clips invalid_clips : list summary)
  : except (list prompt_line) :=
  let keys := map prompt_key (valid_clips ++ invalid_clips) in
  if existsb is_None keys then Raise TypeError else
  let all_prompts : gset string := list_to_set (omap id keys) in
  Ok (map (fun prompt =>
             let completed := tally valid_clips prompt in
             let skipped := tally invalid_clips prompt in
             {| line_prompt := prompt; completed := completed;
                skipped := skipped;
                line_status :=
                  if Nat.eqb skipped 0 then DONE else INCOMPLETE |})
          (Video2.sorted_strings all_prompts)).

(** The listing of the invalid clips formats
    [clip.get('sessionIndex', '???')] with [:03d]. *)
Definition print_invalid (invalid_clips : list summary) : except unit :=
  if forallb (fun s => negb (is_None (sessionIndex s))) invalid_clips
  then Ok tt else Raise ValueError.

(** [analyze_clips]: the rows written to the report file, and then the
    statistics printed and the three lists returned, unless the console
    output raises on the way. *)
Definition analyze_clips (clips : list summary)
  : list report_row
    * except (list prompt_line
              * (list summary * list summary * list summary)) :=
  let '(valid_clips, invalid_clips, missing_data_clips) :=
    categorize_all clips in
  (create_full_report valid_clips invalid_clips missing_data_clips,
   print_invalid invalid_clips ;;
   lines ← print_prompt_statistics valid_clips invalid_clips ;
   Ok (lines, (valid_clips, invalid_clips, missing_data_clips))).

End CheckReport.

(** ** dump_4.py: the dump *)

Module Dump4Main.
Import Dump4 PySorted.

(** [(x["summary"].get("filename", ""), x["summary"].get("clipIndex", 0))] *)
Definition clip_key (c : clip) : string * Z :=
  (default "" (filename (c_summary c)), default 0 (clipIndex (c_summary c))).

(** The order of tuples of a string and an integer. *)
Definition by_filename_clip (x y : clip) : Prop :=
  String.ltb (clip_key x).1 (clip_key y).1 = true
  ∨ ((clip_key x).1 = (clip_key y).1 ∧ (clip_key x).2 ≤ (clip_key y).2).

#[global] Instance by_filename_clip_dec : RelDecision by_filename_clip.
Proof. intros x y. unfold by_filename_clip. apply _. Defined.

#[global] Instance by_filename_clip_total : Total by_filename_clip.
Proof.
  intros x y. unfold by_filename_clip.
  destruct (clip_key x) as [f1 n1], (clip_key y) as [f2 n2]. simpl.
  unfold String.ltb. rewrite (String.compare_antisym f2 f1).
  destruct (String.compare f1 f2) eqn:Hc; simpl; auto.
  apply String.compare_eq_iff in Hc as ->.
  destruct (decide (n1 ≤ n2)); [left|right]; right; split; (done || lia).
Qed.

(** [x.get("filename", "")] on a session document. *)
Definition session_key (d : clip_data) : option string :=
  get (doc_filename d) (Some "").

Definition by_session_filename (x y : clip_data) : Prop :=
  String.le (default "" (session_key x)) (default "" (session_key y)).

#[global] Instance by_session_filename_dec : RelDecision by_session_filename.
Proof. intros x y. unfold by_session_filename. apply _. Defined.

#[global] Instance by_session_filename_total : Total by_session_filename.
Proof. intros x y. unfold by_session_filename. apply total, _. Qed.

(** [all_sessions.sort(key=...)]: a key that is None cannot be compared as
    soon as there are two sessions. *)
Definition sort_sessions (all_sessions : list clip_data)
  : except (list clip_data) :=
  if (2 <=? length all_sessions)%nat
     && existsb (fun d => is_None (session_key d)) all_sessions
  then Raise TypeError
  else Ok (py_sorted by_session_filename all_sessions).

(** What [main] writes: the two lists of the JSON dump and the rows of the
    CSV file below the header, each the summary it is written from. *)
Record dump := {
  json_clips : list clip;
  json_sessions : list clip_data;
  csv : list summary
}.

Section Main.
Variable fromisoformat : string → except datetime.

(** The loop over the users, each given by the documents of its stream:
    they go through [get_data], whose lists are appended to those collected
    so far.  A read that times out is repeated until it succeeds, so every
    user counts with one complete read; any other exception leaves the
    loop. *)
Fixpoint collect_users (users : list (list document))
    (all_clips : list clip) (all_sessions : list clip_data)
  : except (list clip * list clip_data) :=
  match users with
  | [] => Ok (all_clips, all_sessions)
  | docs :: rest =>
      r ← get_data fromisoformat docs ;
      collect_users rest (all_clips ++ clips r) (all_sessions ++ sessions r)
  end.

Definition main (users : list (list document)) : except dump :=
  '(all_clips, all_sessions) ← collect_users users [] [] ;
  let all_clips := py_sorted by_filename_clip all_clips in
  all_sessions ← sort_sessions all_sessions ;
  Ok {| json_clips := all_clips;
        json_sessions := all_sessions;
        csv := filter (fun s => truthy (get (valid s) None) = true)
                      (map c_summary all_clips) |}.

End Main.

End Dump4Main.

(** ** video_2.py: the template of the expected prompts *)

Module Video2Template.

(** The text that [create_expected_prompts_template] writes. *)
Definition template : string :=
"# Expected Prompts Template
# Add one prompt per line (without quotes)
# Lines starting with # are ignored

Rich
Poor
Thick
Thin
Expensive
Cheap
Flat
Curved
Loud
Mean
Tight
High
Low
Soft
Hard
Deep
Shallow
Clean
Happy
Dirty
Strong
Weak
Dead
Alive
Male
Female
".

(** [for line in f]: the lines of a text, each with its newline.  A line
    ends at a line feed only; a carriage return, which Python's text mode
    also takes for the end of a line, does not occur in the template. *)
Fixpoint lines_from (line : string) (text : string) : list string :=
  match text with
  | EmptyString => if String.eqb line "" then [] else [String.rev line]
  | String c text' =>
      if Ascii.eqb c "010"
      then String.rev (String c line) :: lines_from "" text'
      else lines_from (String c line) text'
  end.

Definition readlines (text : string) : list string := lines_from "" text.

End Video2Template.

(** ** Vocabulary of the further statements *)

(** The call returns. *)
Definition returns {A} (m : except A) : Prop := ∃ a, m = Ok a.

(** What the outcome of a document adds to each of the three lists. *)
Definition kept_clip (o : except Dump4.outcome) : option Dump4.clip :=
  match o with
  | Ok (Dump4.Clip c) => Some c
  | _ => None
  end.

Definition kept_session (o : except Dump4.outcome)
  : option Dump4.clip_data :=
  match o with
  | Ok (Dump4.Session d) => Some d
  | _ => None
  end.

Definition skip_message (doc : Dump4.document) (o : except Dump4.outcome)
  : option (string * Dump4.skip_reason) :=
  match o with
  | Ok (Dump4.Skipped r) => Some (Dump4.id doc, r)
  | _ => None
  end.

(** A clip document that passes the checks of the identifier and of the
    filename: [get_data] goes on to compute its bounds. *)
Definition passes_checks (doc : Dump4.document) (data : Dump4.clip_data)
  : Prop :=
  String.prefix "clipData-" (Dump4.id doc) = true
  ∧ Dump4.data_or_doc (Dump4.to_dict doc) = Some data
  ∧ ∃ m1 m2,
      Re.re_match Dump4.clip_id_pattern
        (default "" (get (Dump4.clipId data) None)) = Some m1
      ∧ Re.re_match Dump4.filename_pattern
          (default "" (get (Dump4.doc_filename data) None)) = Some m2
      ∧ Re.int_group m1 1 = Re.int_group m2 3.

(** The shape of a filename that [get_data] accepts:
    [(tutorial-)?<user>-<device>-s<3 digits>-<stamp>.mp4], where the user id
    is one or more characters other than a newline followed by one or more
    characters other than a dash, and a single newline may follow. *)
Definition filename_shape (filename : string)
    (tutorial_prefix : option string) (user_id session : string) : Prop :=
  ∃ u1 u2 device stamp nl,
    filename = default "" tutorial_prefix +:+ user_id +:+ "-" +:+ device
               +:+ "-s" +:+ session +:+ "-" +:+ stamp +:+ ".mp4" +:+ nl
    ∧ (tutorial_prefix = None ∨ tutorial_prefix = Some "tutorial-")
    ∧ user_id = u1 +:+ u2
    ∧ u1 ≠ "" ∧ all_chars Re.dot u1 = true
    ∧ u2 ≠ "" ∧ all_chars Re.not_dash u2 = true
    ∧ device ≠ "" ∧ all_chars Re.not_dash device = true
    ∧ String.length session = 3%nat ∧ all_chars Re.digit session = true
    ∧ stamp ≠ "" ∧ all_chars Re.dot stamp = true
    ∧ (nl = "" ∨ nl = String "010" "").

(** The part of the filename pattern after [(tutorial-)?]. *)
Definition after_prefix : Re.regex :=
  Re.Seq (Re.Group 2 (Re.Seq (Re.Plus Re.dot) (Re.Plus Re.not_dash)))
    (Re.Seq (Re.Lit "-")
       (Re.Seq (Re.Plus Re.not_dash)
          (Re.Seq (Re.Lit "-s")
             (Re.Seq (Re.Group 3 (Re.Times 3 Re.digit))
                (Re.Seq (Re.Lit "-")
                   (Re.Seq (Re.Plus Re.dot)
                      (Re.Seq (Re.Lit ".mp4") Re.Eos))))))).

(** What holds of every clip that [get_data] returns for the documents. *)
Definition dumped (docs : list Dump4.document) (c : Dump4.clip) : Prop :=
  let s := Dump4.c_summary c in
  (∃ doc, doc ∈ docs ∧ String.prefix "clipData-" (Dump4.id doc) = true
          ∧ Dump4.full c = Dump4.to_dict doc)
  ∧ (∃ u, userId s = Some u ∧ (2 ≤ String.length u)%nat)
  ∧ (∃ n, sessionIndex s = Some n ∧ 0 ≤ n ≤ 999)
  ∧ (∃ n, clipIndex s = Some n ∧ 0 ≤ n ≤ 999)
  ∧ (∃ f, filename s = Some f ∧ f ≠ "")
  ∧ has_key (promptText s) = true ∧ has_key (valid s) = true
  ∧ tutorial s ≠ Some false
  ∧ start_s s ≠ Null ∧ end_s s ≠ Null
  ∧ (start_s s = Absent ↔ end_s s = Absent).

(** The ten decimal digits. *)
Definition decimal_digits : list ascii :=
  ["0"; "1"; "2"; "3"; "4"; "5"; "6"; "7"; "8"; "9"]%char.

(** The bucket that goes with an issue, and the duration the issue cites. *)
Definition issue_bucket (i : VerifyClips.issue) : VerifyClips.bucket :=
  match i with
  | VerifyClips.User_marked_as_INVALID => VerifyClips.invalid
  | VerifyClips.Missing_critical_data => VerifyClips.incomplete
  | VerifyClips.Too_short _ => VerifyClips.low_confidence
  | VerifyClips.Unusually_long _ => VerifyClips.medium_confidence
  | VerifyClips.Very_short _ => VerifyClips.medium_confidence
  | VerifyClips.Good_duration _ => VerifyClips.high_confidence
  end.

Definition issue_duration (i : VerifyClips.issue) : option float :=
  match i with
  | VerifyClips.User_marked_as_INVALID => None
  | VerifyClips.Missing_critical_data => None
  | VerifyClips.Too_short d => Some d
  | VerifyClips.Unusually_long d => Some d
  | VerifyClips.Very_short d => Some d
  | VerifyClips.Good_duration d => Some d
  end.

(** The buckets in the order of the keys of [results]. *)
Definition buckets : list VerifyClips.bucket :=
  [VerifyClips.high_confidence; VerifyClips.medium_confidence;
   VerifyClips.low_confidence; VerifyClips.invalid; VerifyClips.incomplete].

(** A float that is a number: a zero or a finite value. *)
Definition is_number (x : float) : bool :=
  match x with
  | S754_zero _ => true
  | S754_finite _ _ _ => true
  | _ => false
  end.

(** The console report of [verify_clip_quality] meets a null prompt in the
    record: the record goes to a bucket that is printed. *)
Definition unprintable (s : summary) : Prop :=
  promptText s = Null
  ∧ VerifyClips.bucket_of s ≠ VerifyClips.high_confidence
  ∧ VerifyClips.bucket_of s ≠ VerifyClips.incomplete.

(** The first and the last character of the string are not white space. *)
Definition trimmed (s : string) : Prop :=
  Video2.lstrip s = s ∧ Video2.lstrip (String.rev s) = String.rev s.

(** The header line of the template that announces how comments are
    treated. *)
Definition comment_line : string := "# Lines starting with # are ignored".

(** The datetime carries a UTC offset. *)
Definition aware (t : Dump4.datetime) : bool :=
  negb (is_None (Dump4.utcoffset t)).

(** A clip document whose video start is given in UTC and whose button
    timestamps carry no offset. *)
Definition mixed_timestamps : Dump4.clip_data :=
  {| Dump4.clipId := Val "5c963ab3-s001-000";
     Dump4.doc_filename :=
       Val "lenovo_p1-5c963ab3-s001-2025-11-18T16:52:49.273236Z.mp4";
     Dump4.promptData := Val {| Dump4.prompt := Val "Rich" |};
     Dump4.doc_valid := Val true;
     Dump4.videoStart := Val "2025-11-18T16:52:49.273236Z";
     Dump4.startButtonDownTimestamp := Val "2025-11-18T16:52:51.273236";
     Dump4.startButtonUpTimestamp := Absent;
     Dump4.restartButtonDownTimestamp := Absent;
     Dump4.swipeForwardTimestamp := Val "2025-11-18T16:52:54.773236";
     Dump4.swipeBackTimestamp := Absent;
     Dump4.other_keys := true |}.

(** ** Further example records *)

(** A stream of four documents: a clip with its timestamps, a session
    document, a clip whose identifier names another session than its
    filename, and a clip without a prompt. *)
Definition example_stream : list Dump4.document :=
  [example_document "clipData-1" example_timestamps;
   example_document "sessionData-1" (example_data "5c963ab3-s001" Absent);
   example_document "clipData-2" (example_data "5c963ab3-s002-000" Absent);
   example_document "clipData-3" (example_data "5c963ab3-s001-001" Null)].

(** What [get_data] returns for a stream that it reads to the end. *)
Definition dump_of (docs : list Dump4.document) : Dump4.collected :=
  match Dump4.get_data Iso.fromisoformat docs with
  | Ok r => r
  | Raise _ =>
      {| Dump4.clips := []; Dump4.sessions := []; Dump4.skipped := [] |}
  end.

(** What [main] writes for users whose streams it reads to the end. *)
Definition files_of (users : list (list Dump4.document)) : Dump4Main.dump :=
  match Dump4Main.main Iso.fromisoformat users with
  | Ok d => d
  | Raise _ =>
      {| Dump4Main.json_clips := []; Dump4Main.json_sessions := [];
         Dump4Main.csv := [] |}
  end.

(** The filename of the examples and the groups of its match. *)
Definition example_filename : string :=
  "lenovo_p1-5c963ab3-s001-2025-11-18T16:52:49.273236Z.mp4".

Definition example_match : gmap nat string :=
  default ∅ (Re.re_match Dump4.filename_pattern example_filename).

(** The lines of the statistics for lists that can be printed. *)
Definition statistics_of (valid_clips invalid_clips : list summary)
  : list CheckReport.prompt_line :=
  match CheckReport.print_prompt_statistics valid_clips invalid_clips with
  | Ok lines => lines
  | Raise _ => []
  end.

(** * Properties *)

Set Warnings "-clear-no-such-hyp".

(** ** The order of binary64 numbers against the thresholds *)

Section FloatOrder.

Ltac compare_cases :=
  repeat match goal with
  | |- context [Z.compare ?a ?b] => destruct (Z.compare_spec a b)
  | |- context [Pos.compare_cont Eq ?a ?b] =>
      change (Pos.compare_cont Eq a b) with (Pos.compare a b);
      destruct (Pos.compare_spec a b)
  end.

Lemma flt_below d mc ec :
  flt d (S754_finite false mc ec) = true ↔ below d mc ec.
Proof.
  destruct d as [[]|[]| |[] m e]; cbv [flt SFltb SFcompare below];
    compare_cases; intuition (try discriminate; try lia).
Qed.

Lemma flt_above d mc ec :
  flt (S754_finite false mc ec) d = true ↔ above d mc ec.
Proof.
  destruct d as [[]|[]| |[] m e]; cbv [flt SFltb SFcompare above];
    compare_cases; intuition (try discriminate; try lia).
Qed.

Lemma fle_not_above d mc ec :
  fle d (S754_finite false mc ec) = true ↔ d ≠ S754_nan ∧ ¬ above d mc ec.
Proof.
  destruct d as [[]|[]| |[] m e]; cbv [fle SFleb SFcompare above];
    compare_cases; intuition (try discriminate; try lia).
Qed.

Lemma fle_not_below d mc ec :
  fle (S754_finite false mc ec) d = true ↔ d ≠ S754_nan ∧ ¬ below d mc ec.
Proof.
  destruct d as [[]|[]| |[] m e]; cbv [fle SFleb SFcompare below];
    compare_cases; intuition (try discriminate; try lia).
Qed.

Lemma flt_zero d :
  flt d f0_0 = true ↔
  d = S754_infinity true ∨ ∃ m e, d = S754_finite true m e.
Proof.
  destruct d as [[]|[]| |[] m e]; cbv [flt SFltb SFcompare f0_0];
    split; intros H; try discriminate; eauto;
    destruct H as [H | (? & ? & H)]; discriminate.
Qed.

Ltac float_order d :=
  unfold f0_5, f1_0, f20, f20_0001;
  rewrite ?flt_below, ?flt_above, ?fle_not_above, ?fle_not_below;
  destruct d as [[]|[]| |[] m e]; cbn [below above];
  try tauto; intuition (congruence || lia).

(** A negative duration is below half a second. *)
Lemma flt_half_of_neg d : flt d f0_0 = true → flt d f0_5 = true.
Proof.
  rewrite flt_zero. unfold f0_5. rewrite flt_below.
  intros [-> | (m & e & ->)]; cbn; auto.
Qed.

Lemma not_flt_half d : fle f0_5 d = true → flt d f0_5 = false.
Proof. intros H. apply not_true_is_false. revert H. float_order d. Qed.

Lemma not_above_20 d : flt d f1_0 = true → flt f20 d = false.
Proof. intros H. apply not_true_is_false. revert H. float_order d. Qed.

Lemma not_flt_one d : fle f1_0 d = true → flt d f1_0 = false.
Proof. intros H. apply not_true_is_false. revert H. float_order d. Qed.

Lemma not_flt_20 d : fle d f20 = true → flt f20 d = false.
Proof. intros H. apply not_true_is_false. revert H. float_order d. Qed.

Lemma fle_half_of_one d : fle f1_0 d = true → fle f0_5 d = true.
Proof. float_order d. Qed.

Lemma fle_one_of_above_20 d : flt f20 d = true → fle f1_0 d = true.
Proof. float_order d. Qed.

End FloatOrder.

(** ** The Validity Classifier *)

Section Classifier.
Import VerifyClips.

(** [valid] false, null or missing: the record is invalid, whatever else it
    holds. *)
Lemma bucket_of_not_valid s :
  get (valid s) (Some false) ≠ Some true → bucket_of s = invalid.
Proof.
  unfold bucket_of, categorize. intros H.
  destruct (get (valid s) (Some false)) as [[]|]; done.
Qed.

Lemma bucket_of_incomplete s :
  valid s = Val true →
  get (start_s s) None = None ∨ get (end_s s) None = None
    ∨ promptText s = Absent ∨ promptText s = Val "N/A" →
  bucket_of s = incomplete.
Proof.
  unfold bucket_of, categorize. intros -> H. cbn.
  destruct (get (start_s s) None) as [a|]; [|done].
  destruct (get (end_s s) None) as [b|]; [|done].
  destruct H as [?|[?|[->| ->]]]; done.
Qed.

Lemma bucket_of_tier s p a b :
  valid s = Val true → promptText s = Val p → p ≠ "N/A" →
  start_s s = Val a → end_s s = Val b →
  bucket_of s = tier (fsub b a).
Proof.
  unfold bucket_of, categorize, tier. intros -> -> Hp -> ->. cbn.
  apply String.eqb_neq in Hp. rewrite Hp. cbn.
  repeat case_match; done.
Qed.

(** The same chain decides for a prompt that is null. *)
Lemma bucket_of_null_prompt s a b :
  valid s = Val true → promptText s = Null →
  start_s s = Val a → end_s s = Val b →
  bucket_of s = tier (fsub b a).
Proof.
  unfold bucket_of, categorize, tier. intros -> -> -> ->. cbn.
  repeat case_match; done.
Qed.

Lemma lookup_append_to b c r b' :
  lookup_bucket (append_to b c r) b' =
  if decide (b = b') then lookup_bucket r b' ++ [c] else lookup_bucket r b'.
Proof. destruct b, b'; reflexivity. Qed.

Lemma categorize_all_from clips r b :
  lookup_bucket (categorize_all clips r) b =
  lookup_bucket r b
  ++ map (fun s => snd (categorize s))
         (filter (fun s => bucket_of s = b) clips).
Proof.
  revert r. induction clips as [|s clips IH]; intros r.
  - cbn. by rewrite app_nil_r.
  - unfold categorize_all in *. cbn [fold_left]. rewrite IH.
    rewrite lookup_append_to, filter_cons. fold (bucket_of s).
    destruct (decide (bucket_of s = b)); [|done].
    by rewrite <- app_assoc.
Qed.

(** Every bucket holds exactly the records that [categorize] sends there, in
    the order of the batch. *)
Lemma categorize_all_partition clips b :
  lookup_bucket (categorize_all clips no_results) b =
  map (fun s => snd (categorize s)) (filter (fun s => bucket_of s = b) clips).
Proof. rewrite categorize_all_from. by destruct b. Qed.

Lemma count_total clips :
  (count high_confidence clips + count medium_confidence clips
   + count low_confidence clips + count invalid clips
   + count incomplete clips = length clips)%nat.
Proof.
  unfold count. induction clips as [|s clips IH]; [done|].
  rewrite !filter_cons. cbn [length]. rewrite <- IH.
  destruct (bucket_of s); repeat case_decide; try done; cbn [length]; lia.
Qed.

Lemma length_bucket clips k :
  length (lookup_bucket (categorize_all clips no_results) k) = count k clips.
Proof. rewrite categorize_all_partition. by rewrite length_map. Qed.

(** C1 (as amended): a record with [valid] true, a prompt string other than
    the marker ["N/A"] and both bounds goes to the tier of its duration
    [end_s - start_s]: below 0.5 low, from 0.5 to below 1 medium, from 1 to
    20 high, above 20 medium; 0.5 is medium, 20 is high, 20.0001 is medium.
    Invalid comes before incomplete, incomplete before the tiers, and every
    record of a batch lands in exactly one bucket. *)
Theorem C1_confidence_tiers (clips : list summary) (s : summary)
    (p : string) (a b : float) :
  valid s = Val true → promptText s = Val p → p ≠ "N/A" →
  start_s s = Val a → end_s s = Val b →
  let duration := fsub b a in
  (flt duration f0_5 = true → bucket_of s = low_confidence)
  ∧ (fle f0_5 duration = true → flt duration f1_0 = true →
     bucket_of s = medium_confidence)
  ∧ (fle f1_0 duration = true → fle duration f20 = true →
     bucket_of s = high_confidence)
  ∧ (flt f20 duration = true → bucket_of s = medium_confidence)
  ∧ (duration = f0_5 → bucket_of s = medium_confidence)
  ∧ (duration = f20 → bucket_of s = high_confidence)
  ∧ (duration = f20_0001 → bucket_of s = medium_confidence)
  ∧ (∀ s', get (valid s') (Some false) ≠ Some true → bucket_of s' = invalid)
  ∧ (∀ s', valid s' = Val true →
       get (start_s s') None = None ∨ get (end_s s') None = None →
       bucket_of s' = incomplete)
  ∧ (∀ k, lookup_bucket (categorize_all clips no_results) k =
          map (fun s' => snd (categorize s'))
              (filter (fun s' => bucket_of s' = k) clips))
  ∧ (count high_confidence clips + count medium_confidence clips
     + count low_confidence clips + count invalid clips
     + count incomplete clips = length clips)%nat.
Proof.
  intros Hv Hp Hna Ha Hb duration.
  pose proof (bucket_of_tier s p a b Hv Hp Hna Ha Hb) as Ht.
  fold duration in Ht. rewrite Ht. unfold tier.
  split; [by intros ->|].
  split.
  { intros H1 H2. rewrite (not_flt_half _ H1), (not_above_20 _ H2).
    by rewrite H2. }
  split.
  { intros H1 H2.
    rewrite (not_flt_half _ (fle_half_of_one _ H1)), (not_flt_20 _ H2).
    by rewrite (not_flt_one _ H1). }
  split.
  { intros H.
    rewrite (not_flt_half _ (fle_half_of_one _ (fle_one_of_above_20 _ H))).
    by rewrite H. }
  split; [by intros ->|]. split; [by intros ->|]. split; [by intros ->|].
  split; [apply bucket_of_not_valid|].
  split; [intros s' H1 H2; apply bucket_of_incomplete; tauto|].
  split; [apply categorize_all_partition|apply count_total].
Qed.

(** C1, witness: a valid clip from 1.0 s to 3.0 s with the prompt "Rich" is
    of high confidence. *)
Lemma C1_confidence_tiers_witness :
  bucket_of (example_clip (Val "Rich") (Val true) (Val f1_0) (Val f3_0))
  = high_confidence.
Proof.
  refine (proj1 (proj2 (proj2
    (C1_confidence_tiers example_batch
       (example_clip (Val "Rich") (Val true) (Val f1_0) (Val f3_0))
       "Rich" f1_0 f3_0 eq_refl eq_refl _ eq_refl eq_refl))) _ _);
    [discriminate | reflexivity | reflexivity].
Defined.

(** C1, counterexample to the claim as stated: a valid record whose prompt
    is the string "N/A", from 0.0 s to 2.0 s, has a duration between 1 and
    20 and is classified incomplete, not high confidence. *)
Lemma C1_counterexample :
  let s := example_clip (Val "N/A") (Val true) (Val f0_0) (Val f2_0) in
  valid s = Val true ∧ promptText s = Val "N/A"
  ∧ start_s s = Val f0_0 ∧ end_s s = Val f2_0
  ∧ fle f1_0 (fsub f2_0 f0_0) = true ∧ fle (fsub f2_0 f0_0) f20 = true
  ∧ bucket_of s = incomplete ∧ bucket_of s ≠ high_confidence.
Proof. cbn. repeat split; done. Qed.

(** C9 (as amended): a record with [valid] true, a prompt string other than
    the marker ["N/A"] and both bounds whose duration [end_s - start_s] is
    negative is of low confidence; it is neither incomplete nor invalid. *)
Theorem C9_negative_duration (s : summary) (p : string) (a b : float) :
  valid s = Val true → promptText s = Val p → p ≠ "N/A" →
  start_s s = Val a → end_s s = Val b →
  flt (fsub b a) f0_0 = true →
  bucket_of s = low_confidence
  ∧ bucket_of s ≠ incomplete ∧ bucket_of s ≠ invalid.
Proof.
  intros Hv Hp Hna Ha Hb Hneg.
  rewrite (bucket_of_tier s p a b Hv Hp Hna Ha Hb). unfold tier.
  by rewrite (flt_half_of_neg _ Hneg).
Qed.

(** C9, witness: a valid clip that starts at 5.0 s and ends at 3.0 s. *)
Lemma C9_negative_duration_witness :
  bucket_of (example_clip (Val "Rich") (Val true) (Val f5_0) (Val f3_0))
  = low_confidence.
Proof.
  refine (proj1
    (C9_negative_duration
       (example_clip (Val "Rich") (Val true) (Val f5_0) (Val f3_0))
       "Rich" f5_0 f3_0 eq_refl eq_refl _ eq_refl eq_refl _));
    [discriminate | reflexivity].
Defined.

(** C9, counterexample to the claim as stated: a valid record whose prompt
    is the string "N/A", from 5.0 s to 3.0 s, has a negative duration and
    is classified incomplete, not low confidence. *)
Lemma C9_counterexample :
  let s := example_clip (Val "N/A") (Val true) (Val f5_0) (Val f3_0) in
  valid s = Val true ∧ promptText s = Val "N/A"
  ∧ start_s s = Val f5_0 ∧ end_s s = Val f3_0
  ∧ flt (fsub f3_0 f5_0) f0_0 = true
  ∧ bucket_of s = incomplete ∧ bucket_of s ≠ low_confidence.
Proof. cbn. repeat split; done. Qed.

(** A valid record that lacks the prompt key, or a bound, is incomplete for
    [verify_clip_quality]; one that lacks the prompt key or a bound key is
    among the missing data of [analyze_clips]. *)
Lemma missing_key_incomplete (s : summary) :
  valid s = Val true →
  (promptText s = Absent
   ∨ get (start_s s) None = None ∨ get (end_s s) None = None →
   bucket_of s = incomplete)
  ∧ (promptText s = Absent ∨ start_s s = Absent ∨ end_s s = Absent →
     Check.status_of s = Check.MISSING_DATA).
Proof.
  intros Hv. split.
  - intros H. apply bucket_of_incomplete; tauto.
  - unfold Check.status_of.
    intros [->|[->| ->]]; cbn; try done;
      destruct (has_key (start_s s)), (has_key (end_s s)); done.
Qed.

(** C3, the code at the failing input: a valid record from 0.0 s to 2.0 s
    whose [promptText] is null, which is what [dump_4.py] writes for a
    document without a prompt, is classified high confidence by
    [verify_clip_quality] and valid by [analyze_clips], not incomplete. *)
Theorem C3_null_prompt_not_incomplete :
  let s := example_clip Null (Val true) (Val f0_0) (Val f2_0) in
  valid s = Val true ∧ promptText s = Null
  ∧ bucket_of s = high_confidence ∧ bucket_of s ≠ incomplete
  ∧ Check.status_of s = Check.VALID
  ∧ Check.status_of s ≠ Check.MISSING_DATA.
Proof. cbn. repeat split; done. Qed.

(** C10: a record whose [valid] key is missing or null is classified by
    both classifiers as the same record with [valid] false; it is invalid
    for [verify_clip_quality], invalid for [analyze_clips] when the bounds
    and the prompt are there, and never in a confidence tier or among the
    valid clips. *)
Theorem C10_missing_valid_flag (s : summary) :
  valid s = Absent ∨ valid s = Null →
  bucket_of s = invalid
  ∧ bucket_of s = bucket_of (with_valid (Val false) s)
  ∧ Check.status_of s = Check.status_of (with_valid (Val false) s)
  ∧ (has_key (start_s s) = true → has_key (end_s s) = true →
     has_key (promptText s) = true →
     Check.status_of s = Check.INVALID)
  ∧ Check.status_of s ≠ Check.VALID.
Proof.
  intros Hv.
  assert (Hs : get (valid s) (Some false) ≠ Some true)
    by (destruct Hv as [-> | ->]; done).
  split; [by apply bucket_of_not_valid|].
  split; [rewrite (bucket_of_not_valid s Hs); by rewrite bucket_of_not_valid|].
  unfold Check.status_of. cbn.
  destruct Hv as [-> | ->]; cbn;
    destruct (has_key (start_s s)), (has_key (end_s s)),
      (has_key (promptText s)); cbn; repeat split; done.
Qed.

(** C10, witness: a clip of two seconds with a prompt and a null [valid]. *)
Lemma C10_missing_valid_flag_witness :
  let s := example_clip (Val "Rich") Null (Val f1_0) (Val f3_0) in
  bucket_of s = invalid ∧ Check.status_of s = Check.INVALID.
Proof.
  intros s.
  destruct (C10_missing_valid_flag s (or_intror eq_refl))
    as (H1 & _ & _ & H2 & _).
  split; [exact H1 | exact (H2 eq_refl eq_refl eq_refl)].
Defined.

Lemma ci_prompt_categorize s :
  ci_prompt (snd (categorize s)) = get (promptText s) (Some "N/A").
Proof. unfold categorize. repeat case_match; reflexivity. Qed.

Lemma print_prompts_ok l :
  Forall (fun c => ci_prompt c ≠ None) l → print_prompts l = Ok tt.
Proof.
  intros H. unfold print_prompts.
  replace (forallb _ l) with true; [done|]. symmetry.
  apply forallb_forall. intros c Hc%list_elem_of_In.
  rewrite Forall_forall in H. specialize (H c Hc).
  by destruct (ci_prompt c).
Qed.

Lemma printed_bucket clips k :
  Forall reviewable clips →
  k ≠ high_confidence → k ≠ incomplete →
  Forall (fun c => ci_prompt c ≠ None)
         (lookup_bucket (categorize_all clips no_results) k).
Proof.
  intros H Hh Hi. rewrite categorize_all_partition.
  apply Forall_forall. intros c (s & -> & Hs)%list_elem_of_fmap.
  apply list_elem_of_filter in Hs as [Hk Hs].
  rewrite Forall_forall in H. specialize (H s Hs).
  rewrite ci_prompt_categorize. unfold reviewable in H.
  destruct (promptText s); cbn; try done.
  destruct H as [H|H]; [done| |]; congruence.
Qed.

(** The score of a batch that is not empty. *)
Lemma calculate_overall_confidence_score clips :
  clips ≠ [] →
  calculate_overall_confidence (categorize_all clips no_results)
                               (length clips) =
  Ok (aggregate_confidence_score
        (count high_confidence clips) (count medium_confidence clips)
        (count low_confidence clips) (length clips)).
Proof.
  intros Hne. unfold calculate_overall_confidence.
  change (r_high_confidence ?r) with (lookup_bucket r high_confidence).
  change (r_medium_confidence ?r) with (lookup_bucket r medium_confidence).
  change (r_low_confidence ?r) with (lookup_bucket r low_confidence).
  rewrite !length_bucket. by destruct clips.
Qed.

Lemma verify_clip_quality_score clips :
  clips ≠ [] → Forall reviewable clips →
  verify_clip_quality clips =
  Ok (categorize_all clips no_results,
      aggregate_confidence_score
        (count high_confidence clips) (count medium_confidence clips)
        (count low_confidence clips) (length clips)).
Proof.
  intros Hne Hrev. unfold verify_clip_quality.
  rewrite (calculate_overall_confidence_score clips Hne).
  destruct clips as [|s0 clips']; [done|]. set (clips := s0 :: clips') in *.
  cbn [length mbind except_bind].
  rewrite (print_prompts_ok (_ ++ _)); cycle 1.
  { apply Forall_app. split.
    - by apply (printed_bucket clips medium_confidence).
    - by apply (printed_bucket clips low_confidence). }
  cbn [mbind except_bind].
  rewrite print_prompts_ok by (by apply (printed_bucket clips invalid)).
  reflexivity.
Qed.

(** An empty batch has no score: the breakdown divides by zero. *)
Lemma verify_clip_quality_empty :
  verify_clip_quality [] = Raise ZeroDivisionError.
Proof. reflexivity. Qed.

Lemma scores_within_20 : scores_within 20 = true.
Proof. vm_compute. reflexivity. Qed.

Lemma scores_within_sound (bound high medium low total : nat) :
  scores_within bound = true →
  (1 ≤ total ≤ bound)%nat → (high + medium + low ≤ total)%nat →
  within (aggregate_confidence_score high medium low total)
         (exact_score_numerator high medium low) (Z.of_nat total) = true.
Proof.
  intros H Ht Hsum.
  unfold scores_within in H. rewrite forallb_forall in H.
  specialize (H total). rewrite in_seq in H.
  specialize (H ltac:(lia)). rewrite forallb_forall in H.
  specialize (H high). rewrite in_seq in H.
  specialize (H ltac:(lia)). rewrite forallb_forall in H.
  specialize (H medium). rewrite in_seq in H.
  specialize (H ltac:(lia)). rewrite forallb_forall in H.
  specialize (H low). rewrite in_seq in H.
  specialize (H ltac:(lia)).
  rewrite (proj2 (Nat.leb_le _ _) Hsum) in H. exact H.
Qed.

(** Over at most 20 records the float score is the exact score up to
    [2^-40]. *)
Lemma score_within (high medium low total : nat) :
  (1 ≤ total ≤ 20)%nat → (high + medium + low ≤ total)%nat →
  within (aggregate_confidence_score high medium low total)
         (exact_score_numerator high medium low) (Z.of_nat total) = true.
Proof.
  exact (scores_within_sound 20 high medium low total scores_within_20).
Qed.

(** C6 (as amended): for a batch that is not empty the score is
    [(countHigh·1.0 + countMedium·0.7 + countLow·0.3) / totalRecords × 100]
    over the counts of the classifier and the number of all records, and
    [verify_clip_quality] prints it whenever its console report can print
    the prompts.  The weights are exactly 1.0, 0.7 and 0.3: over at most 20
    records the score is within [2^-40] of the exact fraction
    [(10·countHigh + 7·countMedium + 3·countLow)·10 / totalRecords]; one
    medium clip alone scores 70.0, one low clip alone 30.0, one clip of each
    tier with a fourth record 50.0, and one clip of each tier is printed as
    66.7.  For three clips, (a) valid with a prompt other than N/A and a
    duration of 2.0 s, (b) not valid, with a prompt that is not null, (c)
    valid without [end_s], there is 1 high confidence, 1 invalid and 1
    incomplete record and the score is printed as 33.3. *)
Theorem C6_aggregate_confidence_score (clips : list summary)
    (a b c : summary) (pa : string) (sa ea : float) :
  clips ≠ [] →
  valid a = Val true → promptText a = Val pa → pa ≠ "N/A" →
  start_s a = Val sa → end_s a = Val ea → fsub ea sa = f2_0 →
  valid b = Val false → promptText b ≠ Null →
  valid c = Val true → get (end_s c) None = None →
  calculate_overall_confidence (categorize_all clips no_results)
                               (length clips) =
    Ok (aggregate_confidence_score
          (count high_confidence clips) (count medium_confidence clips)
          (count low_confidence clips) (length clips))
  ∧ (Forall reviewable clips →
     verify_clip_quality clips =
       Ok (categorize_all clips no_results,
           aggregate_confidence_score
             (count high_confidence clips) (count medium_confidence clips)
             (count low_confidence clips) (length clips)))
  ∧ ((length clips ≤ 20)%nat →
     ∃ score,
       calculate_overall_confidence (categorize_all clips no_results)
                                    (length clips) = Ok score
       ∧ within score
           (exact_score_numerator
              (count high_confidence clips) (count medium_confidence clips)
              (count low_confidence clips))
           (Z.of_nat (length clips)) = true)
  ∧ aggregate_confidence_score 0 1 0 1 = f70
  ∧ aggregate_confidence_score 0 0 1 1 = f30
  ∧ aggregate_confidence_score 1 1 1 4 = f50
  ∧ (∃ r score,
       verify_clip_quality example_grades = Ok (r, score)
       ∧ length (r_high_confidence r) = 1%nat
       ∧ length (r_medium_confidence r) = 1%nat
       ∧ length (r_low_confidence r) = 1%nat
       ∧ within score 200 3 = true
       ∧ format_1f score = "66.7")
  ∧ ∃ r score,
      verify_clip_quality [a; b; c] = Ok (r, score)
      ∧ length (r_high_confidence r) = 1%nat
      ∧ length (r_medium_confidence r) = 0%nat
      ∧ length (r_low_confidence r) = 0%nat
      ∧ length (r_invalid r) = 1%nat
      ∧ length (r_incomplete r) = 1%nat
      ∧ score = aggregate_confidence_score 1 0 0 3
      ∧ within score 100 3 = true
      ∧ format_1f score = "33.3".
Proof.
  intros Hne Hav Hap Hna Has Hae Hd Hbv Hbp Hcv Hce.
  split; [by apply calculate_overall_confidence_score|].
  split; [by apply verify_clip_quality_score|].
  split.
  { intros Hlen. eexists.
    split; [by apply calculate_overall_confidence_score|].
    apply score_within.
    - destruct clips; [done|]. simpl in *. lia.
    - pose proof (count_total clips). lia. }
  split; [vm_compute; reflexivity|].
  split; [vm_compute; reflexivity|].
  split; [vm_compute; reflexivity|].
  split.
  { eexists _, _. split; [vm_compute; reflexivity|].
    repeat split; vm_compute; reflexivity. }
  assert (Ha : bucket_of a = high_confidence).
  { rewrite (bucket_of_tier a pa sa ea Hav Hap Hna Has Hae), Hd.
    reflexivity. }
  assert (Hb : bucket_of b = invalid).
  { apply bucket_of_not_valid. by rewrite Hbv. }
  assert (Hc : bucket_of c = incomplete).
  { apply bucket_of_incomplete; tauto. }
  assert (Hcount : ∀ k, count k [a; b; c] =
            ((if decide (high_confidence = k) then 1 else 0)
             + (if decide (invalid = k) then 1 else 0)
             + (if decide (incomplete = k) then 1 else 0))%nat).
  { intros k. unfold count. rewrite !filter_cons, filter_nil, Ha, Hb, Hc.
    repeat case_decide; reflexivity. }
  eexists _, _. split.
  { apply verify_clip_quality_score; [done|].
    repeat constructor; unfold reviewable; intros; try tauto; congruence. }
  change (r_high_confidence ?r) with (lookup_bucket r high_confidence).
  change (r_medium_confidence ?r) with (lookup_bucket r medium_confidence).
  change (r_low_confidence ?r) with (lookup_bucket r low_confidence).
  change (r_invalid ?r) with (lookup_bucket r invalid).
  change (r_incomplete ?r) with (lookup_bucket r incomplete).
  rewrite !length_bucket, !Hcount. cbn.
  repeat split; vm_compute; reflexivity.
Qed.

(** C6, witness: the batch of the end-to-end example. *)
Lemma C6_aggregate_confidence_score_witness :
  ∃ r score,
    verify_clip_quality example_batch = Ok (r, score)
    ∧ length (r_high_confidence r) = 1%nat
    ∧ length (r_medium_confidence r) = 0%nat
    ∧ length (r_low_confidence r) = 0%nat
    ∧ length (r_invalid r) = 1%nat
    ∧ length (r_incomplete r) = 1%nat
    ∧ score = aggregate_confidence_score 1 0 0 3
    ∧ within score 100 3 = true
    ∧ format_1f score = "33.3".
Proof.
  refine (proj2 (proj2 (proj2 (proj2 (proj2 (proj2 (proj2
    (C6_aggregate_confidence_score example_batch
       (example_clip (Val "Rich") (Val true) (Val f1_0) (Val f3_0))
       (example_clip (Val "Poor") (Val false) (Val f1_0) (Val f3_0))
       (example_clip (Val "Thick") (Val true) (Val f1_0) Absent)
       "Rich" f1_0 f3_0 _ eq_refl eq_refl _ eq_refl eq_refl eq_refl
       eq_refl _ eq_refl eq_refl)))))))); discriminate.
Defined.

(** C6, counterexample to the claim as stated: clip (a) is valid and lasts
    2.0 s, (b) is not valid, (c) is valid without [end_s], but the prompt
    of (a) is the text N/A, which the classifier takes for a missing prompt:
    there is no high confidence record, 1 invalid and 2 incomplete ones, and
    the score is 0.0, not 33.3. *)
Lemma C6_counterexample :
  let a := example_clip (Val "N/A") (Val true) (Val f1_0) (Val f3_0) in
  let b := example_clip (Val "Poor") (Val false) (Val f1_0) (Val f3_0) in
  let c := example_clip (Val "Thick") (Val true) (Val f1_0) Absent in
  valid a = Val true ∧ start_s a = Val f1_0 ∧ end_s a = Val f3_0
  ∧ fsub f3_0 f1_0 = f2_0
  ∧ valid b = Val false ∧ valid c = Val true ∧ end_s c = Absent
  ∧ ∃ r score,
      verify_clip_quality [a; b; c] = Ok (r, score)
      ∧ length (r_high_confidence r) = 0%nat
      ∧ length (r_invalid r) = 1%nat
      ∧ length (r_incomplete r) = 2%nat
      ∧ score = f0_0
      ∧ format_1f score = "0.0"
      ∧ format_1f score ≠ "33.3".
Proof.
  cbv zeta. repeat split; try reflexivity.
  eexists _, _. split; [vm_compute; reflexivity|].
  repeat split; try (vm_compute; reflexivity). vm_compute. discriminate.
Qed.

End Classifier.

(** ** The Bounds Calculator *)

Section Bounds.
Import Dump4.
Variable fromisoformat : string → except datetime.

Local Abbreviation bounds := (get_clip_bounds_in_video fromisoformat).
Local Abbreviation parse := (_parse_iso_timestamp fromisoformat).

Lemma first_present_or f rest :
  first_present (f :: rest) =
  if truthy_str (get f None) then get f None else first_present rest.
Proof. destruct f as [| |s]; cbn; try done. by destruct (String.eqb s ""). Qed.

(** The calculator selects the three timestamps, then takes their
    differences to the start of the video. *)
Lemma bounds_unfold d :
  bounds d =
  match first_present [videoStart d],
        first_present [startButtonDownTimestamp d;
                       startButtonUpTimestamp d],
        first_present [restartButtonDownTimestamp d;
                       swipeForwardTimestamp d; swipeBackTimestamp d] with
  | Some video_start, Some clip_start, Some clip_end =>
      tv ← parse video_start ;
      ts ← parse clip_start ;
      te ← parse clip_end ;
      ds ← datetime_sub ts tv ;
      de ← datetime_sub te tv ;
      Ok (Some (total_seconds ds), Some (total_seconds de))
  | _, _, _ => Ok (None, None)
  end.
Proof.
  unfold get_clip_bounds_in_video. rewrite !first_present_or.
  cbn [first_present].
  repeat first
    [ match goal with
      | H : truthy_str ?x = _ |- context [truthy_str ?x] => rewrite H
      end
    | progress cbn [negb default]
    | match goal with
      | |- context [truthy_str (get ?f None)] =>
          destruct (truthy_str (get f None)) eqn:?;
          [destruct (get f None) eqn:?; [|done]|]
      end ];
    reflexivity.
Qed.

Lemma bounds_both_or_neither d start_s end_s :
  bounds d = Ok (start_s, end_s) → (start_s = None ↔ end_s = None).
Proof.
  rewrite bounds_unfold.
  repeat case_match; cbn;
    repeat (match goal with
            | |- context [parse ?x] => destruct (parse x); cbn
            | |- context [datetime_sub ?x ?y] =>
                destruct (datetime_sub x y); cbn
            end);
    intros Hr; try discriminate; injection Hr as <- <-; done.
Qed.

(** C2: the bounds are a function of the six timestamp keys alone.  With
    [videoStart], a start candidate and an end candidate present, the start
    is taken from [startButtonDownTimestamp], else
    [startButtonUpTimestamp], the end from [restartButtonDownTimestamp],
    else [swipeForwardTimestamp], else [swipeBackTimestamp], and both
    bounds are the seconds from [videoStart] to the chosen instant; button
    down wins over button up.  Without [videoStart], without any start
    candidate or without any end candidate the result is (None, None), and
    no result has one bound without the other. *)
Theorem C2_clip_bounds (d : clip_data)
    (video_start clip_start clip_end : string)
    (tv ts te : datetime) (ds de : Z) :
  first_present [videoStart d] = Some video_start →
  first_present [startButtonDownTimestamp d; startButtonUpTimestamp d]
    = Some clip_start →
  first_present [restartButtonDownTimestamp d; swipeForwardTimestamp d;
                 swipeBackTimestamp d] = Some clip_end →
  parse video_start = Ok tv → parse clip_start = Ok ts →
  parse clip_end = Ok te →
  datetime_sub ts tv = Ok ds → datetime_sub te tv = Ok de →
  bounds d = Ok (Some (total_seconds ds), Some (total_seconds de))
  ∧ (∀ down up, startButtonDownTimestamp d = Val down → down ≠ "" →
       startButtonUpTimestamp d = Val up → clip_start = down)
  ∧ (∀ d', videoStart d' = Absent
           ∨ (startButtonDownTimestamp d' = Absent
              ∧ startButtonUpTimestamp d' = Absent)
           ∨ (restartButtonDownTimestamp d' = Absent
              ∧ swipeForwardTimestamp d' = Absent
              ∧ swipeBackTimestamp d' = Absent) →
       bounds d' = Ok (None, None))
  ∧ (∀ d' start_s end_s,
       bounds d' = Ok (start_s, end_s) → (start_s = None ↔ end_s = None))
  ∧ (∀ d1 d2,
       videoStart d1 = videoStart d2 →
       startButtonDownTimestamp d1 = startButtonDownTimestamp d2 →
       startButtonUpTimestamp d1 = startButtonUpTimestamp d2 →
       restartButtonDownTimestamp d1 = restartButtonDownTimestamp d2 →
       swipeForwardTimestamp d1 = swipeForwardTimestamp d2 →
       swipeBackTimestamp d1 = swipeBackTimestamp d2 →
       bounds d1 = bounds d2).
Proof.
  intros Hv Hs He Pv Ps Pe Ds De. split; [|split; [|split; [|split]]].
  - rewrite bounds_unfold, Hv, Hs, He. cbn.
    rewrite Pv, Ps, Pe. cbn. rewrite Ds, De. reflexivity.
  - intros down up Hd Hne _. rewrite Hd in Hs. cbn in Hs.
    apply String.eqb_neq in Hne. rewrite Hne in Hs. congruence.
  - intros d' H. rewrite bounds_unfold.
    destruct H as [-> | [[-> ->] | (-> & -> & ->)]]; cbn;
      repeat case_match; done.
  - apply bounds_both_or_neither.
  - intros d1 d2 H1 H2 H3 H4 H5 H6.
    rewrite !bounds_unfold, H1, H2, H3, H4, H5, H6. reflexivity.
Qed.

End Bounds.

(** C2, witness: a recording that starts at 16:52:49.273236, with the start
    button pressed two seconds and released 2.13 seconds later, and a swipe
    forward 5.5 seconds after the start. *)
Lemma C2_clip_bounds_witness :
  Dump4.get_clip_bounds_in_video Iso.fromisoformat example_timestamps
  = Ok (Some f2_0, Some f5_5).
Proof.
  refine (proj1 (C2_clip_bounds Iso.fromisoformat example_timestamps
            "2025-11-18T16:52:49.273236Z" "2025-11-18T16:52:51.273236Z"
            "2025-11-18T16:52:54.773236Z"
            {| Dump4.wall := 63899081569273236; Dump4.utcoffset := Some 0 |}
            {| Dump4.wall := 63899081571273236; Dump4.utcoffset := Some 0 |}
            {| Dump4.wall := 63899081574773236; Dump4.utcoffset := Some 0 |}
            2000000 5500000 _ _ _ _ _ _ _ _)); vm_compute; reflexivity.
Defined.

(** ** Strings and the matcher *)

Section Strings.

Lemma app_cons c s1 s2 : String c s1 +:+ s2 = String c (s1 +:+ s2).
Proof. reflexivity. Qed.

Lemma app_nil_l s : "" +:+ s = s.
Proof. reflexivity. Qed.

Lemma str_app_assoc s1 s2 s3 : (s1 +:+ s2) +:+ s3 = s1 +:+ (s2 +:+ s3).
Proof. induction s1 as [|c s1 IH]; [done|]. rewrite !app_cons. by f_equal. Qed.

Lemma length_app s1 s2 :
  String.length (s1 +:+ s2) = (String.length s1 + String.length s2)%nat.
Proof.
  induction s1 as [|c s1 IH]; [done|]. rewrite app_cons. cbn. by f_equal.
Qed.

Lemma substring_prefix s1 s2 :
  substring 0 (String.length s1) (s1 +:+ s2) = s1.
Proof.
  induction s1 as [|c s1 IH]; [by destruct s2|].
  rewrite app_cons. cbn. by f_equal.
Qed.

Lemma strip_prefix_sound l s s' : Re.strip_prefix l s = Some s' → s = l +:+ s'.
Proof.
  revert s. induction l as [|a l IH]; intros [|b s]; cbn; try done.
  - by intros [= <-].
  - by intros [= <-].
  - destruct (Ascii.eqb_spec a b) as [->|]; [|done].
    intros H%IH. rewrite app_cons. by f_equal.
Qed.

Lemma strip_prefix_app l s : Re.strip_prefix l (l +:+ s) = Some s.
Proof.
  induction l as [|a l IH]; [by destruct s|].
  rewrite app_cons. cbn. by rewrite Ascii.eqb_refl.
Qed.

End Strings.

Section Matcher.
Import Re.
Context {A : Type}.
Implicit Types (k : nat → string → option A) (p : ascii → bool).

Lemma times_sound n p k pos s r :
  times n p k pos s = Some r →
  ∃ s1 s2, s = s1 +:+ s2 ∧ String.length s1 = n
           ∧ all_chars p s1 = true ∧ k (pos + n)%nat s2 = Some r.
Proof.
  revert pos s. induction n as [|n IH]; intros pos s; cbn.
  - intros H. exists "", s. by rewrite Nat.add_0_r.
  - destruct s as [|c s]; [done|]. destruct (p c) eqn:Hc; [|done].
    intros (s1 & s2 & -> & <- & Hall & Hk)%IH.
    exists (String c s1), s2. cbn. rewrite Hc, Hall.
    by replace (pos + S (String.length s1))%nat
      with (S pos + String.length s1)%nat by lia.
Qed.

Lemma times_complete p k pos s1 s2 :
  all_chars p s1 = true →
  times (String.length s1) p k pos (s1 +:+ s2)
  = k (pos + String.length s1)%nat s2.
Proof.
  revert pos. induction s1 as [|c s1 IH]; intros pos; cbn.
  - by rewrite Nat.add_0_r.
  - intros [Hc Hall]%andb_true_iff. rewrite app_cons, Hc, IH by done.
    f_equal. lia.
Qed.

Lemma plus_sound p k pos s r :
  plus p k pos s = Some r →
  ∃ s1 s2, s = s1 +:+ s2 ∧ s1 ≠ "" ∧ all_chars p s1 = true
           ∧ k (pos + String.length s1)%nat s2 = Some r.
Proof.
  revert pos. induction s as [|c s IH]; intros pos; cbn; [done|].
  destruct (p c) eqn:Hc; [|done].
  destruct (plus p k (S pos) s) as [r'|] eqn:Hrec.
  - intros [= ->]. apply IH in Hrec as (s1 & s2 & -> & _ & Hall & Hk).
    exists (String c s1), s2. cbn. rewrite Hc, Hall.
    by replace (pos + S (String.length s1))%nat
      with (S pos + String.length s1)%nat by lia.
  - intros Hk. exists (String c ""), s. cbn. rewrite Hc.
    by replace (pos + 1)%nat with (S pos) by lia.
Qed.

(** A run of the class that cannot be extended is taken whole when the rest
    of the pattern matches after it. *)
Lemma plus_complete p k pos s1 c s2 r :
  s1 ≠ "" → all_chars p s1 = true → p c = false →
  k (pos + String.length s1)%nat (String c s2) = Some r →
  plus p k pos (s1 +:+ String c s2) = Some r.
Proof.
  revert pos. induction s1 as [|a s1 IH]; intros pos Hne; [done|].
  cbn [all_chars String.length]. intros [Ha Hall]%andb_true_iff Hc Hk.
  rewrite app_cons. cbn [plus]. rewrite Ha.
  destruct s1 as [|b s1].
  - rewrite app_nil_l. cbn [plus]. rewrite Hc.
    by replace (S pos) with (pos + 1)%nat by lia.
  - rewrite (IH (S pos)); try done.
    by replace (S pos + String.length (String b s1))%nat
      with (pos + S (String.length (String b s1)))%nat by lia.
Qed.

End Matcher.

(** ** The Identifier Parser *)

Section ClipId.
Import Re Dump4.

(** A match of the clip id pattern reads a clip id at the head of the
    string and captures its session and clip index. *)
Lemma clip_id_match_sound s m :
  re_match clip_id_pattern s = Some m →
  ∃ prefix session clip_index rest,
    s = (prefix +:+ "-s" +:+ session +:+ "-" +:+ clip_index) +:+ rest
    ∧ prefix ≠ "" ∧ all_chars not_dash prefix = true
    ∧ String.length session = 3%nat ∧ all_chars digit session = true
    ∧ String.length clip_index = 3%nat ∧ all_chars digit clip_index = true
    ∧ group m 1 = Some session ∧ group m 2 = Some clip_index.
Proof.
  unfold re_match, clip_id_pattern. cbn [run].
  intros (prefix & s2 & -> & Hne & Hnd & H)%plus_sound.
  destruct (strip_prefix "-s" s2) as [s3|] eqn:H2; [|done].
  apply strip_prefix_sound in H2 as ->.
  apply times_sound in H as (session & s4 & -> & Hl1 & Hd1 & H).
  destruct (strip_prefix "-" s4) as [s5|] eqn:H4; [|done].
  apply strip_prefix_sound in H4 as ->.
  apply times_sound in H as (clip_index & rest & -> & Hl2 & Hd2 & H).
  injection H as <-.
  exists prefix, session, clip_index, rest.
  rewrite !str_app_assoc. repeat split; try done.
  - unfold group. rewrite lookup_insert_ne by done.
    rewrite lookup_insert_eq. f_equal.
    match goal with |- substring 0 ?n _ = _ =>
      replace n with (String.length session) by lia end.
    apply substring_prefix.
  - unfold group. rewrite lookup_insert_eq. f_equal.
    match goal with |- substring 0 ?n _ = _ =>
      replace n with (String.length clip_index) by lia end.
    apply substring_prefix.
Qed.

Lemma clip_id_match_complete s :
  begins_with_clip_id s → is_Some (re_match clip_id_pattern s).
Proof.
  intros (t & rest & -> & prefix & session & clip_index & -> & Hne & Hnd
          & Hl1 & Hd1 & Hl2 & Hd2).
  unfold re_match, clip_id_pattern. cbn [run].
  rewrite !str_app_assoc.
  change ("-s" +:+ ?x) with (String "-" (String "s" x)).
  erewrite plus_complete; [by eexists|done|done|done|].
  change (String "-" (String "s" ?x)) with ("-s" +:+ x).
  rewrite strip_prefix_app. rewrite <- Hl1 at 1.
  rewrite times_complete by done.
  rewrite strip_prefix_app. rewrite <- Hl2 at 1.
  rewrite times_complete by done. reflexivity.
Qed.

Lemma clip_id_rejected s :
  ¬ begins_with_clip_id s → re_match clip_id_pattern s = None.
Proof.
  intros Hno. destruct (re_match clip_id_pattern s) as [m|] eqn:Hm; [|done].
  destruct Hno.
  apply clip_id_match_sound in Hm
    as (prefix & session & clip_index & rest & -> & H).
  exists (prefix +:+ "-s" +:+ session +:+ "-" +:+ clip_index), rest.
  split; [done|]. exists prefix, session, clip_index. tauto.
Qed.

(** A clip id with a clip index of four digits is not in the grammar. *)
Lemma not_clip_id_grammar_four_digits :
  ¬ clip_id_grammar "5c963ab3-s001-1234".
Proof.
  intros (prefix & session & clip_index & Heq & Hne & Hnd & Hl1 & Hd1
          & Hl2 & Hd2).
  assert (String.length prefix = 9%nat) as Hlen.
  { apply (f_equal String.length) in Heq.
    rewrite !length_app, Hl1, Hl2 in Heq. cbn in Heq. lia. }
  do 9 (destruct prefix as [|? prefix]; [discriminate|]).
  destruct prefix; [|discriminate].
  rewrite !app_cons, app_nil_l in Heq.
  injection Heq as <- <- <- <- <- <- <- <- <- _.
  cbn in Hnd. discriminate.
Qed.

End ClipId.

(** ** The Record Normalizer *)

Section GetData.
Import Re Dump4.
Variable fromisoformat : string → except datetime.

Local Abbreviation process := (Dump4.process fromisoformat).
Local Abbreviation get_data_from := (Dump4.get_data_from fromisoformat).
Local Abbreviation bounds := (get_clip_bounds_in_video fromisoformat).

Lemma get_data_from_cons doc rest acc o :
  process doc = Ok o →
  get_data_from (doc :: rest) acc = get_data_from rest (record doc o acc).
Proof. intros H. cbn. by rewrite H. Qed.

(** The messages do not change what is collected. *)
Lemma get_data_from_log docs acc acc' :
  clips acc = clips acc' → sessions acc = sessions acc' →
  match get_data_from docs acc, get_data_from docs acc' with
  | Ok r, Ok r' => clips r = clips r' ∧ sessions r = sessions r'
  | Raise e, Raise e' => e = e'
  | _, _ => False
  end.
Proof.
  revert acc acc'. induction docs as [|doc docs IH]; intros acc acc' Hc Hs.
  - done.
  - cbn. destruct (Dump4.process fromisoformat doc) as [o|e]; cbn; [|done].
    apply IH; destruct o; cbn; congruence.
Qed.

(** After a skipped document the run collects what it collects from the
    rest of the batch. *)
Lemma skipped_continues doc rest acc reason res :
  process doc = Ok (Skipped reason) →
  get_data_from rest acc = Ok res →
  ∃ res', get_data_from (doc :: rest) acc = Ok res'
          ∧ clips res' = clips res ∧ sessions res' = sessions res.
Proof.
  intros Hp Hr. rewrite (get_data_from_cons _ _ _ _ Hp).
  pose proof (get_data_from_log rest (record doc (Skipped reason) acc) acc
                eq_refl eq_refl) as H.
  rewrite Hr in H.
  destruct (Dump4.get_data_from fromisoformat rest (record _ _ _))
    as [res'|]; [|done].
  by exists res'.
Qed.

Lemma falsy_default (v : option string) :
  truthy_str v = false → default "" v = "".
Proof.
  destruct v as [s|]; [|done]. cbn.
  by intros ->%negb_false_iff%String.eqb_eq.
Qed.

Lemma clip_document_bad_clip_id doc data :
  data_or_doc doc = Some data →
  ¬ begins_with_clip_id (default "" (get (clipId data) None)) →
  clip_document fromisoformat doc =
  Ok (Skipped
        (if truthy_str (get (clipId data) None)
         then clipId_format_mismatch (default "" (get (clipId data) None))
         else no_clipId)).
Proof.
  intros Hd Hno. unfold clip_document. rewrite Hd.
  destruct (truthy_str (get (clipId data) None)); cbn [negb]; [|done].
  by rewrite (clip_id_rejected _ Hno).
Qed.

Lemma clip_document_session_mismatch doc data m1 m2 :
  data_or_doc doc = Some data →
  re_match clip_id_pattern (default "" (get (clipId data) None)) = Some m1 →
  re_match filename_pattern (default "" (get (doc_filename data) None))
    = Some m2 →
  int_group m1 1 ≠ int_group m2 3 →
  clip_document fromisoformat doc = Ok (Skipped session_index_mismatch).
Proof.
  intros Hd H1 H2 Hne. unfold clip_document. rewrite Hd.
  destruct (truthy_str (get (clipId data) None)) eqn:Hc; cbn [negb].
  2:{ by rewrite (falsy_default _ Hc) in H1. }
  rewrite H1.
  destruct (truthy_str (get (doc_filename data) None)) eqn:Hf; cbn [negb].
  2:{ by rewrite (falsy_default _ Hf) in H2. }
  rewrite H2. apply Z.eqb_neq in Hne. by rewrite Hne.
Qed.

Lemma clip_document_kept doc data m1 m2 start_s end_s :
  data_or_doc doc = Some data →
  re_match clip_id_pattern (default "" (get (clipId data) None)) = Some m1 →
  re_match filename_pattern (default "" (get (doc_filename data) None))
    = Some m2 →
  int_group m1 1 = int_group m2 3 →
  bounds data = Ok (start_s, end_s) →
  ∃ c, clip_document fromisoformat doc = Ok (Clip c)
       ∧ full c = doc
       ∧ sessionIndex (c_summary c) = Some (int_group m1 1)
       ∧ clipIndex (c_summary c) = Some (int_group m1 2)
       ∧ promptText (c_summary c) =
         set_to (match promptData data with
                 | Val pd => get (prompt pd) None
                 | _ => None
                 end)
       ∧ valid (c_summary c) = set_to (get (doc_valid data) None).
Proof.
  intros Hd H1 H2 He Hb. unfold clip_document. rewrite Hd.
  destruct (truthy_str (get (clipId data) None)) eqn:Hc; cbn [negb].
  2:{ by rewrite (falsy_default _ Hc) in H1. }
  rewrite H1.
  destruct (truthy_str (get (doc_filename data) None)) eqn:Hf; cbn [negb].
  2:{ by rewrite (falsy_default _ Hf) in H2. }
  rewrite H2. apply Z.eqb_eq in He. rewrite He. cbn [negb].
  rewrite Hb. cbn. eexists. split; [reflexivity|]. cbn.
  repeat split; try done. by destruct (promptData data).
Qed.

(** C7 (as amended): a clip document whose [clipId] does not begin with a
    string of the grammar [<prefix>-s<3 digits>-<3 digits>] (prefix without
    dash), or whose [clipId] and [filename] both match their patterns with
    different session indices, is skipped with a message: no exception is
    raised, no Clip Record is added, and the run goes on with the rest of
    the batch and collects what it collects from the rest alone. *)
Theorem C7_identifier_rejection (doc : document) (data : clip_data)
    (rest : list document) (acc : collected) :
  String.prefix "clipData-" (id doc) = true →
  data_or_doc (to_dict doc) = Some data →
  let clip_id := default "" (get (clipId data) None) in
  let filename := default "" (get (doc_filename data) None) in
  ¬ begins_with_clip_id clip_id
  ∨ (∃ m1 m2, re_match clip_id_pattern clip_id = Some m1
              ∧ re_match filename_pattern filename = Some m2
              ∧ int_group m1 1 ≠ int_group m2 3) →
  ∃ reason,
    process doc = Ok (Skipped reason)
    ∧ (¬ begins_with_clip_id clip_id →
       reason = no_clipId ∨ reason = clipId_format_mismatch clip_id)
    ∧ (begins_with_clip_id clip_id → reason = session_index_mismatch)
    ∧ get_data_from (doc :: rest) acc =
      get_data_from rest
        {| clips := clips acc; sessions := sessions acc;
           skipped := skipped acc ++ [(id doc, reason)] |}
    ∧ (∀ res, get_data_from rest acc = Ok res →
         ∃ res', get_data_from (doc :: rest) acc = Ok res'
                 ∧ clips res' = clips res ∧ sessions res' = sessions res).
Proof.
  intros Hid Hd clip_id filename Hbad.
  assert (∃ reason, process doc = Ok (Skipped reason)
            ∧ (¬ begins_with_clip_id clip_id →
               reason = no_clipId ∨ reason = clipId_format_mismatch clip_id)
            ∧ (begins_with_clip_id clip_id →
               reason = session_index_mismatch))
    as (reason & Hp & Hr1 & Hr2).
  { unfold Dump4.process. rewrite Hid.
    destruct Hbad as [Hno | (m1 & m2 & H1 & H2 & Hne)].
    - eexists. split; [by apply clip_document_bad_clip_id|].
      split; [|done]. intros _.
      destruct (truthy_str (get (clipId data) None)); auto.
    - eexists. split; [by eapply clip_document_session_mismatch|].
      split; [|done]. intros Hno.
      by rewrite (clip_id_rejected _ Hno) in H1. }
  exists reason. split; [done|]. split; [done|]. split; [done|]. split.
  - by rewrite (get_data_from_cons _ _ _ _ Hp).
  - intros res Hres. by eapply skipped_continues.
Qed.

(** A clip document that passes the checks yields its clip as soon as its
    bounds are computed. *)
Lemma clip_document_checked doc data m1 m2 :
  data_or_doc doc = Some data →
  re_match clip_id_pattern (default "" (get (clipId data) None)) = Some m1 →
  re_match filename_pattern (default "" (get (doc_filename data) None))
    = Some m2 →
  int_group m1 1 = int_group m2 3 →
  clip_document fromisoformat doc =
  '(start_s, end_s) ← bounds data ;
  Ok (Clip
        {| c_summary :=
             with_bounds (set_if_not_None start_s) (set_if_not_None end_s)
               {| userId := group m2 2;
                  sessionIndex := Some (int_group m1 1);
                  clipIndex := Some (int_group m1 2);
                  filename :=
                    Some (default "" (get (doc_filename data) None));
                  promptText :=
                    set_to (get (prompt match promptData data with
                                        | Val pd => pd
                                        | _ => {| prompt := Absent |}
                                        end) None);
                  valid := set_to (get (doc_valid data) None);
                  tutorial :=
                    if truthy_str (group m2 1) then Some true else None;
                  start_s := Absent;
                  end_s := Absent |};
           full := doc |}).
Proof.
  intros Hd H1 H2 He. unfold clip_document. rewrite Hd.
  destruct (truthy_str (get (clipId data) None)) eqn:Hc; cbn [negb].
  2:{ by rewrite (falsy_default _ Hc) in H1. }
  rewrite H1.
  destruct (truthy_str (get (doc_filename data) None)) eqn:Hf; cbn [negb].
  2:{ by rewrite (falsy_default _ Hf) in H2. }
  rewrite H2. apply Z.eqb_eq in He. rewrite He. cbn [negb].
  reflexivity.
Qed.

(** C8 (as amended): a clip document without any data is skipped with the
    message "empty data" and adds no Clip Record; a clip document that
    passes the identifier checks and has no extractable prompt payload is
    never skipped: when the bounds of the clip are computed it adds a Clip
    Record whose [promptText] is null, with these bounds, and when their
    computation raises, the exception leaves [get_data]. *)
Theorem C8_prompt_payload (doc : document) (rest : list document)
    (acc : collected) :
  String.prefix "clipData-" (id doc) = true →
  (data_or_doc (to_dict doc) = None →
   process doc = Ok (Skipped empty_data)
   ∧ get_data_from (doc :: rest) acc =
     get_data_from rest
       {| clips := clips acc; sessions := sessions acc;
          skipped := skipped acc ++ [(id doc, empty_data)] |})
  ∧ (∀ data m1 m2,
       data_or_doc (to_dict doc) = Some data →
       re_match clip_id_pattern (default "" (get (clipId data) None))
         = Some m1 →
       re_match filename_pattern
         (default "" (get (doc_filename data) None)) = Some m2 →
       int_group m1 1 = int_group m2 3 →
       no_prompt_payload data →
       (∀ reason, process doc ≠ Ok (Skipped reason))
       ∧ (∀ first last,
            bounds data = Ok (first, last) →
            ∃ c, process doc = Ok (Clip c)
                 ∧ promptText (c_summary c) = Null
                 ∧ start_s (c_summary c) = set_if_not_None first
                 ∧ end_s (c_summary c) = set_if_not_None last
                 ∧ get_data_from (doc :: rest) acc =
                   get_data_from rest
                     {| clips := clips acc ++ [c]; sessions := sessions acc;
                        skipped := skipped acc |})
       ∧ (∀ e, bounds data = Raise e →
               process doc = Raise e
               ∧ get_data_from (doc :: rest) acc = Raise e)).
Proof.
  intros Hid. split.
  - intros Hd.
    assert (Hp : process doc = Ok (Skipped empty_data)).
    { unfold Dump4.process, clip_document. by rewrite Hid, Hd. }
    split; [done|]. by rewrite (get_data_from_cons _ _ _ _ Hp).
  - intros data m1 m2 Hd H1 H2 He Hno.
    assert (Hp : process doc = clip_document fromisoformat (to_dict doc)).
    { unfold Dump4.process. by rewrite Hid. }
    rewrite (clip_document_checked _ _ _ _ Hd H1 H2 He) in Hp.
    split; [|split].
    + intros reason. rewrite Hp.
      by destruct (Dump4.get_clip_bounds_in_video fromisoformat data)
        as [[? ?]|?].
    + intros first last Hb. rewrite Hb in Hp. cbn in Hp.
      eexists. split; [exact Hp|].
      split; [|split; [reflexivity|split; [reflexivity|]]].
      * cbn. unfold no_prompt_payload in Hno.
        destruct (promptData data); cbn; try done. by rewrite Hno.
      * by rewrite (get_data_from_cons _ _ _ _ Hp).
    + intros e Hb. rewrite Hb in Hp. cbn in Hp. split; [done|].
      cbn [Dump4.get_data_from]. by rewrite Hp.
Qed.

End GetData.

Section NormalizerExamples.
Import Re Dump4.

(** C7, witness: the clip id names session 2, the filename session 1. *)
Lemma C7_identifier_rejection_witness :
  ∃ reason,
    process Iso.fromisoformat
      (example_document "clipData-1"
         (example_data "5c963ab3-s002-000" Absent)) = Ok (Skipped reason)
    ∧ reason = session_index_mismatch.
Proof.
  destruct (C7_identifier_rejection Iso.fromisoformat
    (example_document "clipData-1" (example_data "5c963ab3-s002-000" Absent))
    (example_data "5c963ab3-s002-000" Absent) []
    {| clips := []; sessions := []; skipped := [] |} eq_refl eq_refl)
    as (reason & Hp & _ & Hr & _).
  - right. eexists _, _. split; [vm_compute; reflexivity|].
    split; [vm_compute; reflexivity|]. vm_compute. discriminate.
  - exists reason. split; [done|]. apply Hr.
    exists "5c963ab3-s002-000", "". split; [reflexivity|].
    exists "5c963ab3", "002", "000". repeat split; try done.
Defined.

(** C7, counterexample to the claim as stated: the clip id
    "5c963ab3-s001-1234" has a clip index of four digits and is not in the
    grammar, yet the document is not skipped: it yields a Clip Record of
    session 1 with the clip index 123. *)
Lemma C7_counterexample :
  ¬ clip_id_grammar "5c963ab3-s001-1234"
  ∧ ∃ c,
      get_data Iso.fromisoformat
        [example_document "clipData-1"
           (example_data "5c963ab3-s001-1234" Absent)]
      = Ok {| clips := [c]; sessions := []; skipped := [] |}
      ∧ sessionIndex (c_summary c) = Some 1
      ∧ clipIndex (c_summary c) = Some 123.
Proof.
  split; [apply not_clip_id_grammar_four_digits|].
  eexists. split; [vm_compute; reflexivity|]. split; reflexivity.
Qed.

(** C8, witness: a document whose [promptData] is null is kept with a
    null prompt, a document without any key is skipped for its empty data,
    and a document without prompt whose video start is not a timestamp makes
    [get_data] raise. *)
Lemma C8_prompt_payload_witness :
  (∃ c,
     process Iso.fromisoformat
       (example_document "clipData-1"
          (example_data "5c963ab3-s001-000" Null)) = Ok (Clip c)
     ∧ promptText (c_summary c) = Null
     ∧ get_data Iso.fromisoformat
         [example_document "clipData-1"
            (example_data "5c963ab3-s001-000" Null)]
       = Ok {| clips := [c]; sessions := []; skipped := [] |})
  ∧ process Iso.fromisoformat empty_document = Ok (Skipped empty_data)
  ∧ get_data Iso.fromisoformat
      [example_document "clipData-1" unreadable_timestamps]
    = Raise ValueError.
Proof.
  split; [|split].
  - destruct (proj2 (C8_prompt_payload Iso.fromisoformat
      (example_document "clipData-1" (example_data "5c963ab3-s001-000" Null))
      [] {| clips := []; sessions := []; skipped := [] |} eq_refl)
      (example_data "5c963ab3-s001-000" Null)
      (default ∅ (re_match clip_id_pattern "5c963ab3-s001-000"))
      (default ∅ (re_match filename_pattern "lenovo_p1-5c963ab3-s001-2025-11-18T16:52:49.273236Z.mp4")))
      as (_ & H & _); [reflexivity | vm_compute; reflexivity
                       | vm_compute; reflexivity | vm_compute; reflexivity
                       | exact I | ].
    destruct (H None None) as (c & Hp & Hn & _ & _ & Hg);
      [vm_compute; reflexivity|].
    exists c. split; [exact Hp|]. split; [exact Hn|]. exact Hg.
  - apply (proj1 (C8_prompt_payload Iso.fromisoformat empty_document
      [] {| clips := []; sessions := []; skipped := [] |} eq_refl)).
    reflexivity.
  - destruct (proj2 (C8_prompt_payload Iso.fromisoformat
      (example_document "clipData-1" unreadable_timestamps)
      [] {| clips := []; sessions := []; skipped := [] |} eq_refl)
      unreadable_timestamps
      (default ∅ (re_match clip_id_pattern "5c963ab3-s001-000"))
      (default ∅ (re_match filename_pattern "lenovo_p1-5c963ab3-s001-2025-11-18T16:52:49.273236Z.mp4")))
      as (_ & _ & H); [reflexivity | vm_compute; reflexivity
                       | vm_compute; reflexivity | vm_compute; reflexivity
                       | exact I | ].
    apply (H ValueError). vm_compute. reflexivity.
Defined.

(** C8, counterexample to the claim as stated: a document without
    [promptData] is not rejected; it contributes a Clip Record whose
    [promptText] is null. *)
Lemma C8_counterexample :
  let d := example_data "5c963ab3-s001-000" Absent in
  no_prompt_payload d
  ∧ ∃ c,
      get_data Iso.fromisoformat [example_document "clipData-1" d]
      = Ok {| clips := [c]; sessions := []; skipped := [] |}
      ∧ promptText (c_summary c) = Null.
Proof.
  split; [exact I|].
  eexists. split; [vm_compute; reflexivity|]. reflexivity.
Qed.

End NormalizerExamples.

(** ** The Session Gap Detector *)

Section Gaps.
Import Video2.

Lemma min_list_spec x l :
  min_list x l ∈ x :: l ∧ ∀ y, y ∈ x :: l → min_list x l ≤ y.
Proof.
  unfold min_list. revert x. induction l as [|a l IH]; intros x; cbn.
  - split; [left|]. intros y ->%list_elem_of_singleton. lia.
  - destruct (IH (Z.min x a)) as [Hin Hle]. split.
    + apply elem_of_cons in Hin as [->|Hin]; [|by do 2 right].
      destruct (Z.min_spec x a) as [[_ ->]|[_ ->]]; [left|right; left].
    + intros y Hy.
      assert (fold_left Z.min l (Z.min x a) ≤ Z.min x a)
        by (apply Hle; left).
      apply elem_of_cons in Hy as [->|[->|Hy]%elem_of_cons]; [lia|lia|].
      apply Hle. by right.
Qed.

Lemma max_list_spec x l :
  max_list x l ∈ x :: l ∧ ∀ y, y ∈ x :: l → y ≤ max_list x l.
Proof.
  unfold max_list. revert x. induction l as [|a l IH]; intros x; cbn.
  - split; [left|]. intros y ->%list_elem_of_singleton. lia.
  - destruct (IH (Z.max x a)) as [Hin Hle]. split.
    + apply elem_of_cons in Hin as [->|Hin]; [|by do 2 right].
      destruct (Z.max_spec x a) as [[_ ->]|[_ ->]]; [right; left|left].
    + intros y Hy.
      assert (Z.max x a ≤ fold_left Z.max l (Z.max x a))
        by (apply Hle; left).
      apply elem_of_cons in Hy as [->|[->|Hy]%elem_of_cons]; [lia|lia|].
      apply Hle. by right.
Qed.

Lemma elem_of_range x a b : x ∈ range a b ↔ a ≤ x < b.
Proof. unfold range. rewrite elem_of_seqZ. lia. Qed.

Lemma elem_of_sorted_ints x l : x ∈ sorted_ints l ↔ x ∈ l.
Proof. unfold sorted_ints. by rewrite merge_sort_Permutation. Qed.

Lemma sorted_indices sc :
  map clip_index (merge_sort by_clip_index sc) ≡ₚ map clip_index sc.
Proof. apply fmap_Permutation, merge_sort_Permutation. Qed.

(** Membership in the gap list of one session. *)
Lemma elem_of_missing_indices sc x :
  x ∈ missing_indices sc ↔
  (∃ lo hi, lo ∈ map clip_index sc ∧ hi ∈ map clip_index sc
            ∧ (∀ y, y ∈ map clip_index sc → lo ≤ y ≤ hi)
            ∧ lo ≤ x ≤ hi)
  ∧ x ∉ map clip_index sc.
Proof.
  unfold missing_indices. pose proof (sorted_indices sc) as Hperm.
  destruct (map clip_index (merge_sort by_clip_index sc)) as [|i rest] eqn:E.
  - apply Permutation_nil_l in Hperm. rewrite <- Hperm. split.
    + by intros ?%elem_of_nil.
    + intros [(lo & _ & Hlo%elem_of_nil & _) _]. done.
  - assert (Hiff : ∀ y, y ∈ i :: rest ↔ y ∈ map clip_index sc)
      by (intros y; by rewrite Hperm).
    destruct (min_list_spec i rest) as [Hmin_in Hmin].
    destruct (max_list_spec i rest) as [Hmax_in Hmax].
    rewrite elem_of_sorted_ints, elem_of_elements, elem_of_difference,
      !elem_of_list_to_set, elem_of_range, Hiff.
    apply Hiff in Hmin_in, Hmax_in.
    split.
    + intros [Hx Hnot]. split; [|done].
      exists (min_list i rest), (max_list i rest).
      split; [done|]. split; [done|]. split; [|lia].
      intros y Hy%Hiff. split; [by apply Hmin|by apply Hmax].
    + intros [(lo & hi & Hlo & Hhi & Hb & Hx) Hnot]. split; [|done].
      pose proof (Hb _ Hmin_in). pose proof (Hb _ Hmax_in).
      apply Hiff in Hlo, Hhi.
      pose proof (Hmin _ Hlo). pose proof (Hmax _ Hhi). lia.
Qed.

Lemma strictly_sorted l :
  Sorted Z.le l → NoDup l → StronglySorted Z.lt l.
Proof.
  intros Hs%(Sorted_StronglySorted _) Hnd.
  induction Hs as [|x l Hs IH Hall]; [constructor|].
  apply NoDup_cons in Hnd as [Hx Hnd]. constructor; [auto|].
  rewrite Forall_forall in Hall |- *. intros y Hy.
  specialize (Hall y Hy). assert (x ≠ y) by (intros ->; done). lia.
Qed.

Lemma missing_indices_sorted sc : StronglySorted Z.lt (missing_indices sc).
Proof.
  unfold missing_indices.
  destruct (map clip_index (merge_sort by_clip_index sc)); [constructor|].
  apply strictly_sorted.
  - apply Sorted_merge_sort. apply _.
  - unfold sorted_ints. rewrite merge_sort_Permutation. apply NoDup_elements.
Qed.

(** The entries of a session are its clips, in the order of the batch. *)
Lemma group_by_session_lookup clips session :
  map clip_index (default [] (group_by_session clips !! session))
  = observed_indices clips session.
Proof.
  unfold group_by_session.
  assert (∀ acc : gmap Z (list session_clip),
    map clip_index (default [] (fold_left add_clip clips acc !! session))
    = map clip_index (default [] (acc !! session))
      ++ observed_indices clips session) as H.
  { unfold observed_indices.
    induction clips as [|s clips IH]; intros acc; cbn [fold_left omap].
    - by rewrite app_nil_r.
    - rewrite IH. unfold add_clip. cbn [omap list_omap].
      destruct (sessionIndex s) as [se|], (clipIndex s) as [ci|];
        cbn; repeat case_decide; simplify_eq; try done.
      + rewrite lookup_insert_eq. cbn. rewrite map_app. cbn.
        by rewrite <- app_assoc.
      + rewrite lookup_insert_ne by congruence. done. }
  rewrite H. by rewrite lookup_empty.
Qed.

Lemma elem_of_analyze_session_gaps clips session g :
  (session, g) ∈ analyze_session_gaps clips ↔
  g = gaps_of clips session ∧ g ≠ [].
Proof.
  unfold analyze_session_gaps, gaps_of. rewrite list_elem_of_omap. split.
  - intros (se & _ & H). case_bool_decide; [|done]. by simplify_eq.
  - intros [-> Hne]. exists session. split.
    + rewrite elem_of_sorted_ints, elem_of_elements, elem_of_dom.
      destruct (group_by_session clips !! session); [done|]. done.
    + by rewrite bool_decide_eq_true_2.
Qed.

Lemma singleton_sorted (l : list Z) a :
  StronglySorted Z.lt l → (∀ x, x ∈ l ↔ x = a) → l = [a].
Proof.
  intros Hs Hl. destruct Hs as [|b l Hs Hall].
  - assert (a ∈ @nil Z) as ?%elem_of_nil by by apply Hl. done.
  - assert (b = a) as -> by (apply Hl; left).
    destruct l as [|c l]; [done|].
    assert (c = a) as -> by (apply Hl; right; left).
    apply Forall_cons in Hall as [? _]. lia.
Qed.

(** C5: for the clips of one session of the batch, the detector computes
    exactly the integers between the least and the greatest observed clip
    index that are not observed, in strictly ascending order, and reports
    the session when there is such an integer; the indices 0, 1, 3, 4 give
    the gap 2 alone, and a session of at most one clip has no gap. *)
Theorem C5_session_gaps (clips : list summary) (session : Z) :
  let observed := observed_indices clips session in
  let gaps := gaps_of clips session in
  (∀ x, x ∈ gaps ↔
        (∃ lo hi, lo ∈ observed ∧ hi ∈ observed
                  ∧ (∀ y, y ∈ observed → lo ≤ y ≤ hi) ∧ lo ≤ x ≤ hi)
        ∧ x ∉ observed)
  ∧ StronglySorted Z.lt gaps
  ∧ (∀ g, (session, g) ∈ analyze_session_gaps clips ↔ g = gaps ∧ g ≠ [])
  ∧ ((∀ x, x ∈ observed ↔ x ∈ [0; 1; 3; 4]) → gaps = [2])
  ∧ ((length observed ≤ 1)%nat → gaps = []).
Proof.
  intros observed gaps.
  assert (Hmem : ∀ x, x ∈ gaps ↔
        (∃ lo hi, lo ∈ observed ∧ hi ∈ observed
                  ∧ (∀ y, y ∈ observed → lo ≤ y ≤ hi) ∧ lo ≤ x ≤ hi)
        ∧ x ∉ observed).
  { intros x. unfold gaps, gaps_of, observed.
    rewrite <- group_by_session_lookup. apply elem_of_missing_indices. }
  assert (Hsorted : StronglySorted Z.lt gaps)
    by apply missing_indices_sorted.
  split; [done|]. split; [done|].
  split; [intros g; apply elem_of_analyze_session_gaps|]. split.
  - intros Hobs. apply singleton_sorted; [done|]. intros x.
    rewrite Hmem. setoid_rewrite Hobs. split.
    + intros [(lo & hi & Hlo & Hhi & Hb & Hx) Hnot].
      assert (H0 : 0 ∈ [0; 1; 3; 4]) by (rewrite !elem_of_cons; auto).
      assert (H4 : 4 ∈ [0; 1; 3; 4]) by (rewrite !elem_of_cons; auto).
      apply Hb in H0, H4.
      rewrite !elem_of_cons, elem_of_nil in Hlo, Hhi, Hnot. lia.
    + intros ->. split.
      * exists 0, 4. rewrite !elem_of_cons. split; [auto|].
        split; [auto 6|].
        split; [|lia]. intros y. rewrite !elem_of_cons, elem_of_nil. lia.
      * rewrite !elem_of_cons, elem_of_nil. lia.
  - intros Hlen. destruct gaps as [|x gaps'] eqn:E; [done|]. exfalso.
    assert (x ∈ x :: gaps') as Hx by left.
    apply Hmem in Hx as [(lo & hi & Hlo & Hhi & Hb & Hx) Hnot].
    destruct observed as [|a [|b l]]; cbn in Hlen; [|  |lia].
    + by apply elem_of_nil in Hlo.
    + apply list_elem_of_singleton in Hlo as ->.
      apply list_elem_of_singleton in Hhi as ->.
      apply Hnot. assert (x = a) as -> by lia. left.
Qed.

(** C5, witness: a session with the clip indices 0, 1, 3, 4 and a session
    with one clip. *)
Lemma C5_session_gaps_witness :
  analyze_session_gaps example_session = [(1, [2])]
  ∧ gaps_of example_session 1 = [2]
  ∧ gaps_of example_session 2 = [].
Proof.
  split; [vm_compute; reflexivity|]. split.
  - apply (C5_session_gaps example_session 1).
    intros x. vm_compute. tauto.
  - apply (C5_session_gaps example_session 2).
    vm_compute. lia.
Defined.

End Gaps.

(** ** The Prompt Coverage Reconciler *)

Section Coverage.
Import Video2.

Lemma track_spec sets s p :
  (p ∈ attempted_prompts (track sets s) ↔
   p ∈ attempted_prompts sets ∨ (p ≠ "" ∧ promptText s = Val p))
  ∧ (p ∈ completed_prompts (track sets s) ↔
     p ∈ completed_prompts sets
     ∨ (p ≠ "" ∧ promptText s = Val p ∧ valid s = Val true))
  ∧ (p ∈ rejected_prompts (track sets s) ↔
     p ∈ rejected_prompts sets
     ∨ (p ≠ "" ∧ promptText s = Val p ∧ valid s ≠ Val true)).
Proof.
  unfold track. destruct (promptText s) as [| |q]; cbn;
    [naive_solver|naive_solver|].
  destruct (String.eqb_spec q "") as [->|Hq]; cbn; [naive_solver|].
  destruct (valid s) as [| |[]]; cbn;
    rewrite ?elem_of_union, ?elem_of_singleton; naive_solver.
Qed.

Lemma track_all_from clips sets p :
  (p ∈ attempted_prompts (fold_left track clips sets) ↔
   p ∈ attempted_prompts sets
   ∨ (p ≠ "" ∧ ∃ s, s ∈ clips ∧ promptText s = Val p))
  ∧ (p ∈ completed_prompts (fold_left track clips sets) ↔
     p ∈ completed_prompts sets ∨ (p ≠ "" ∧ accepted clips p))
  ∧ (p ∈ rejected_prompts (fold_left track clips sets) ↔
     p ∈ rejected_prompts sets ∨ (p ≠ "" ∧ refused clips p)).
Proof.
  unfold accepted, refused.
  revert sets. induction clips as [|s clips IH]; intros sets; cbn.
  - setoid_rewrite elem_of_nil. naive_solver.
  - destruct (IH (track sets s)) as (IH1 & IH2 & IH3).
    destruct (track_spec sets s p) as (T1 & T2 & T3).
    rewrite IH1, IH2, IH3, T1, T2, T3. setoid_rewrite elem_of_cons.
    naive_solver.
Qed.

Lemma track_all_spec clips p :
  (p ∈ attempted_prompts (track_all clips) ↔
   p ≠ "" ∧ ∃ s, s ∈ clips ∧ promptText s = Val p)
  ∧ (p ∈ completed_prompts (track_all clips) ↔ p ≠ "" ∧ accepted clips p)
  ∧ (p ∈ rejected_prompts (track_all clips) ↔ p ≠ "" ∧ refused clips p).
Proof.
  destruct (track_all_from clips no_prompts p) as (H1 & H2 & H3).
  unfold track_all. rewrite H1, H2, H3. cbn. set_solver.
Qed.

Lemma elem_of_sorted_strings p (s : gset string) :
  p ∈ sorted_strings s ↔ p ∈ s.
Proof.
  unfold sorted_strings. by rewrite merge_sort_Permutation, elem_of_elements.
Qed.


Lemma elem_of_csv_rows report expected attempted row :
  row ∈ create_missing_prompts_csv report expected attempted ↔
  row ∈ report
  ∨ ∃ missing, missing_prompts expected attempted = Some missing
               ∧ ∃ q, q ∈ missing ∧ row = (q, completely_skipped).
Proof.
  unfold create_missing_prompts_csv.
  rewrite elem_of_app, merge_sort_Permutation.
  destruct (missing_prompts expected attempted) as [missing|].
  - rewrite list_elem_of_fmap. naive_solver.
  - rewrite elem_of_nil. naive_solver.
Qed.

Lemma elem_of_missing_prompts expected attempted q :
  q ∈ expected → q ∉ attempted →
  ∃ missing, missing_prompts (Some expected) attempted = Some missing
             ∧ q ∈ missing.
Proof.
  intros Hq Hno. unfold missing_prompts.
  rewrite bool_decide_eq_true_2 by set_solver.
  eexists. split; [done|]. rewrite elem_of_sorted_strings. set_solver.
Qed.





End Coverage.

(** ** Sorting *)

Section Sorting.
Import PySorted.
Context {A : Type} (R : relation A) `{!RelDecision R}.

Lemma insert_before_perm x l : insert_before R x l ≡ₚ x :: l.
Proof.
  induction l as [|y l IH]; simpl; [done|].
  destruct (decide (R x y)); [done|].
  rewrite IH. apply Permutation_swap.
Qed.

Lemma py_sorted_perm l : py_sorted R l ≡ₚ l.
Proof.
  induction l as [|x l IH]; simpl; [done|].
  rewrite insert_before_perm. by rewrite IH.
Qed.

Lemma insert_before_sorted `{!Total R} x l :
  Sorted R l → Sorted R (insert_before R x l).
Proof.
  induction 1 as [|y l Hl IH Hy]; simpl.
  - repeat constructor.
  - destruct (decide (R x y)) as [Hxy|Hxy].
    + repeat constructor; done.
    + constructor; [done|].
      assert (R y x) by (destruct (total R x y); done).
      destruct Hy as [|z l Hz]; simpl; [by constructor|].
      destruct (decide (R x z)); by constructor.
Qed.

Lemma py_sorted_sorted `{!Total R} l : Sorted R (py_sorted R l).
Proof.
  induction l as [|x l IH]; simpl; [constructor|].
  by apply insert_before_sorted.
Qed.

(** Elements that the order does not tell apart keep their order. *)
Lemma insert_before_stable (P : A → Prop) `{!∀ x, Decision (P x)} x l :
  (∀ y z, P y → P z → R y z) →
  filter P (insert_before R x l) = filter P (x :: l).
Proof.
  intros HP. induction l as [|y l IH]; simpl; [done|].
  destruct (decide (R x y)) as [Hxy|Hxy]; [done|].
  rewrite filter_cons, IH, !filter_cons.
  destruct (decide (P y)), (decide (P x)); try done.
  destruct Hxy. by apply HP.
Qed.

Lemma py_sorted_stable (P : A → Prop) `{!∀ x, Decision (P x)} l :
  (∀ y z, P y → P z → R y z) →
  filter P (py_sorted R l) = filter P l.
Proof.
  intros HP. induction l as [|x l IH]; simpl; [done|].
  rewrite insert_before_stable by done.
  by rewrite !filter_cons, IH.
Qed.

End Sorting.

(** ** Timestamps with a trailing Z *)

Section TrailingZ.
Import Dump4.

Lemma drop_last_app s c : drop_last (s +:+ String c "") = s.
Proof.
  induction s as [|a s IH]; [done|].
  simpl. destruct s; [done|]. simpl in *. by rewrite IH.
Qed.

Lemma endswith_Z_snoc s c :
  endswith_Z (s +:+ String c "") = Ascii.eqb c "Z".
Proof.
  induction s as [|a s IH]; [done|].
  rewrite app_cons. cbn [endswith_Z]. rewrite IH.
  by destruct s.
Qed.

(** X1: of a timestamp only a final capital Z is rewritten, to +00:00,
    before the text goes to [fromisoformat]; every other text, the empty
    one included, goes there unchanged. *)
Theorem parse_trailing_Z (fromisoformat : string → except datetime)
    (s : string) (c : ascii) :
  _parse_iso_timestamp fromisoformat (s +:+ String c "")
  = fromisoformat (if Ascii.eqb c "Z" then s +:+ "+00:00"
                   else s +:+ String c "")
  ∧ _parse_iso_timestamp fromisoformat "" = fromisoformat "".
Proof.
  split; [|done]. unfold _parse_iso_timestamp.
  rewrite endswith_Z_snoc. destruct (Ascii.eqb c "Z"); [|done].
  by rewrite drop_last_app.
Qed.

End TrailingZ.

(** ** The loop of get_data *)

Section GetDataLoop.
Import Re Dump4.
Variable fromisoformat : string → except datetime.

Local Abbreviation process := (Dump4.process fromisoformat).
Local Abbreviation get_data_from := (Dump4.get_data_from fromisoformat).
Local Abbreviation get_data := (Dump4.get_data fromisoformat).
Local Abbreviation bounds := (get_clip_bounds_in_video fromisoformat).

Lemma get_data_from_ok docs acc r :
  get_data_from docs acc = Ok r →
  clips r = clips acc ++ omap (fun d => kept_clip (process d)) docs
  ∧ sessions r = sessions acc ++ omap (fun d => kept_session (process d)) docs
  ∧ skipped r = skipped acc ++ omap (fun d => skip_message d (process d)) docs
  ∧ Forall (fun d => returns (process d)) docs.
Proof.
  revert acc. induction docs as [|d docs IH]; intros acc; simpl.
  - intros [= <-]. by rewrite !app_nil_r.
  - destruct (Dump4.process fromisoformat d) as [o|e] eqn:Ho; [|done].
    simpl. intros (Hc & Hs & Hk & Hall)%IH.
    rewrite Hc, Hs, Hk.
    repeat split; [| | |constructor; [by eexists|done]];
      destruct o; simpl; by rewrite <- ?app_assoc.
Qed.

Lemma get_data_from_returns docs acc :
  Forall (fun d => returns (process d)) docs →
  returns (get_data_from docs acc).
Proof.
  intros Hall. revert acc.
  induction Hall as [|d docs [o Ho] _ IH]; intros acc; simpl.
  - by eexists.
  - rewrite Ho. simpl. apply IH.
Qed.

Lemma get_data_from_raise docs acc e :
  get_data_from docs acc = Raise e ↔
  ∃ before doc after,
    docs = before ++ doc :: after
    ∧ Forall (fun d => returns (process d)) before
    ∧ process doc = Raise e.
Proof.
  revert acc. induction docs as [|d docs IH]; intros acc; simpl.
  - split; [done|]. intros (before & doc & after & H & _).
    by destruct before.
  - destruct (Dump4.process fromisoformat d) as [o|e'] eqn:Ho; simpl.
    + rewrite IH. split.
      * intros (before & doc & after & -> & Hb & Hd).
        exists (d :: before), doc, after.
        repeat split; [|done]. constructor; [by eexists|done].
      * intros (before & doc & after & Heq & Hb & Hd).
        destruct before as [|d' before]; simplify_eq/=.
        -- congruence.
        -- exists before, doc, after. by inversion Hb.
    + split.
      * intros [= ->]. exists [], d, docs. by repeat split.
      * intros (before & doc & after & Heq & Hb & Hd).
        destruct before as [|d' before]; simplify_eq/=.
        -- congruence.
        -- inversion Hb as [|?? [o Ho'] ?]; simplify_eq. congruence.
Qed.

(** A document makes [process] raise only through the bounds of a clip
    document that passed every check. *)
Lemma process_raise doc e :
  process doc = Raise e ↔
  ∃ data, passes_checks doc data ∧ bounds data = Raise e.
Proof.
  unfold Dump4.process, passes_checks, clip_document. split.
  - destruct (String.prefix "clipData-" (id doc)) eqn:Hp.
    + destruct (data_or_doc (to_dict doc)) as [data|] eqn:Hd; [|done].
      destruct (truthy_str (get (clipId data) None)); [|done]. simpl.
      destruct (re_match clip_id_pattern _) as [m1|] eqn:H1; [|done].
      destruct (truthy_str (get (doc_filename data) None)); [|done]. simpl.
      destruct (re_match filename_pattern _) as [m2|] eqn:H2; [|done].
      destruct (int_group m1 1 =? int_group m2 3) eqn:H3; [|done]. simpl.
      destruct (Dump4.get_clip_bounds_in_video fromisoformat data)
        as [[a b]|e'] eqn:Hb; [done|].
      simpl. intros [= ->]. exists data.
      repeat split; [|done]. exists m1, m2. repeat split; [done..|by apply Z.eqb_eq].
    + destruct (String.prefix "sessionData-" (id doc)); [|done].
      by destruct (data_or_doc (to_dict doc)).
  - intros (data & (-> & -> & m1 & m2 & H1 & H2 & H3) & Hb).
    destruct (truthy_str (get (clipId data) None)) eqn:Hc; simpl.
    2:{ rewrite (falsy_default _ Hc) in H1. by vm_compute in H1. }
    rewrite H1.
    destruct (truthy_str (get (doc_filename data) None)) eqn:Hf; simpl.
    2:{ rewrite (falsy_default _ Hf) in H2. by vm_compute in H2. }
    rewrite H2. rewrite H3, Z.eqb_refl. simpl. by rewrite Hb.
Qed.

(** X2: what [get_data] returns lists the documents in the order of the
    stream, each by its own outcome: the clips kept, the session documents
    and the messages of the documents skipped. *)
Theorem get_data_in_stream_order (docs : list document) (r : collected) :
  get_data docs = Ok r →
  clips r = omap (fun d => kept_clip (process d)) docs
  ∧ sessions r = omap (fun d => kept_session (process d)) docs
  ∧ skipped r = omap (fun d => skip_message d (process d)) docs
  ∧ (length (clips r) + length (sessions r) + length (skipped r)
     ≤ length docs)%nat.
Proof.
  intros (Hc & Hs & Hk & _)%get_data_from_ok. simpl in *.
  rewrite Hc, Hs, Hk. repeat split.
  clear. induction docs as [|d docs IH]; simpl; [done|].
  destruct (Dump4.process fromisoformat d) as [[]|]; simpl;
    unfold omap in IH; lia.
Qed.

(** X3: [get_data] raises exactly when a clip document that passes the
    checks of the identifier and of the filename has bounds that raise, and
    it raises what the first such document raises: nothing is returned for
    the user, whatever the other documents are. *)
Theorem get_data_raises (docs : list document) (e : exn) :
  get_data docs = Raise e ↔
  ∃ before doc after data,
    docs = before ++ doc :: after
    ∧ Forall (fun d => returns (process d)) before
    ∧ passes_checks doc data ∧ bounds data = Raise e.
Proof.
  unfold Dump4.get_data. rewrite get_data_from_raise. split.
  - intros (before & doc & after & -> & Hb & (data & Hp & Hd)%process_raise).
    by exists before, doc, after, data.
  - intros (before & doc & after & data & -> & Hb & Hp & Hd).
    exists before, doc, after. repeat split; [done|].
    apply process_raise. by exists data.
Qed.

End GetDataLoop.

(** ** The filename pattern *)

Section Filename.
Import Re Dump4 PySorted.

Lemma digit_decimal c : digit c = true → In c decimal_digits.
Proof.
  destruct c as [[] [] [] [] [] [] [] []]; vm_compute; intros H;
    try discriminate H; tauto.
Qed.

Lemma three_digits_check :
  forallb (fun a => forallb (fun b => forallb (fun c =>
    let s := String a (String b (String c "")) in
    String.eqb (format_03d (int_digits s)) s
    && (0 <=? int_digits s) && (int_digits s <=? 999))
    decimal_digits) decimal_digits) decimal_digits = true.
Proof. vm_compute. reflexivity. Qed.

Lemma three_digits s :
  String.length s = 3%nat → all_chars digit s = true →
  format_03d (int_digits s) = s ∧ 0 ≤ int_digits s ≤ 999.
Proof.
  destruct s as [|a [|b [|c [|]]]]; try done. intros _. cbn [all_chars].
  rewrite !andb_true_iff.
  intros (Ha%digit_decimal & Hb%digit_decimal & Hc%digit_decimal & _).
  pose proof three_digits_check as H.
  rewrite forallb_forall in H. specialize (H a Ha).
  rewrite forallb_forall in H. specialize (H b Hb).
  rewrite forallb_forall in H. specialize (H c Hc).
  cbv zeta in H. rewrite !andb_true_iff in H.
  destruct H as [[H1%String.eqb_eq H2%Z.leb_le] H3%Z.leb_le]. done.
Qed.

Lemma after_prefix_sound pos s caps m :
  run after_prefix pos s caps (fun _ _ caps => Some caps) = Some m →
  ∃ user_id session,
    filename_shape s None user_id session
    ∧ m = <[3%nat := session]> (<[2%nat := user_id]> caps).
Proof.
  unfold after_prefix. cbn [run].
  intros (u1 & s1 & -> & Hu1 & Hd1 & H)%plus_sound.
  apply plus_sound in H as (u2 & s2 & -> & Hu2 & Hd2 & H).
  destruct (strip_prefix "-" s2) as [s3|] eqn:E; [|done].
  apply strip_prefix_sound in E as ->.
  apply plus_sound in H as (device & s4 & -> & Hdev & Hnd & H).
  destruct (strip_prefix "-s" s4) as [s5|] eqn:E; [|done].
  apply strip_prefix_sound in E as ->.
  apply times_sound in H as (session & s6 & -> & Hl & Hdg & H).
  destruct (strip_prefix "-" s6) as [s7|] eqn:E; [|done].
  apply strip_prefix_sound in E as ->.
  apply plus_sound in H as (stamp & s8 & -> & Hst & Hds & H).
  destruct (strip_prefix ".mp4" s8) as [nl|] eqn:E; [|done].
  apply strip_prefix_sound in E as ->.
  destruct (String.eqb nl "" || String.eqb nl (String "010" "")) eqn:Hnl;
    [|done].
  injection H as <-.
  exists (u1 +:+ u2), session. split.
  - exists u1, u2, device, stamp, nl. simpl default. rewrite app_nil_l.
    rewrite !str_app_assoc. repeat split; try done; [by left|].
    apply orb_true_iff in Hnl as [H%String.eqb_eq|H%String.eqb_eq]; auto.
  - f_equal.
    + match goal with |- substring 0 ?n _ = _ =>
        replace n with (String.length session) by lia end.
      apply substring_prefix.
    + f_equal.
      match goal with |- substring 0 ?n _ = _ =>
        replace n with (String.length (u1 +:+ u2))
          by (rewrite length_app; lia) end.
      rewrite <- str_app_assoc. apply substring_prefix.
Qed.

Lemma filename_pattern_unfold f :
  re_match filename_pattern f =
  let k := fun (_ : nat) (_ : string) (caps : gmap nat string) => Some caps in
  match
    match strip_prefix "tutorial-" f with
    | Some f' =>
        run after_prefix (0 + String.length "tutorial-") f'
            (<[1%nat := substring 0 (0 + String.length "tutorial-" - 0) f]> ∅)
            k
    | None => None
    end
  with
  | Some res => Some res
  | None => run after_prefix 0 f ∅ k
  end.
Proof. reflexivity. Qed.

Lemma filename_match_shape f m :
  re_match filename_pattern f = Some m →
  ∃ user_id session,
    filename_shape f (group m 1) user_id session
    ∧ group m 2 = Some user_id ∧ group m 3 = Some session.
Proof.
  rewrite filename_pattern_unfold. cbv zeta. unfold group.
  assert (Hno : ∀ m',
    run after_prefix 0 f ∅ (fun _ _ caps => Some caps) = Some m' →
    ∃ user_id session,
      filename_shape f (m' !! 1%nat) user_id session
      ∧ m' !! 2%nat = Some user_id ∧ m' !! 3%nat = Some session).
  { intros m' (u & se & Hshape & ->)%after_prefix_sound.
    exists u, se. rewrite !lookup_insert_ne by done.
    rewrite lookup_empty. split; [done|]. split; apply lookup_insert_eq. }
  destruct (strip_prefix "tutorial-" f) as [f'|] eqn:E; [|apply Hno].
  match goal with |- context [run after_prefix ?p ?s ?c ?k] =>
    destruct (run after_prefix p s c k) as [m'|] eqn:Hm end; [|apply Hno].
  clear Hno. intros [= <-].
  apply strip_prefix_sound in E as ->.
  apply after_prefix_sound in Hm as (u & se & Hshape & ->).
  exists u, se.
  replace (substring 0 (0 + String.length "tutorial-" - 0)
                     ("tutorial-" +:+ f'))
    with "tutorial-" by (symmetry; apply (substring_prefix "tutorial-")).
  split; [|split].
  - rewrite !lookup_insert_ne by done. rewrite lookup_insert_eq.
    destruct Hshape as (u1 & u2 & device & stamp & nl & Hf & _ & H).
    exists u1, u2, device, stamp, nl.
    split; [|split; [by right|exact H]].
    rewrite Hf. unfold default. by rewrite app_nil_l.
  - rewrite lookup_insert_ne by done. apply lookup_insert_eq.
  - apply lookup_insert_eq.
Qed.

End Filename.

(** ** The clips of the dump *)

Section Dumped.
Import Re Dump4 PySorted.
Variable fromisoformat : string → except datetime.

Local Abbreviation process := (Dump4.process fromisoformat).
Local Abbreviation get_data := (Dump4.get_data fromisoformat).
Local Abbreviation bounds := (get_clip_bounds_in_video fromisoformat).

(** X4: a filename that [get_data] accepts has the shape
    [(tutorial-)?<user>-<device>-s<3 digits>-<stamp>.mp4], with a user id of
    at least two characters and possibly one newline at the end; the groups
    hold the prefix, the user id and the session digits, and formatting the
    session number with three digits gives these digits back. *)
Theorem filename_accepted_shape (f : string) (m : gmap nat string) :
  re_match filename_pattern f = Some m →
  ∃ user_id session,
    filename_shape f (group m 1) user_id session
    ∧ group m 2 = Some user_id ∧ group m 3 = Some session
    ∧ (2 ≤ String.length user_id)%nat
    ∧ 0 ≤ int_group m 3 ≤ 999
    ∧ format_03d (int_group m 3) = session.
Proof.
  intros (u & se & Hshape & H2 & H3)%filename_match_shape.
  exists u, se. repeat split; try done.
  - destruct Hshape as (u1 & u2 & ? & ? & ? & _ & _ & -> & Hu1 & _ & Hu2 & _).
    rewrite length_app. destruct u1, u2; simpl; try done; lia.
  - unfold int_group. rewrite H3. simpl.
    destruct Hshape as (? & ? & ? & ? & ? & _ & _ & _ & _ & _ & _ & _ & _
                        & _ & Hl & Hd & _).
    by apply three_digits.
  - unfold int_group. rewrite H3. simpl.
    destruct Hshape as (? & ? & ? & ? & ? & _ & _ & _ & _ & _ & _ & _ & _
                        & _ & Hl & Hd & _).
    by apply three_digits.
  - unfold int_group. rewrite H3. simpl.
    destruct Hshape as (? & ? & ? & ? & ? & _ & _ & _ & _ & _ & _ & _ & _
                        & _ & Hl & Hd & _).
    by apply three_digits.
Qed.

(** The summary of a clip that a document produces. *)
Lemma clip_document_clip doc c :
  clip_document fromisoformat doc = Ok (Clip c) →
  ∃ data m1 m2 a b,
    data_or_doc doc = Some data
    ∧ re_match clip_id_pattern (default "" (get (clipId data) None)) = Some m1
    ∧ truthy_str (get (doc_filename data) None) = true
    ∧ re_match filename_pattern (default "" (get (doc_filename data) None))
      = Some m2
    ∧ int_group m1 1 = int_group m2 3
    ∧ bounds data = Ok (a, b)
    ∧ full c = doc
    ∧ userId (c_summary c) = group m2 2
    ∧ sessionIndex (c_summary c) = Some (int_group m1 1)
    ∧ clipIndex (c_summary c) = Some (int_group m1 2)
    ∧ filename (c_summary c) = get (doc_filename data) None
    ∧ promptText (c_summary c) =
      set_to (match promptData data with
              | Val pd => get (prompt pd) None
              | _ => None
              end)
    ∧ valid (c_summary c) = set_to (get (doc_valid data) None)
    ∧ tutorial (c_summary c) =
      (if truthy_str (group m2 1) then Some true else None)
    ∧ start_s (c_summary c) = set_if_not_None a
    ∧ end_s (c_summary c) = set_if_not_None b.
Proof.
  unfold clip_document.
  destruct (data_or_doc doc) as [data|] eqn:Hd; [|done].
  destruct (truthy_str (get (clipId data) None)); [|done]. simpl.
  destruct (re_match clip_id_pattern _) as [m1|] eqn:H1; [|done].
  destruct (truthy_str (get (doc_filename data) None)) eqn:Hf; [|done]. simpl.
  destruct (re_match filename_pattern _) as [m2|] eqn:H2; [|done].
  destruct (int_group m1 1 =? int_group m2 3) eqn:H3; [|done]. simpl.
  destruct (Dump4.get_clip_bounds_in_video fromisoformat data)
    as [[a b]|e'] eqn:Hb; [|done].
  simpl. intros [= <-]. exists data, m1, m2, a, b. simpl.
  repeat split; try done.
  - by apply Z.eqb_eq.
  - by destruct (get (doc_filename data) None).
  - by destruct (promptData data).
Qed.

Lemma process_clip doc c :
  process doc = Ok (Clip c) →
  String.prefix "clipData-" (id doc) = true
  ∧ clip_document fromisoformat (to_dict doc) = Ok (Clip c).
Proof.
  unfold Dump4.process.
  destruct (String.prefix "clipData-" (id doc)); [done|].
  destruct (String.prefix "sessionData-" (id doc)); [|done].
  by destruct (data_or_doc (to_dict doc)).
Qed.

Lemma clip_document_dumped docs doc c :
  doc ∈ docs → process doc = Ok (Clip c) → dumped docs c.
Proof.
  intros Hin (Hp & Hc)%process_clip.
  apply clip_document_clip in Hc
    as (data & m1 & m2 & a & b & Hd & H1 & Hft & H2 & H3 & Hb & Hfull & Hu
        & Hs & Hi & Hf & Hpr & Hv & Ht & Ha & Hbb).
  apply filename_match_shape in H2 as H2'.
  destruct H2' as (u & se & Hshape & Hg2 & Hg3).
  apply clip_id_match_sound in H1 as H1'.
  destruct H1' as (prefix & session & clip_index & rest & _ & _ & _ & Hl1
                   & Hd1 & Hl2 & Hd2 & Hg1' & Hg2').
  unfold dumped. cbv zeta. repeat split.
  - exists doc. by rewrite Hfull.
  - exists u. split; [by rewrite Hu|].
    destruct Hshape as (u1 & u2 & ? & ? & ? & _ & _ & -> & Hu1 & _ & Hu2 & _).
    rewrite length_app. destruct u1, u2; simpl; try done; lia.
  - exists (int_group m1 1). split; [done|].
    unfold int_group. rewrite Hg1'. simpl. by apply three_digits.
  - exists (int_group m1 2). split; [done|].
    unfold int_group. rewrite Hg2'. simpl. by apply three_digits.
  - rewrite Hf.
    destruct (get (doc_filename data) None) as [f|]; [|done].
    exists f. split; [done|]. simpl in Hft. intros ->. done.
  - rewrite Hpr. by destruct (match promptData data with
                              | Val pd => get (prompt pd) None
                              | _ => None end).
  - rewrite Hv. by destruct (get (doc_valid data) None).
  - rewrite Ht. by destruct (truthy_str (group m2 1)).
  - rewrite Ha. by destruct a.
  - rewrite Hbb. by destruct b.
  - rewrite Ha, Hbb.
    apply (bounds_both_or_neither fromisoformat) in Hb.
    destruct a, b; simpl; try done; naive_solver.
  - rewrite Ha, Hbb.
    apply (bounds_both_or_neither fromisoformat) in Hb.
    destruct a, b; simpl; try done; naive_solver.
Qed.

Lemma get_data_dumped docs r :
  get_data docs = Ok r → Forall (dumped docs) (clips r).
Proof.
  intros (Hc & _)%get_data_from_ok. simpl in Hc. rewrite Hc.
  apply Forall_forall. intros c (doc & Hin & Hk)%list_elem_of_omap.
  apply clip_document_dumped with doc; [done|].
  unfold kept_clip in Hk.
  destruct (Dump4.process fromisoformat doc) as [[]|]; congruence.
Qed.

(** X5: every clip that [get_data] returns comes from a clip document of
    the stream, kept whole; its summary holds a user id of two characters
    or more, a session and a clip index between 0 and 999 and a filename
    that is not empty; the keys promptText and valid are always there;
    tutorial is never false; and start_s and end_s are there together or
    not at all, never null. *)
Theorem get_data_summaries (docs : list document) (r : collected) :
  get_data docs = Ok r → Forall (dumped docs) (clips r).
Proof. apply get_data_dumped. Qed.

End Dumped.

(** ** Timestamps with and without an offset *)

Section MixedOffsets.
Import Dump4.
Variable fromisoformat : string → except datetime.

Local Abbreviation bounds := (get_clip_bounds_in_video fromisoformat).
Local Abbreviation parse := (_parse_iso_timestamp fromisoformat).

Lemma datetime_sub_raise a b e :
  datetime_sub a b = Raise e ↔ e = TypeError ∧ aware a ≠ aware b.
Proof.
  unfold datetime_sub, aware.
  destruct (utcoffset a), (utcoffset b); simpl; naive_solver.
Qed.

(** X6: when a clip document has the three timestamps and all of them
    parse, its bounds raise TypeError exactly when the clip start or the
    clip end differs from the video start in carrying a UTC offset or not,
    and otherwise both bounds are computed. *)
Theorem bounds_mixed_offsets (d : clip_data)
    (video_start clip_start clip_end : string) (tv ts te : datetime) :
  first_present [videoStart d] = Some video_start →
  first_present [startButtonDownTimestamp d; startButtonUpTimestamp d]
    = Some clip_start →
  first_present [restartButtonDownTimestamp d; swipeForwardTimestamp d;
                 swipeBackTimestamp d] = Some clip_end →
  parse video_start = Ok tv → parse clip_start = Ok ts →
  parse clip_end = Ok te →
  (bounds d = Raise TypeError ↔
   aware ts ≠ aware tv ∨ aware te ≠ aware tv)
  ∧ (aware ts = aware tv → aware te = aware tv →
     ∃ start_s end_s, bounds d = Ok (Some start_s, Some end_s)).
Proof.
  intros Hv Hs He Hpv Hps Hpe.
  rewrite (bounds_unfold fromisoformat), Hv, Hs, He, Hpv, Hps, Hpe.
  cbn [mbind except_bind].
  destruct (datetime_sub ts tv) as [ds|e] eqn:H1; cbn [mbind except_bind].
  - assert (aware ts = aware tv) as Heq1.
    { destruct (decide (aware ts = aware tv)) as [|Hne]; [done|].
      assert (datetime_sub ts tv = Raise TypeError) as Hr
        by (by apply datetime_sub_raise).
      congruence. }
    destruct (datetime_sub te tv) as [de|e] eqn:H2; cbn [mbind except_bind].
    + assert (aware te = aware tv) as Heq2.
      { destruct (decide (aware te = aware tv)) as [|Hne]; [done|].
        assert (datetime_sub te tv = Raise TypeError) as Hr
          by (by apply datetime_sub_raise).
        congruence. }
      split; [|by eexists _, _]. split; [done|]. intros [?|?]; done.
    + apply datetime_sub_raise in H2 as [-> Hne].
      split; [|done]. split; [by right|done].
  - apply datetime_sub_raise in H1 as [-> Hne].
    split; [|done]. split; [by left|done].
Qed.

End MixedOffsets.

(** X6, witness: a video start in UTC with button timestamps that carry no
    offset. *)
Lemma bounds_mixed_offsets_witness :
  Dump4.get_clip_bounds_in_video Iso.fromisoformat mixed_timestamps
  = Raise TypeError.
Proof.
  eapply (bounds_mixed_offsets Iso.fromisoformat mixed_timestamps);
    [reflexivity | reflexivity | reflexivity
     | vm_compute; reflexivity | vm_compute; reflexivity
     | vm_compute; reflexivity | ].
  left. vm_compute. discriminate.
Defined.

(** ** The files written by dump_4.py *)

Section DumpFiles.
Import Dump4 Dump4Main PySorted.
Variable fromisoformat : string → except datetime.

Local Abbreviation get_data := (Dump4.get_data fromisoformat).
Local Abbreviation collect_users := (Dump4Main.collect_users fromisoformat).
Local Abbreviation main := (Dump4Main.main fromisoformat).

Lemma collect_users_ok users cs ss cs' ss' :
  collect_users users cs ss = Ok (cs', ss') ↔
  ∃ rs, Forall2 (fun docs r => get_data docs = Ok r) users rs
        ∧ cs' = cs ++ concat (map clips rs)
        ∧ ss' = ss ++ concat (map sessions rs).
Proof.
  revert cs ss. induction users as [|docs users IH]; intros cs ss; simpl.
  - split.
    + intros [= <- <-]. exists []. by rewrite !app_nil_r.
    + intros (rs & Hrs & -> & ->). inversion Hrs; subst. simpl.
      by rewrite !app_nil_r.
  - destruct (Dump4.get_data fromisoformat docs) as [r|e] eqn:Hr; simpl.
    + rewrite IH. split.
      * intros (rs & Hrs & -> & ->). exists (r :: rs). simpl.
        rewrite !app_assoc. repeat split. by constructor.
      * intros (rs & Hrs & -> & ->).
        inversion Hrs as [|? r' ? rs' Hr' Hrs']; subst.
        assert (r' = r) as -> by congruence.
        exists rs'. simpl. by rewrite !app_assoc.
    + split; [done|]. intros (rs & Hrs & _).
      inversion Hrs; subst. congruence.
Qed.

Lemma collect_users_raise users cs ss e :
  collect_users users cs ss = Raise e ↔
  ∃ before docs after,
    users = before ++ docs :: after
    ∧ Forall (fun docs => returns (get_data docs)) before
    ∧ get_data docs = Raise e.
Proof.
  revert cs ss. induction users as [|docs users IH]; intros cs ss; simpl.
  - split; [done|]. intros (before & ? & ? & H & _). by destruct before.
  - destruct (Dump4.get_data fromisoformat docs) as [r|e'] eqn:Hr; simpl.
    + rewrite IH. split.
      * intros (before & d & after & -> & Hb & Hd).
        exists (docs :: before), d, after.
        repeat split; [|done]. constructor; [by eexists|done].
      * intros (before & d & after & Heq & Hb & Hd).
        destruct before as [|d' before]; simplify_eq/=.
        -- congruence.
        -- exists before, d, after. by inversion Hb.
    + split.
      * intros [= ->]. exists [], docs, users. by repeat split.
      * intros (before & d & after & Heq & Hb & Hd).
        destruct before as [|d' before]; simplify_eq/=.
        -- congruence.
        -- inversion Hb as [|?? [o Ho'] ?]; simplify_eq. congruence.
Qed.

Lemma null_session_key ss :
  existsb (fun d => is_None (session_key d)) ss = true
  ↔ ∃ d, d ∈ ss ∧ doc_filename d = Null.
Proof.
  rewrite existsb_exists. unfold session_key. split.
  - intros (d & Hin%list_elem_of_In & Hd). exists d. split; [done|].
    by destruct (doc_filename d).
  - intros (d & Hin%list_elem_of_In & Hd). exists d. by rewrite Hd.
Qed.

Lemma sort_sessions_raise ss e :
  sort_sessions ss = Raise e ↔
  e = TypeError ∧ (2 ≤ length ss)%nat
  ∧ ∃ d, d ∈ ss ∧ doc_filename d = Null.
Proof.
  unfold sort_sessions.
  destruct (2 <=? length ss)%nat eqn:Hlen; simpl.
  - apply Nat.leb_le in Hlen.
    destruct (existsb _ ss) eqn:Hex.
    + apply null_session_key in Hex.
      split; [intros [= <-]; by repeat split|by intros (-> & _)].
    + split; [done|]. intros (_ & _ & Hd%null_session_key). congruence.
  - apply Nat.leb_gt in Hlen. split; [done|]. intros (_ & ? & _). lia.
Qed.

(** X7: when [main] returns, the clips of the JSON dump are the clips of
    all the users, reordered by (filename, clipIndex) with ties in the
    order they were collected, the sessions are those of all the users in
    ascending order of the filename, and the CSV file has one row for each
    clip whose flag is true, in the order of the JSON dump. *)
Theorem main_output (users : list (list document)) (d : dump) :
  main users = Ok d →
  ∃ rs,
    Forall2 (fun docs r => get_data docs = Ok r) users rs
    ∧ json_clips d ≡ₚ concat (map clips rs)
    ∧ Sorted by_filename_clip (json_clips d)
    ∧ (∀ k, filter (fun c => clip_key c = k) (json_clips d)
            = filter (fun c => clip_key c = k) (concat (map clips rs)))
    ∧ json_sessions d ≡ₚ concat (map sessions rs)
    ∧ Sorted by_session_filename (json_sessions d)
    ∧ csv d = filter (fun s => valid s = Val true)
                     (map c_summary (json_clips d)).
Proof.
  unfold Dump4Main.main.
  destruct (Dump4Main.collect_users fromisoformat users [] [])
    as [[cs ss]|e] eqn:Hc; [|done].
  apply collect_users_ok in Hc as (rs & Hrs & -> & ->). simpl.
  unfold sort_sessions.
  destruct ((2 <=? _)%nat && _); [done|]. simpl. intros [= <-]. simpl.
  exists rs. repeat split; try done.
  - apply py_sorted_perm.
  - apply py_sorted_sorted, _.
  - intros k. apply py_sorted_stable. intros y z Hy Hz.
    unfold by_filename_clip. rewrite Hy, Hz. right. split; [done|lia].
  - apply py_sorted_perm.
  - apply py_sorted_sorted, _.
  - apply list_filter_iff. intros s.
    destruct (valid s) as [| |[]]; simpl; naive_solver.
Qed.

(** X8: [main] raises exactly when [get_data] raises for a user, with the
    exception of the first such user, or when all users are read and, of two
    or more session documents, one has a null filename, which the sort of
    the sessions cannot compare (TypeError); then no file is written. *)
Theorem main_raises (users : list (list document)) (e : exn) :
  main users = Raise e ↔
  (∃ before docs after,
     users = before ++ docs :: after
     ∧ Forall (fun docs => returns (get_data docs)) before
     ∧ get_data docs = Raise e)
  ∨ (e = TypeError
     ∧ ∃ rs, Forall2 (fun docs r => get_data docs = Ok r) users rs
             ∧ (2 ≤ length (concat (map sessions rs)))%nat
             ∧ ∃ d, d ∈ concat (map sessions rs) ∧ doc_filename d = Null).
Proof.
  unfold Dump4Main.main.
  destruct (Dump4Main.collect_users fromisoformat users [] [])
    as [[cs ss]|e'] eqn:Hc; simpl.
  - pose proof Hc as Hc'.
    apply collect_users_ok in Hc' as (rs & Hrs & -> & ->). simpl.
    destruct (sort_sessions (concat (map sessions rs))) as [ss|e'] eqn:Hs;
      simpl.
    + split; [done|]. intros [Hr|(-> & rs' & Hrs' & Hlen & Hd)].
      * apply (collect_users_raise users [] []) in Hr. congruence.
      * assert (rs' = rs) as ->.
        { clear -Hrs Hrs'. revert rs' Hrs'.
          induction Hrs as [|docs r users rs Hr _ IH]; intros rs' Hrs';
            inversion Hrs'; subst; [done|].
          f_equal; [congruence|]. by apply IH. }
        assert (sort_sessions (concat (map sessions rs)) = Raise TypeError)
          as Hr by (by apply sort_sessions_raise).
        congruence.
    + apply sort_sessions_raise in Hs as (-> & Hlen & Hd). split.
      * intros [= <-]. right. split; [done|]. by exists rs.
      * intros [Hr|[-> _]]; [|done].
        apply (collect_users_raise users [] []) in Hr. congruence.
  - split.
    + intros [= ->]. left. by apply (collect_users_raise users [] []).
    + intros [Hr|(_ & rs & Hrs & _)].
      * apply (collect_users_raise users [] []) in Hr. congruence.
      * assert (collect_users users [] []
                = Ok ([] ++ concat (map clips rs),
                      [] ++ concat (map sessions rs))) as Hok
          by (apply collect_users_ok; by exists rs).
        congruence.
Qed.

End DumpFiles.

(** ** The lists and the reports of check.py *)

Section CheckReports.
Import Check CheckReport PySorted.

Lemma check_categorize_all_from clips v i m :
  fold_left
    (fun '(v, i, m) s =>
       match status_of s with
       | MISSING_DATA => (v, i, m ++ [s])
       | VALID => (v ++ [s], i, m)
       | INVALID => (v, i ++ [s], m)
       end)
    clips (v, i, m)
  = (v ++ filter (fun s => status_of s = VALID) clips,
     i ++ filter (fun s => status_of s = INVALID) clips,
     m ++ filter (fun s => status_of s = MISSING_DATA) clips).
Proof.
  revert v i m. induction clips as [|s clips IH]; intros v i m; simpl.
  - by rewrite !app_nil_r.
  - rewrite !filter_cons.
    destruct (status_of s); rewrite IH; simpl;
      by rewrite <- ?app_assoc.
Qed.

Lemma check_categorize_all_filter clips :
  categorize_all clips
  = (filter (fun s => status_of s = VALID) clips,
     filter (fun s => status_of s = INVALID) clips,
     filter (fun s => status_of s = MISSING_DATA) clips).
Proof. unfold categorize_all. by rewrite check_categorize_all_from. Qed.

Lemma length_by_status clips :
  (length (filter (fun s => status_of s = VALID) clips)
   + length (filter (fun s => status_of s = INVALID) clips)
   + length (filter (fun s => status_of s = MISSING_DATA) clips)
   = length clips)%nat.
Proof.
  induction clips as [|s clips IH]; [done|].
  rewrite !filter_cons. destruct (status_of s); simpl; lia.
Qed.


Lemma analyze_clips_rows clips :
  (analyze_clips clips).1
  = map (row_of VALID)
        (py_sorted by_session_clip
           (filter (fun s => status_of s = VALID) clips))
    ++ map (row_of INVALID)
           (py_sorted by_session_clip
              (filter (fun s => status_of s = INVALID) clips))
    ++ map (row_of MISSING_DATA)
           (filter (fun s => status_of s = MISSING_DATA) clips).
Proof. unfold analyze_clips. by rewrite check_categorize_all_filter. Qed.

(** X10: the report file of [analyze_clips] has one row for every clip of
    the dump: first the valid clips, then the invalid ones, each block in
    ascending order of (sessionIndex, clipIndex) with ties in the order of
    the dump, then the clips with missing data in the order of the dump. *)
Theorem analyze_clips_report (clips : list summary) :
  ∃ valid_clips invalid_clips,
    (analyze_clips clips).1
    = map (row_of VALID) valid_clips ++ map (row_of INVALID) invalid_clips
      ++ map (row_of MISSING_DATA)
             (filter (fun s => status_of s = MISSING_DATA) clips)
    ∧ valid_clips ≡ₚ filter (fun s => status_of s = VALID) clips
    ∧ invalid_clips ≡ₚ filter (fun s => status_of s = INVALID) clips
    ∧ Sorted by_session_clip valid_clips
    ∧ Sorted by_session_clip invalid_clips
    ∧ (∀ k, filter (fun s => sort_key s = k) valid_clips
            = filter (fun s => status_of s = VALID ∧ sort_key s = k) clips)
    ∧ (∀ k, filter (fun s => sort_key s = k) invalid_clips
            = filter (fun s => status_of s = INVALID ∧ sort_key s = k) clips)
    ∧ length (analyze_clips clips).1 = length clips.
Proof.
  eexists _, _. split; [apply analyze_clips_rows|].
  assert (Hkey : ∀ k (y z : summary),
            sort_key y = k → sort_key z = k → by_session_clip y z).
  { intros k y z Hy Hz. unfold by_session_clip, pair_le.
    rewrite Hy, Hz. lia. }
  repeat split.
  - apply py_sorted_perm.
  - apply py_sorted_perm.
  - apply py_sorted_sorted, _.
  - apply py_sorted_sorted, _.
  - intros k. rewrite py_sorted_stable by apply Hkey.
    rewrite list_filter_filter. apply list_filter_iff. tauto.
  - intros k. rewrite py_sorted_stable by apply Hkey.
    rewrite list_filter_filter. apply list_filter_iff. tauto.
  - rewrite analyze_clips_rows, !List.length_app, !length_map.
    rewrite !py_sorted_perm. pose proof (length_by_status clips). lia.
Qed.

End CheckReports.

(** ** The statistics of check.py *)

Section CheckStatistics.
Import Check CheckReport PySorted.

Lemma existsb_is_None {A} (l : list (option A)) :
  existsb is_None l = true ↔ None ∈ l.
Proof.
  rewrite existsb_exists. split.
  - intros ([a|] & Hin%list_elem_of_In & H); [done|done].
  - intros Hin. exists None. by rewrite <- list_elem_of_In.
Qed.

Lemma prompt_key_None s : prompt_key s = None ↔ promptText s = Null.
Proof. unfold prompt_key. by destruct (promptText s). Qed.

Lemma print_prompt_statistics_raise valid_clips invalid_clips e :
  print_prompt_statistics valid_clips invalid_clips = Raise e ↔
  e = TypeError
  ∧ ∃ s, s ∈ valid_clips ++ invalid_clips ∧ promptText s = Null.
Proof.
  unfold print_prompt_statistics.
  destruct (existsb is_None _) eqn:Hex.
  - apply existsb_is_None in Hex.
    apply list_elem_of_fmap in Hex as (s & Hs%eq_sym%prompt_key_None & Hin).
    split; [intros [= <-]|]; naive_solver.
  - split; [done|]. intros (_ & s & Hin & Hs%prompt_key_None).
    assert (existsb is_None (map prompt_key (valid_clips ++ invalid_clips))
            = true) as Hex'; [|congruence].
    apply existsb_is_None. rewrite <- Hs. by apply list_elem_of_fmap_2.
Qed.

Lemma tally_cons s clips p :
  tally (s :: clips) p
  = ((if decide (prompt_key s = Some p) then 1 else 0) + tally clips p)%nat.
Proof.
  unfold tally. rewrite filter_cons.
  by destruct (decide (prompt_key s = Some p)).
Qed.

Lemma sum_indicator (k : string) (l : list string) :
  NoDup l → k ∈ l →
  sum_list (map (fun p => if decide (Some k = Some p) then 1 else 0)%nat l)
  = 1%nat.
Proof.
  induction 1 as [|p l Hp Hl IH]; [by intros ?%elem_of_nil|].
  intros [->|Hin]%elem_of_cons; simpl.
  - rewrite decide_True by done. f_equal.
    clear IH Hl. induction l as [|q l IH]; [done|]. simpl.
    rewrite decide_False by (intros [= ->]; apply Hp; left).
    apply IH. intros ?. apply Hp. by right.
  - rewrite decide_False by (intros [= ->]; done). by apply IH.
Qed.

Lemma sum_tally clips (l : list string) :
  NoDup l →
  (∀ s, s ∈ clips → ∃ p, prompt_key s = Some p ∧ p ∈ l) →
  sum_list (map (tally clips) l) = length clips.
Proof.
  intros Hl. induction clips as [|s clips IH]; intros Hin.
  - unfold tally. simpl. clear. induction l as [|q l IH]; [done|]. simpl.
    apply IH.
  - destruct (Hin s) as (p & Hp & Hpl); [left|].
    assert (sum_list (map (tally (s :: clips)) l)
            = (sum_list (map (fun q => if decide (Some p = Some q)
                                       then 1 else 0) l)
               + sum_list (map (tally clips) l))%nat) as ->.
    { clear -Hp. induction l as [|q l IHl]; [done|].
      simpl. rewrite tally_cons, Hp, IHl. lia. }
    rewrite sum_indicator by done.
    rewrite IH; [done|]. intros; apply Hin; by right.
Qed.

Lemma NoDup_sorted_strings (s : gset string) :
  NoDup (Video2.sorted_strings s).
Proof.
  unfold Video2.sorted_strings. rewrite merge_sort_Permutation.
  apply NoDup_elements.
Qed.

Lemma Sorted_sorted_strings (s : gset string) :
  Sorted String.le (Video2.sorted_strings s).
Proof. apply Sorted_merge_sort, _. Qed.

Lemma tally_pos clips p s :
  s ∈ clips → prompt_key s = Some p → (1 ≤ tally clips p)%nat.
Proof.
  intros Hin Hs.
  assert (s ∈ filter (fun s => prompt_key s = Some p) clips) as Hf
    by (by apply list_elem_of_filter).
  unfold tally. destruct (filter _ clips); [|simpl; lia].
  by apply elem_of_nil in Hf.
Qed.

Lemma tally_zero clips p :
  tally clips p = 0%nat ↔ ∀ s, s ∈ clips → prompt_key s ≠ Some p.
Proof.
  split.
  - intros H0 s Hin Hs. pose proof (tally_pos clips p s Hin Hs). lia.
  - intros Hno. unfold tally.
    destruct (filter _ clips) as [|s l] eqn:Hf; [done|].
    assert (s ∈ filter (fun s => prompt_key s = Some p) clips)
      as [Hs Hin]%list_elem_of_filter by (rewrite Hf; left).
    by destruct (Hno s Hin).
Qed.

(** A line of the statistics counts the clips of a prompt that a valid or
    an invalid clip holds. *)
Lemma statistics_line_source valid_clips invalid_clips lines line :
  print_prompt_statistics valid_clips invalid_clips = Ok lines →
  line ∈ lines →
  completed line = tally valid_clips (line_prompt line)
  ∧ skipped line = tally invalid_clips (line_prompt line)
  ∧ line_status line = (if Nat.eqb (skipped line) 0 then DONE else INCOMPLETE)
  ∧ ∃ s, s ∈ valid_clips ++ invalid_clips
         ∧ prompt_key s = Some (line_prompt line).
Proof.
  unfold print_prompt_statistics.
  destruct (existsb is_None _); [done|]. intros [= <-].
  intros (p & -> & Hp)%list_elem_of_fmap. simpl. repeat split.
  apply elem_of_sorted_strings in Hp.
  apply elem_of_list_to_set, list_elem_of_omap in Hp as (k & Hk & Heq).
  simpl in Heq. subst k.
  apply list_elem_of_fmap in Hk as (s & Hs & Hin). by exists s.
Qed.

(** X11: when [print_prompt_statistics] returns, its lines are in ascending
    order of the prompts, without a prompt twice; the completed counts add
    up to the number of valid clips and the skipped counts to the number of
    invalid clips; no line is empty; and a prompt is DONE exactly when no
    invalid clip has it. *)
Theorem prompt_statistics_totals (valid_clips invalid_clips : list summary)
    (lines : list prompt_line) :
  print_prompt_statistics valid_clips invalid_clips = Ok lines →
  Sorted String.le (map line_prompt lines)
  ∧ NoDup (map line_prompt lines)
  ∧ sum_list (map completed lines) = length valid_clips
  ∧ sum_list (map skipped lines) = length invalid_clips
  ∧ Forall (fun line =>
              completed line = tally valid_clips (line_prompt line)
              ∧ skipped line = tally invalid_clips (line_prompt line)
              ∧ (1 ≤ completed line + skipped line)%nat
              ∧ (line_status line = DONE ↔
                 ∀ s, s ∈ invalid_clips →
                      prompt_key s ≠ Some (line_prompt line)))
           lines.
Proof.
  unfold print_prompt_statistics.
  destruct (existsb is_None _) eqn:Hex; [done|]. intros [= <-].
  set (all_prompts := list_to_set _ : gset string).
  assert (Hkeys : ∀ s, s ∈ valid_clips ++ invalid_clips →
                       ∃ p, prompt_key s = Some p
                            ∧ p ∈ Video2.sorted_strings all_prompts).
  { intros s Hs. destruct (prompt_key s) as [p|] eqn:Hp.
    - exists p. split; [done|]. apply elem_of_sorted_strings.
      apply elem_of_list_to_set, list_elem_of_omap.
      exists (Some p). split; [|done]. rewrite <- Hp.
      by apply list_elem_of_fmap_2.
    - assert (existsb is_None (map prompt_key (valid_clips ++ invalid_clips))
              = true) as Hex'; [|congruence].
      apply existsb_is_None. rewrite <- Hp. by apply list_elem_of_fmap_2. }
  rewrite <- !list_fmap_compose.
  repeat split.
  - unfold compose. simpl. rewrite list_fmap_id.
    apply Sorted_sorted_strings.
  - unfold compose. simpl. rewrite list_fmap_id.
    apply NoDup_sorted_strings.
  - unfold compose. simpl. apply sum_tally; [apply NoDup_sorted_strings|].
    intros s Hs. apply Hkeys, elem_of_app. by left.
  - unfold compose. simpl. apply sum_tally; [apply NoDup_sorted_strings|].
    intros s Hs. apply Hkeys, elem_of_app. by right.
  - apply Forall_forall. intros line Hline.
    eapply statistics_line_source in Hline as (Hc & Hk & Hst & s & Hs & Hkey).
    2:{ unfold print_prompt_statistics. by rewrite Hex. }
    split; [done|]. split; [done|]. split.
    + rewrite Hc, Hk.
      apply elem_of_app in Hs as [Hin|Hin];
        pose proof (tally_pos _ _ _ Hin Hkey); lia.
    + rewrite Hst, Hk, <- tally_zero.
      destruct (Nat.eqb_spec (tally invalid_clips (line_prompt line)) 0);
        split; done.
Qed.

Lemma print_invalid_raise invalid_clips e :
  print_invalid invalid_clips = Raise e ↔
  e = ValueError ∧ ∃ s, s ∈ invalid_clips ∧ sessionIndex s = None.
Proof.
  unfold print_invalid.
  destruct (forallb _ invalid_clips) eqn:Hall.
  - split; [done|]. intros (_ & s & Hin & Hs).
    rewrite forallb_forall in Hall.
    apply list_elem_of_In, Hall in Hin. by rewrite Hs in Hin.
  - split; [|naive_solver]. intros [= <-]. split; [done|].
    apply not_true_iff_false in Hall. rewrite forallb_forall in Hall.
    destruct (decide (Exists (fun s => sessionIndex s = None) invalid_clips))
      as [(s & Hin & Hs)%Exists_exists|Hno]; [by exists s|].
    destruct Hall. intros s Hin%list_elem_of_In.
    destruct (sessionIndex s) eqn:Hs; [done|].
    destruct Hno. apply Exists_exists. by exists s.
Qed.

Lemma analyze_clips_cases (clips : list summary) :
  let no_session s := status_of s = INVALID ∧ sessionIndex s = None in
  let null_prompt s := status_of s ≠ MISSING_DATA ∧ promptText s = Null in
  ((analyze_clips clips).2 = Raise ValueError ↔
   ∃ s, s ∈ clips ∧ no_session s)
  ∧ ((analyze_clips clips).2 = Raise TypeError ↔
     (∀ s, s ∈ clips → ¬ no_session s) ∧ ∃ s, s ∈ clips ∧ null_prompt s)
  ∧ (returns (analyze_clips clips).2 ↔
     ∀ s, s ∈ clips → ¬ no_session s ∧ ¬ null_prompt s)
  ∧ ∀ lines lists,
      (analyze_clips clips).2 = Ok (lines, lists) →
      lists = categorize_all clips
      ∧ Forall (fun line =>
                  ∃ s, s ∈ clips ∧ promptText s = Val (line_prompt line))
               lines.
Proof.
  intros no_session null_prompt.
  unfold analyze_clips. rewrite check_categorize_all_filter. simpl.
  set (v := filter (fun s => status_of s = VALID) clips).
  set (i := filter (fun s => status_of s = INVALID) clips).
  assert (Hinv : (∃ s, s ∈ i ∧ sessionIndex s = None)
                 ↔ ∃ s, s ∈ clips ∧ no_session s).
  { unfold i, no_session. split.
    - intros (s & [Hs Hin]%list_elem_of_filter & Hn). by exists s.
    - intros (s & Hin & Hs & Hn). exists s. split; [|done].
      by apply list_elem_of_filter. }
  assert (Hnull : (∃ s, s ∈ v ++ i ∧ promptText s = Null)
                  ↔ ∃ s, s ∈ clips ∧ null_prompt s).
  { unfold v, i, null_prompt. split.
    - intros (s & [[Hs Hin]%list_elem_of_filter
                  |[Hs Hin]%list_elem_of_filter]%elem_of_app & Hp);
        exists s; rewrite Hs; done.
    - intros (s & Hin & Hs & Hp). exists s. split; [|done].
      apply elem_of_app. rewrite !list_elem_of_filter.
      destruct (status_of s); [by left|by right|done]. }
  destruct (print_invalid i) as [[]|e] eqn:Hpi; simpl.
  - assert (∀ s, s ∈ clips → ¬ no_session s) as Hno.
    { intros s Hin Hs.
      assert (print_invalid i = Raise ValueError) as Hr; [|congruence].
      apply print_invalid_raise. split; [done|]. apply Hinv. by exists s. }
    destruct (print_prompt_statistics v i) as [lines|e] eqn:Hps; simpl.
    + assert (∀ s, s ∈ clips → ¬ null_prompt s) as Hnn.
      { intros s Hin Hs.
        assert (print_prompt_statistics v i = Raise TypeError) as Hr;
          [|congruence].
        apply print_prompt_statistics_raise. split; [done|].
        apply Hnull. by exists s. }
      split; [|split; [|split; [|intros lines' lists H; split]]].
      * split; [done|]. intros (s & Hin & Hs). by destruct (Hno s Hin).
      * split; [done|]. intros (_ & s & Hin & Hs). by destruct (Hnn s Hin).
      * split; [|by eexists]. intros _ s Hin. split; auto.
      * congruence.
      * injection H as <- <-. apply Forall_forall. intros line Hline.
        destruct (statistics_line_source _ _ _ _ Hps Hline)
          as (_ & _ & _ & s & Hs & Hkey).
        exists s.
        assert (s ∈ clips ∧ status_of s ≠ MISSING_DATA) as [Hin Hst].
        { apply elem_of_app in Hs as [[H1 H2]%list_elem_of_filter
                                     |[H1 H2]%list_elem_of_filter];
            rewrite H1; done. }
        split; [done|]. unfold prompt_key in Hkey. unfold status_of in Hst.
        destruct (promptText s); simpl in *; try done; [|congruence].
        by rewrite orb_true_r in Hst.
    + apply print_prompt_statistics_raise in Hps as Hps'.
      destruct Hps' as [-> Hex]. apply Hnull in Hex.
      split; [|split; [|split]].
      * split; [done|]. intros (s & Hin & Hs). by destruct (Hno s Hin).
      * split; [intros _; split; [exact Hno|exact Hex]|done].
      * split; [by intros [? ?]|]. intros Hall.
        destruct Hex as (s & Hin & Hs). by destruct (Hall s Hin) as [_ []].
      * done.
  - apply print_invalid_raise in Hpi as Hpi'.
    destruct Hpi' as [-> Hex]. apply Hinv in Hex.
    split; [|split; [|split]].
    + done.
    + split; [done|]. intros (Hall & _).
      destruct Hex as (s & Hin & Hs). by destruct (Hall s Hin).
    + split; [by intros [? ?]|]. intros Hall.
      destruct Hex as (s & Hin & Hs). by destruct (Hall s Hin) as [[] _].
    + done.
Qed.

(** X12: after writing the report file, [analyze_clips] raises ValueError
    exactly when an invalid clip has no sessionIndex, otherwise TypeError
    exactly when a valid or invalid clip has a null promptText, and
    otherwise it returns the three lists; the default prompt Unknown is then
    never used, every line of the statistics being the prompt of a clip. *)
Theorem analyze_clips_outcome (clips : list summary) :
  let no_session s := status_of s = INVALID ∧ sessionIndex s = None in
  let null_prompt s := status_of s ≠ MISSING_DATA ∧ promptText s = Null in
  ((analyze_clips clips).2 = Raise ValueError ↔
   ∃ s, s ∈ clips ∧ no_session s)
  ∧ ((analyze_clips clips).2 = Raise TypeError ↔
     (∀ s, s ∈ clips → ¬ no_session s) ∧ ∃ s, s ∈ clips ∧ null_prompt s)
  ∧ (returns (analyze_clips clips).2 ↔
     ∀ s, s ∈ clips → ¬ no_session s ∧ ¬ null_prompt s)
  ∧ ∀ lines lists,
      (analyze_clips clips).2 = Ok (lines, lists) →
      lists = categorize_all clips
      ∧ Forall (fun line =>
                  ∃ s, s ∈ clips ∧ promptText s = Val (line_prompt line))
               lines.
Proof. apply analyze_clips_cases. Qed.

End CheckStatistics.

(** ** The report of verify_clips.py *)

Section VerificationReport.
Import VerifyClips VerifyClipsCsv PySorted.

Lemma categorize_issue s :
  ∃ i, ci_issues (snd (categorize s)) = [i]
       ∧ issue_bucket i = bucket_of s
       ∧ ∀ d, issue_duration i = Some d →
              ci_duration (snd (categorize s)) = Some d.
Proof.
  unfold bucket_of, categorize.
  destruct (truthy (get (valid s) (Some false))); simpl;
    [|by eexists].
  destruct (get (start_s s) None) as [a|]; simpl; [|by eexists].
  destruct (get (end_s s) None) as [b|]; simpl; [|by eexists].
  destruct (str_eq _ "N/A"); simpl; [by eexists|].
  destruct (flt (fsub b a) f0_5); simpl; [eexists; naive_solver|].
  destruct (flt f20 (fsub b a)); simpl; [eexists; naive_solver|].
  destruct (flt (fsub b a) f1_0); simpl; eexists; naive_solver.
Qed.

Lemma ci_valid_categorize s :
  truthy (ci_valid (snd (categorize s))) = false ↔ bucket_of s = invalid.
Proof.
  unfold bucket_of, categorize.
  destruct (truthy (get (valid s) (Some false))) eqn:Hv; simpl;
    [|by rewrite Hv].
  destruct (get (start_s s) None) as [a|]; simpl; [|by rewrite Hv].
  destruct (get (end_s s) None) as [b|]; simpl; [|by rewrite Hv].
  destruct (str_eq _ "N/A"); simpl; [by rewrite Hv|].
  destruct (flt (fsub b a) f0_5); simpl; [by rewrite Hv|].
  destruct (flt f20 (fsub b a)); simpl; [by rewrite Hv|].
  destruct (flt (fsub b a) f1_0); simpl; by rewrite Hv.
Qed.

(** X13: whatever the record, the classifier attaches exactly one issue to
    it, and the issue fixes the bucket: the branch that files a clip as low
    confidence without an issue is never taken, and a duration cited by the
    issue is the duration of the clip. *)
Theorem categorize_one_issue (s : summary) :
  ∃ i, ci_issues (snd (categorize s)) = [i]
       ∧ issue_bucket i = bucket_of s
       ∧ ∀ d, issue_duration i = Some d →
              ci_duration (snd (categorize s)) = Some d.
Proof. apply categorize_issue. Qed.

Lemma create_verification_csv_rows clips :
  create_verification_csv (categorize_all clips no_results)
  = flat_map (fun b => map (fun s => row_of b (snd (categorize s)))
                           (filter (fun s => bucket_of s = b) clips))
             buckets.
Proof.
  unfold create_verification_csv, buckets. cbn [flat_map].
  rewrite !categorize_all_partition, !map_map. reflexivity.
Qed.

(** X14: the verification report has one row for every clip, bucket after
    bucket in the order high, medium, low, invalid, incomplete and in the
    order of the dump inside a bucket; the valid flag of a row is NO exactly
    in the bucket INVALID, and every row carries the one issue of its
    bucket. *)
Theorem verification_csv_rows (clips : list summary) :
  let rows := create_verification_csv (categorize_all clips no_results) in
  rows = flat_map (fun b => map (fun s => row_of b (snd (categorize s)))
                               (filter (fun s => bucket_of s = b) clips))
                  buckets
  ∧ length rows = length clips
  ∧ Forall (fun row =>
              (valid_flag row = false ↔ confidence row = invalid)
              ∧ ∃ i, row_issues row = [i] ∧ issue_bucket i = confidence row)
           rows.
Proof.
  cbv zeta. rewrite create_verification_csv_rows. split; [done|]. split.
  - unfold buckets. cbn [flat_map]. rewrite !List.length_app, !length_map.
    cbn [length]. pose proof (count_total clips) as H.
    unfold count in H. lia.
  - apply Forall_forall. intros row Hrow.
    rewrite list_elem_of_In, in_flat_map in Hrow.
    destruct Hrow as (b & _ & Hrow). rewrite <- list_elem_of_In in Hrow.
    apply list_elem_of_fmap in Hrow as (s & -> & Hs).
    apply list_elem_of_filter in Hs as [<- _]. simpl. split.
    + apply ci_valid_categorize.
    + destruct (categorize_issue s) as (i & Hi & Hb & _). by exists i.
Qed.

Lemma fsub_diag a : is_number a = true → fsub a a = S754_zero false.
Proof.
  destruct a as [[]|[]| |[] m e]; try done; intros _;
    unfold fsub, SFsub; cbv zeta; by rewrite Z.sub_diag.
Qed.

(** X15: a clip that is valid, has a prompt, and starts and ends at the same
    instant is filed as low confidence with the issue Too short, and its
    duration column in the report reads N/A and not 0.00: a duration of
    zero counts as no duration. *)
Theorem zero_duration_row (s : summary) (p : string) (a : float) :
  valid s = Val true → promptText s = Val p → p ≠ "N/A" →
  start_s s = Val a → end_s s = Val a → is_number a = true →
  bucket_of s = low_confidence
  ∧ ci_issues (snd (categorize s)) = [Too_short (S754_zero false)]
  ∧ duration_s (row_of low_confidence (snd (categorize s))) = "N/A".
Proof.
  intros Hv Hp Hna Ha Hb Hnum.
  unfold bucket_of, categorize, row_of. rewrite Hv, Hp, Ha, Hb. simpl.
  rewrite fsub_diag by done.
  destruct (String.eqb_spec p "N/A") as [->|_]; [done|]. simpl. done.
Qed.

Lemma print_prompts_raise l e :
  print_prompts l = Raise e ↔
  e = TypeError ∧ ∃ c, c ∈ l ∧ ci_prompt c = None.
Proof.
  unfold print_prompts. destruct (forallb _ l) eqn:Hall.
  - split; [done|]. intros (_ & c & Hin & Hc).
    rewrite forallb_forall in Hall.
    apply list_elem_of_In, Hall in Hin. by rewrite Hc in Hin.
  - split; [|naive_solver]. intros [= <-]. split; [done|].
    destruct (decide (Exists (fun c => ci_prompt c = None) l))
      as [(c & Hin & Hc)%Exists_exists|Hno]; [by exists c|].
    assert (forallb (fun c => negb (is_None (ci_prompt c))) l = true)
      as Hall'; [|congruence].
    apply forallb_forall. intros c Hin%list_elem_of_In.
    destruct (ci_prompt c) eqn:Hc; [done|].
    destruct Hno. apply Exists_exists. by exists c.
Qed.

Lemma printed_null clips b :
  (∃ c, c ∈ lookup_bucket (categorize_all clips no_results) b
        ∧ ci_prompt c = None)
  ↔ ∃ s, s ∈ clips ∧ bucket_of s = b ∧ promptText s = Null.
Proof.
  rewrite categorize_all_partition. split.
  - intros (c & (s & -> & [Hb Hin]%list_elem_of_filter)%list_elem_of_fmap
            & Hc).
    exists s. repeat split; [done..|].
    rewrite ci_prompt_categorize in Hc. by destruct (promptText s).
  - intros (s & Hin & Hb & Hp). exists (snd (categorize s)). split.
    + apply list_elem_of_fmap. exists s. split; [done|].
      by apply list_elem_of_filter.
    + rewrite ci_prompt_categorize. by rewrite Hp.
Qed.

Lemma unprintable_bucket s :
  unprintable s ↔
  promptText s = Null
  ∧ (bucket_of s = medium_confidence ∨ bucket_of s = low_confidence
     ∨ bucket_of s = invalid).
Proof.
  unfold unprintable. destruct (bucket_of s); naive_solver.
Qed.

Lemma verify_clip_quality_cases (clips : list summary) :
  (verify_clip_quality clips = Raise ZeroDivisionError ↔ clips = [])
  ∧ (verify_clip_quality clips = Raise TypeError ↔
     clips ≠ [] ∧ ∃ s, s ∈ clips ∧ unprintable s)
  ∧ (returns (verify_clip_quality clips) ↔
     clips ≠ [] ∧ ∀ s, s ∈ clips → ¬ unprintable s)
  ∧ verify_clip_quality clips ≠ Raise ValueError.
Proof.
  destruct clips as [|s0 clips].
  { rewrite verify_clip_quality_empty.
    split; [done|]. split; [split; [done|by intros [? _]]|].
    split; [|done]. split; [by intros [? ?]|by intros [? _]]. }
  set (batch := s0 :: clips).
  assert (Hne : batch ≠ []) by done.
  assert (Hscore := calculate_overall_confidence_score batch Hne).
  unfold verify_clip_quality. fold batch. rewrite Hscore.
  change (length batch) with (S (length clips)). cbn [mbind except_bind].
  set (r := categorize_all batch no_results).
  assert (Hml : (∃ c, c ∈ r_medium_confidence r ++ r_low_confidence r
                      ∧ ci_prompt c = None)
                ↔ ∃ s, s ∈ batch ∧ promptText s = Null
                       ∧ (bucket_of s = medium_confidence
                          ∨ bucket_of s = low_confidence)).
  { pose proof (printed_null batch medium_confidence) as Hm.
    pose proof (printed_null batch low_confidence) as Hl.
    fold r in Hm, Hl. simpl in Hm, Hl. split.
    - intros (c & [Hc|Hc]%elem_of_app & Hn).
      + destruct (proj1 Hm) as (s & ? & ? & ?); [by exists c|].
        exists s. auto.
      + destruct (proj1 Hl) as (s & ? & ? & ?); [by exists c|].
        exists s. auto.
    - intros (s & Hin & Hp & [Hb|Hb]).
      + destruct (proj2 Hm) as (c & ? & ?); [by exists s|].
        exists c. split; [apply elem_of_app; by left|done].
      + destruct (proj2 Hl) as (c & ? & ?); [by exists s|].
        exists c. split; [apply elem_of_app; by right|done]. }
  pose proof (printed_null batch invalid) as Hi. fold r in Hi. simpl in Hi.
  destruct (print_prompts (r_medium_confidence r ++ r_low_confidence r))
    as [[]|e] eqn:H1; cbn [mbind except_bind].
  - assert (Hno1 : ¬ ∃ s, s ∈ batch ∧ promptText s = Null
                          ∧ (bucket_of s = medium_confidence
                             ∨ bucket_of s = low_confidence)).
    { rewrite <- Hml. intros Hex.
      assert (print_prompts (r_medium_confidence r ++ r_low_confidence r)
              = Raise TypeError) as Hr; [|congruence].
      by apply print_prompts_raise. }
    destruct (print_prompts (r_invalid r)) as [[]|e] eqn:H2;
      cbn [mbind except_bind].
    + assert (Hno2 : ¬ ∃ s, s ∈ batch ∧ bucket_of s = invalid
                            ∧ promptText s = Null).
      { rewrite <- Hi. intros Hex.
        assert (print_prompts (r_invalid r) = Raise TypeError) as Hr;
          [|congruence].
        by apply print_prompts_raise. }
      assert (Hnone : ∀ s, s ∈ batch → ¬ unprintable s).
      { intros s Hin (Hp & [Hb|[Hb|Hb]])%unprintable_bucket.
        - apply Hno1. exists s. auto.
        - apply Hno1. exists s. auto.
        - apply Hno2. by exists s. }
      split; [done|]. split; [|split; [|done]].
      * split; [done|]. intros (_ & s & Hin & Hs). by destruct (Hnone s Hin).
      * split; [done|]. intros _. by eexists.
    + apply print_prompts_raise in H2 as H2'. destruct H2' as [-> Hex].
      apply Hi in Hex as (s & Hin & Hb & Hp).
      assert (unprintable s) as Hu.
      { apply unprintable_bucket. auto. }
      split; [done|]. split; [|split; [|done]].
      * split; [|done]. intros _. split; [done|]. by exists s.
      * split; [by intros [? ?]|]. intros [_ Hall]. by destruct (Hall s Hin).
  - apply print_prompts_raise in H1 as H1'. destruct H1' as [-> Hex].
    apply Hml in Hex as (s & Hin & Hp & Hb).
    assert (unprintable s) as Hu.
    { apply unprintable_bucket. split; [done|]. tauto. }
    split; [done|]. split; [|split; [|done]].
    + split; [|done]. intros _. split; [done|]. by exists s.
    + split; [by intros [? ?]|]. intros [_ Hall]. by destruct (Hall s Hin).
Qed.

(** X16: [verify_clip_quality] raises ZeroDivisionError exactly on a dump
    without clips, otherwise TypeError exactly when a record with a null
    prompt falls in a bucket that the console report prints (medium, low or
    invalid), and otherwise it returns the buckets and the score; it raises
    nothing else. *)
Theorem verify_clip_quality_outcome (clips : list summary) :
  (verify_clip_quality clips = Raise ZeroDivisionError ↔ clips = [])
  ∧ (verify_clip_quality clips = Raise TypeError ↔
     clips ≠ [] ∧ ∃ s, s ∈ clips ∧ unprintable s)
  ∧ (returns (verify_clip_quality clips) ↔
     clips ≠ [] ∧ ∀ s, s ∈ clips → ¬ unprintable s)
  ∧ verify_clip_quality clips ≠ Raise ValueError.
Proof. apply verify_clip_quality_cases. Qed.

End VerificationReport.

(** ** The two classifiers *)

Section Classifiers.
Import VerifyClips Check.

(** X17: how the two classifiers relate on a record.  What check.py calls
    INVALID is in the bucket invalid of verify_clips.py; what it calls
    MISSING_DATA is in the bucket invalid when the flag is not true and
    incomplete when it is; a record of one of the three confidence buckets
    is VALID.  They differ on a VALID record exactly when its [start_s] or
    [end_s] is null or its prompt is the text N/A: verify_clips.py then
    files it as incomplete, as it does a valid clip of two seconds with the
    prompt N/A; every other VALID record is in a confidence bucket. *)
Theorem classifiers_compared (s : summary) :
  (status_of s = INVALID → bucket_of s = invalid)
  ∧ (status_of s = MISSING_DATA →
     (valid s = Val true → bucket_of s = incomplete)
     ∧ (valid s ≠ Val true → bucket_of s = invalid))
  ∧ (status_of s = VALID →
     (start_s s = Null ∨ end_s s = Null ∨ promptText s = Val "N/A" →
      bucket_of s = incomplete)
     ∧ (¬ (start_s s = Null ∨ end_s s = Null ∨ promptText s = Val "N/A") →
        bucket_of s = high_confidence ∨ bucket_of s = medium_confidence
        ∨ bucket_of s = low_confidence))
  ∧ (bucket_of s = high_confidence ∨ bucket_of s = medium_confidence
     ∨ bucket_of s = low_confidence → status_of s = VALID)
  ∧ (bucket_of s = invalid →
     status_of s = INVALID ∨ status_of s = MISSING_DATA)
  ∧ (bucket_of s = incomplete →
     status_of s = MISSING_DATA
     ∨ (status_of s = VALID
        ∧ (start_s s = Null ∨ end_s s = Null ∨ promptText s = Val "N/A")))
  ∧ (let s' := example_clip (Val "N/A") (Val true) (Val f0_0) (Val f2_0) in
     status_of s' = VALID ∧ bucket_of s' = incomplete).
Proof.
  split; [|split; [|split; [|split; [|split; [|split]]]]];
    [..|split; reflexivity];
    unfold status_of, bucket_of, categorize;
    destruct (valid s) as [| |[]]; simpl;
    destruct (start_s s) as [| |a]; simpl;
    destruct (end_s s) as [| |b]; simpl;
    destruct (promptText s) as [| |p]; simpl;
    try (destruct (String.eqb_spec p "N/A") as [->|Hp]; simpl);
    try (destruct (flt (fsub b a) f0_5); simpl);
    try (destruct (flt f20 (fsub b a)); simpl);
    try (destruct (flt (fsub b a) f1_0); simpl);
    try (intuition (discriminate || congruence)).
Qed.

End Classifiers.

(** ** The dump read back by the other scripts *)

Section DumpReadBack.
Import Dump4 Check CheckReport VerifyClips.
Variable fromisoformat : string → except datetime.

Local Abbreviation get_data := (Dump4.get_data fromisoformat).

(** X18: on the clips that [get_data] returns, check.py never finds the
    prompt key missing, so a clip has missing data exactly when it has no
    time bounds, and the listing of the invalid clips never raises; but a
    clip with time bounds and a null prompt makes [analyze_clips] raise
    TypeError, and a clip with a null prompt whose flag is not true makes
    [verify_clip_quality] raise TypeError. *)
Theorem dump_read_back (docs : list document) (r : collected) :
  get_data docs = Ok r →
  let batch := map c_summary (clips r) in
  (∀ s, s ∈ batch →
        status_of s =
        if has_key (start_s s)
        then if truthy (get (valid s) None) then VALID else INVALID
        else MISSING_DATA)
  ∧ (analyze_clips batch).2 ≠ Raise ValueError
  ∧ ((analyze_clips batch).2 = Raise TypeError ↔
     ∃ s, s ∈ batch ∧ promptText s = Null ∧ has_key (start_s s) = true)
  ∧ (∀ s, s ∈ batch → promptText s = Null → valid s ≠ Val true →
          verify_clip_quality batch = Raise TypeError).
Proof.
  intros Hd%get_data_dumped. cbv zeta.
  rewrite Forall_forall in Hd.
  assert (Hstatus : ∀ s, s ∈ map c_summary (clips r) →
            is_Some (sessionIndex s)
            ∧ status_of s =
              if has_key (start_s s)
              then if truthy (get (valid s) None) then VALID else INVALID
              else MISSING_DATA).
  { intros s (c & -> & Hc)%list_elem_of_fmap.
    destruct (Hd c Hc) as (_ & _ & (n & Hn & _) & _ & _ & Hp & Hv & _ & Ha
                           & Hb & Hab).
    split; [by rewrite Hn|].
    unfold status_of. rewrite Hp.
    destruct (start_s (c_summary c)), (end_s (c_summary c)),
      (valid (c_summary c)); simpl; try done;
      try (by destruct Hab as [H1 H2]; (discriminate H1 || discriminate H2)). }
  destruct (analyze_clips_cases (map c_summary (clips r)))
    as (Hval & Htyp & _ & _).
  cbv zeta in Hval, Htyp.
  assert (Hno : ∀ s, s ∈ map c_summary (clips r) →
                     ¬ (status_of s = INVALID ∧ sessionIndex s = None)).
  { intros s Hs [_ Hn]. destruct (Hstatus s Hs) as [[n Hn'] _]. congruence. }
  split; [intros s Hs; by apply Hstatus|]. split; [|split].
  - intros (s & Hs & Hn)%Hval. by destruct (Hno s Hs).
  - rewrite Htyp. split.
    + intros (_ & s & Hs & Hst & Hp). exists s. repeat split; [done..|].
      destruct (Hstatus s Hs) as [_ Heq].
      destruct (has_key (start_s s)); [done|]. congruence.
    + intros (s & Hs & Hp & Hk). split; [done|]. exists s.
      repeat split; [done| |done].
      destruct (Hstatus s Hs) as [_ ->]. rewrite Hk.
      by destruct (truthy _).
  - intros s Hs Hp Hv.
    apply verify_clip_quality_cases. split.
    + intros Heq. rewrite Heq in Hs. by apply elem_of_nil in Hs.
    + exists s. split; [done|]. apply unprintable_bucket.
      split; [done|]. right. right.
      apply bucket_of_not_valid. by destruct (valid s) as [| |[]].
Qed.

End DumpReadBack.

(** ** The CSV file and the valid clips *)

Section CsvReadBack.
Import Dump4 Dump4Main Check CheckReport.
Variable fromisoformat : string → except datetime.

Local Abbreviation get_data := (Dump4.get_data fromisoformat).
Local Abbreviation main := (Dump4Main.main fromisoformat).

Lemma filter_ext_Forall {A} (P Q : A → Prop) `{!∀ x, Decision (P x)}
    `{!∀ x, Decision (Q x)} (l : list A) :
  Forall (fun x => P x ↔ Q x) l → filter P l = filter Q l.
Proof.
  induction 1 as [|x l Hx _ IH]; [done|].
  rewrite !filter_cons, IH.
  destruct (decide (P x)), (decide (Q x)); tauto.
Qed.

Lemma main_clips users d :
  main users = Ok d →
  Forall (fun c => ∃ docs, docs ∈ users ∧ dumped docs c) (json_clips d)
  ∧ csv d = filter (fun s => valid s = Val true)
                   (map c_summary (json_clips d)).
Proof.
  unfold Dump4Main.main.
  destruct (Dump4Main.collect_users fromisoformat users [] [])
    as [[cs ss]|e] eqn:Hc; [|done].
  apply collect_users_ok in Hc as (rs & Hrs & -> & ->). simpl.
  destruct (sort_sessions _); [|done]. simpl. intros [= <-]. simpl. split.
  - rewrite py_sorted_perm. clear -Hrs.
    induction Hrs as [|docs r users rs Hget _ IH]; simpl; [constructor|].
    apply Forall_app. split.
    + apply get_data_dumped in Hget. eapply Forall_impl; [exact Hget|].
      intros c Hc. exists docs. split; [left|done].
    + eapply Forall_impl; [exact IH|].
      intros c (docs' & Hin & Hc). exists docs'. split; [by right|done].
  - apply list_filter_iff. intros s.
    destruct (valid s) as [| |[]]; simpl; naive_solver.
Qed.

(** X19: when [main] returns, the valid clips that check.py finds in the
    JSON dump are exactly the rows of the CSV file that have time bounds, in
    the same order: the CSV file holds them together with the clips whose
    flag is true but whose bounds are missing. *)
Theorem csv_rows_checked (users : list (list document)) (d : dump) :
  main users = Ok d →
  (categorize_all (map c_summary (json_clips d))).1.1
  = filter (fun s => has_key (start_s s) = true) (csv d)
  ∧ filter (fun s => status_of s = MISSING_DATA) (csv d)
    = filter (fun s => has_key (start_s s) = false) (csv d)
  ∧ Forall (fun s => status_of s ≠ INVALID) (csv d).
Proof.
  intros [Hd Hcsv]%main_clips.
  assert (Hall : Forall (fun s =>
            status_of s =
            if has_key (start_s s)
            then if truthy (get (valid s) None) then VALID else INVALID
            else MISSING_DATA) (map c_summary (json_clips d))).
  { apply Forall_fmap. eapply Forall_impl; [exact Hd|].
    intros c (docs & _ & _ & _ & _ & _ & _ & Hp & Hv & _ & Ha & Hb & Hab).
    simpl. unfold status_of. rewrite Hp.
    destruct (start_s (c_summary c)), (end_s (c_summary c)),
      (valid (c_summary c)); simpl; try done;
      try (by destruct Hab as [H1 H2]; (discriminate H1 || discriminate H2)). }
  rewrite check_categorize_all_filter, Hcsv. simpl.
  rewrite !list_filter_filter. split; [|split].
  - apply filter_ext_Forall. eapply Forall_impl; [exact Hall|].
    intros s ->. simpl.
    destruct (has_key (start_s s)), (valid s) as [| |[]]; simpl;
      naive_solver.
  - apply filter_ext_Forall. eapply Forall_impl; [exact Hall|].
    intros s ->. simpl.
    destruct (has_key (start_s s)), (valid s) as [| |[]]; simpl;
      naive_solver.
  - apply Forall_forall. intros s [Hv Hs]%list_elem_of_filter.
    rewrite Forall_forall in Hall. rewrite (Hall s Hs), Hv. simpl.
    by destruct (has_key (start_s s)).
Qed.

End CsvReadBack.

(** X19, witness: the files written for one user with the
    example stream. *)
Lemma csv_rows_checked_witness :
  Forall (fun s => Check.status_of s ≠ Check.INVALID)
         (Dump4Main.csv (files_of [example_stream])).
Proof.
  apply (csv_rows_checked Iso.fromisoformat [example_stream]).
  vm_compute. reflexivity.
Defined.

(** ** The reports of video_2.py *)

Section DetectorReports.
Import Video2.

Lemma sorted_by_clip_index sc :
  Sorted Z.le (map clip_index (merge_sort by_clip_index sc)).
Proof.
  assert (Total by_clip_index) as Htot.
  { intros a b. unfold by_clip_index. lia. }
  pose proof (Sorted_merge_sort by_clip_index sc) as Hs.
  induction Hs as [|x l Hl IH Hx]; simpl; [constructor|].
  constructor; [done|]. destruct Hx; simpl; by constructor.
Qed.

Lemma missing_indices_perm sc sc' :
  map clip_index sc ≡ₚ map clip_index sc' →
  missing_indices sc = missing_indices sc'.
Proof.
  intros Hperm. unfold missing_indices.
  assert (map clip_index (merge_sort by_clip_index sc)
          = map clip_index (merge_sort by_clip_index sc')) as ->; [|done].
  apply (Sorted_unique Z.le); [apply sorted_by_clip_index..|].
  by rewrite !merge_sort_Permutation.
Qed.

Lemma gaps_of_perm clips clips' session :
  clips ≡ₚ clips' → gaps_of clips session = gaps_of clips' session.
Proof.
  intros Hperm. unfold gaps_of. apply missing_indices_perm.
  rewrite !group_by_session_lookup. unfold observed_indices.
  by rewrite Hperm.
Qed.

Lemma analyze_session_gaps_sorted clips :
  StronglySorted (fun a b : Z * list Z => a.1 < b.1)
                 (analyze_session_gaps clips).
Proof.
  unfold analyze_session_gaps.
  assert (StronglySorted Z.lt
            (sorted_ints (elements (dom (group_by_session clips))))) as Hs.
  { apply strictly_sorted; [apply Sorted_merge_sort, _|].
    unfold sorted_ints. rewrite merge_sort_Permutation. apply NoDup_elements. }
  revert Hs. generalize (sorted_ints (elements (dom (group_by_session clips)))).
  intros l Hs.
  induction Hs as [|x l Hl IH Hx]; cbn [omap list_omap]; [constructor|].
  case_bool_decide; simpl; [|done].
  constructor; [done|].
  pose proof (proj1 (Forall_forall _ _) Hx) as Hx'.
  apply Forall_forall.
  intros [se g] (y & Hy & Hg)%list_elem_of_omap.
  case_bool_decide; simplify_eq. simpl. by apply Hx'.
Qed.

Lemma analyze_session_gaps_perm clips clips' :
  clips ≡ₚ clips' → analyze_session_gaps clips = analyze_session_gaps clips'.
Proof.
  intros Hperm.
  apply (StronglySorted_unique_strong (fun a b : Z * list Z => a.1 < b.1));
    [|apply analyze_session_gaps_sorted..|].
  { intros ?? _ _ ??. lia. }
  assert (Hnd : ∀ c, NoDup (analyze_session_gaps c)).
  { intros c. pose proof (analyze_session_gaps_sorted c) as Hs.
    induction Hs as [|x l Hl IH Hx]; constructor; [|done].
    pose proof (proj1 (Forall_forall _ _) Hx) as Hx'.
    intros Hin%Hx'. lia. }
  apply NoDup_Permutation; [apply Hnd..|].
  intros [se g]. rewrite !elem_of_analyze_session_gaps.
  by rewrite (gaps_of_perm clips clips' se Hperm).
Qed.

Lemma track_all_perm clips clips' :
  clips ≡ₚ clips' → track_all clips = track_all clips'.
Proof.
  intros Hperm.
  assert (Hacc : ∀ p, accepted clips p ↔ accepted clips' p).
  { intros p. unfold accepted. by setoid_rewrite Hperm. }
  assert (Href : ∀ p, refused clips p ↔ refused clips' p).
  { intros p. unfold refused. by setoid_rewrite Hperm. }
  assert (Hatt : ∀ p, (∃ s, s ∈ clips ∧ promptText s = Val p)
                      ↔ ∃ s, s ∈ clips' ∧ promptText s = Val p).
  { intros p. by setoid_rewrite Hperm. }
  assert (attempted_prompts (track_all clips)
          = attempted_prompts (track_all clips')) as Ha.
  { apply set_eq. intros p.
    rewrite (proj1 (track_all_spec clips p)),
      (proj1 (track_all_spec clips' p)), Hatt. done. }
  assert (completed_prompts (track_all clips)
          = completed_prompts (track_all clips')) as Hc.
  { apply set_eq. intros p.
    rewrite (proj1 (proj2 (track_all_spec clips p))),
      (proj1 (proj2 (track_all_spec clips' p))), Hacc. done. }
  assert (rejected_prompts (track_all clips)
          = rejected_prompts (track_all clips')) as Hr.
  { apply set_eq. intros p.
    rewrite (proj2 (proj2 (track_all_spec clips p))),
      (proj2 (proj2 (track_all_spec clips' p))), Href. done. }
  destruct (track_all clips), (track_all clips'). simpl in *. congruence.
Qed.

(** X20: what [detect_missing_prompts] returns, prints and writes does not
    depend on the order of the clips in the dump. *)
Theorem detect_missing_prompts_order (clips clips' : list summary)
    (expected_prompts_file : option (list string)) :
  clips ≡ₚ clips' →
  detect_missing_prompts clips expected_prompts_file
  = detect_missing_prompts clips' expected_prompts_file.
Proof.
  intros Hperm. unfold detect_missing_prompts.
  by rewrite (track_all_perm _ _ Hperm), (analyze_session_gaps_perm _ _ Hperm).
Qed.

Lemma report_sorted sets : merge_sort by_prompt (report sets) = report sets.
Proof.
  assert (Total by_prompt) as Htot.
  { intros a b. unfold by_prompt. apply total, _. }
  assert (Hfst : map fst (report sets)
                 = sorted_strings (attempted_prompts sets)).
  { unfold report. rewrite map_map. simpl. apply map_id. }
  assert (Hs : Sorted String.le (map fst (merge_sort by_prompt (report sets)))).
  { pose proof (Sorted_merge_sort by_prompt (report sets)) as Hs.
    induction Hs as [|x l Hl IH Hx]; simpl; [constructor|].
    constructor; [done|]. destruct Hx; simpl; by constructor. }
  assert (Heq : map fst (merge_sort by_prompt (report sets))
                = map fst (report sets)).
  { apply (Sorted_unique String.le); [done| |].
    - rewrite Hfst. apply Sorted_merge_sort, _.
    - by rewrite merge_sort_Permutation. }
  assert (Hall : Forall (fun x => x = (x.1, categorize sets x.1))
                        (merge_sort by_prompt (report sets))).
  { rewrite merge_sort_Permutation. unfold report.
    apply Forall_forall. by intros x (p & -> & _)%list_elem_of_fmap. }
  transitivity (map (fun p => (p, categorize sets p))
                    (map fst (merge_sort by_prompt (report sets)))).
  - rewrite map_map. symmetry. revert Hall.
    generalize (merge_sort by_prompt (report sets)). intros l Hall.
    induction Hall as [|x l Hx _ IH]; simpl; [done|].
    rewrite IH. by rewrite <- Hx.
  - rewrite Heq, Hfst. done.
Qed.

(** X21: the prompt status file lists the attempted prompts in ascending
    order, as the report has them (sorting the report again changes
    nothing), followed by the prompts never attempted; no prompt has two
    rows. *)
Theorem prompt_status_rows (clips : list summary)
    (expected_prompts_file : option (list string)) :
  let d := detect_missing_prompts clips expected_prompts_file in
  csv_rows d
  = prompt_report d
    ++ map (fun q => (q, completely_skipped))
           (default [] (never_attempted d))
  ∧ Sorted String.le (map fst (prompt_report d))
  ∧ NoDup (map fst (csv_rows d)).
Proof.
  cbv zeta. unfold detect_missing_prompts. simpl.
  unfold create_missing_prompts_csv. rewrite report_sorted.
  set (sets := track_all clips).
  set (expected := load_expected_prompts expected_prompts_file).
  assert (Hfst : map fst (report sets)
                 = sorted_strings (attempted_prompts sets)).
  { unfold report. rewrite map_map. simpl. apply map_id. }
  split; [|split].
  - by destruct (missing_prompts expected (attempted_prompts sets)).
  - rewrite Hfst. apply Sorted_merge_sort, _.
  - rewrite map_app, Hfst. apply NoDup_app. split; [|split].
    + unfold sorted_strings. rewrite merge_sort_Permutation.
      apply NoDup_elements.
    + intros p Hp%elem_of_sorted_strings Hq.
      unfold missing_prompts in Hq.
      destruct expected as [e|]; [|by apply elem_of_nil in Hq].
      case_bool_decide; [|by apply elem_of_nil in Hq].
      rewrite map_map in Hq. simpl in Hq. rewrite map_id in Hq.
      apply elem_of_sorted_strings in Hq. set_solver.
    + unfold missing_prompts.
      destruct expected as [e|]; [|constructor].
      case_bool_decide; [|constructor].
      rewrite map_map. simpl. rewrite map_id.
      unfold sorted_strings. rewrite merge_sort_Permutation.
      apply NoDup_elements.
Qed.

End DetectorReports.

(** ** The sessions with gaps *)

Section SessionGapsReport.
Import Video2.

(** X22: the sessions with gaps are reported in ascending order, each
    once and with at least one missing index; a missing index is never an
    index of a clip of the session and lies strictly between two of them,
    so that nothing is reported below the first or above the last clip of a
    session. *)
Theorem session_gaps_report (clips : list summary) :
  StronglySorted (fun a b : Z * list Z => a.1 < b.1)
                 (analyze_session_gaps clips)
  ∧ Forall (fun sg : Z * list Z =>
              sg.2 ≠ []
              ∧ ∀ x, x ∈ sg.2 →
                  (x ∉ observed_indices clips (sg.1))
                  ∧ ∃ lo hi, lo ∈ observed_indices clips (sg.1)
                             ∧ hi ∈ observed_indices clips (sg.1)
                             ∧ lo < x < hi)
           (analyze_session_gaps clips).
Proof.
  split; [apply analyze_session_gaps_sorted|].
  apply Forall_forall. intros [session g].
  rewrite elem_of_analyze_session_gaps. intros [-> Hne]. simpl.
  split; [done|]. intros x. unfold gaps_of.
  rewrite elem_of_missing_indices, group_by_session_lookup.
  intros [(lo & hi & Hlo & Hhi & _ & Hx) Hnot]. split; [done|].
  exists lo, hi. repeat split; [done..| |].
  - destruct (decide (lo = x)) as [->|]; [done|lia].
  - destruct (decide (hi = x)) as [->|]; [done|lia].
Qed.

End SessionGapsReport.

(** ** The size of the gaps *)

Section GapCount.
Import Video2.

Lemma length_sorted_ints (s : gset Z) :
  length (sorted_ints (elements s)) = size s.
Proof. unfold sorted_ints. by rewrite merge_sort_Permutation. Qed.

Lemma size_range a b : size (list_to_set (range a b) : gset Z) = Z.to_nat (b - a).
Proof.
  unfold range. rewrite size_list_to_set by apply NoDup_seqZ.
  apply length_seqZ.
Qed.

(** X23: in a session, the missing indices and the distinct clip indices
    present make up the whole range from the lowest to the highest index
    present: their numbers add up to the length of that range. *)
Theorem session_gap_count (clips : list summary) (session lo hi : Z) :
  lo ∈ observed_indices clips session →
  hi ∈ observed_indices clips session →
  (∀ y, y ∈ observed_indices clips session → lo ≤ y ≤ hi) →
  (length (gaps_of clips session)
   + size (list_to_set (observed_indices clips session) : gset Z))%nat
  = Z.to_nat (hi - lo + 1).
Proof.
  intros Hlo Hhi Hb. unfold gaps_of, missing_indices.
  rewrite <- group_by_session_lookup in Hlo, Hhi, Hb |- *.
  set (sc := default [] (group_by_session clips !! session)) in *.
  pose proof (sorted_indices sc) as Hperm.
  destruct (map clip_index (merge_sort by_clip_index sc))
    as [|i rest] eqn:Hi.
  { apply Permutation_nil_l in Hperm. rewrite <- Hperm in Hlo.
    by apply elem_of_nil in Hlo. }
  assert (Hiff : ∀ y, y ∈ i :: rest ↔ y ∈ map clip_index sc)
    by (intros y; by rewrite Hperm).
  destruct (min_list_spec i rest) as [Hmin_in Hmin].
  destruct (max_list_spec i rest) as [Hmax_in Hmax].
  assert (min_list i rest = lo) as ->.
  { apply Hiff in Hmin_in. apply Hb in Hmin_in.
    apply Hiff in Hlo. apply Hmin in Hlo. lia. }
  assert (max_list i rest = hi) as ->.
  { apply Hiff in Hmax_in. apply Hb in Hmax_in.
    apply Hiff in Hhi. apply Hmax in Hhi. lia. }
  assert ((list_to_set (map clip_index sc) : gset Z)
          = list_to_set (i :: rest)) as ->.
  { apply set_eq. intros y. rewrite !elem_of_list_to_set. by rewrite Hiff. }
  rewrite length_sorted_ints.
  assert ((list_to_set (i :: rest) : gset Z)
          ⊆ list_to_set (range lo (hi + 1))) as Hsub.
  { intros y. rewrite !elem_of_list_to_set, elem_of_range.
    intros Hy%Hiff%Hb. lia. }
  rewrite size_difference by done.
  apply subseteq_size in Hsub. rewrite size_range in Hsub |- *.
  replace (hi + 1 - lo) with (hi - lo + 1) in * by lia. lia.
Qed.

(** X23, witness: the session with the clip indices 0, 1,
    3 and 4. *)
Lemma session_gap_count_witness :
  (length (gaps_of example_session 1)
   + size (list_to_set (observed_indices example_session 1) : gset Z))%nat
  = 5%nat.
Proof.
  apply (session_gap_count example_session 1 0 4).
  - apply list_elem_of_In. vm_compute. tauto.
  - apply list_elem_of_In. vm_compute. tauto.
  - intros y Hy%list_elem_of_In. vm_compute in Hy. intuition lia.
Defined.

End GapCount.

(** ** The expected prompts *)

Section ExpectedPrompts.
Import Video2 Video2Template.

Lemma rev_app_acc a c : String.rev_app a c = String.rev_app a "" +:+ c.
Proof.
  revert c. induction a as [|x a IH]; intros c; simpl; [done|].
  rewrite (IH (String x c)), (IH (String x "")).
  by rewrite str_app_assoc.
Qed.

Lemma rev_cons x a : String.rev (String x a) = String.rev a +:+ String x "".
Proof. unfold String.rev. simpl. apply rev_app_acc. Qed.

Lemma app_nil_r_str s : s +:+ "" = s.
Proof. induction s as [|c s IH]; [done|by rewrite app_cons, IH]. Qed.

Lemma rev_app_str a b :
  String.rev (a +:+ b) = String.rev b +:+ String.rev a.
Proof.
  induction a as [|x a IH].
  - rewrite app_nil_l. change (String.rev "") with "".
    by rewrite app_nil_r_str.
  - by rewrite app_cons, !rev_cons, IH, str_app_assoc.
Qed.

Lemma rev_involutive_str a : String.rev (String.rev a) = a.
Proof.
  induction a as [|x a IH]; [done|].
  by rewrite rev_cons, rev_app_str, IH.
Qed.

Lemma lstrip_split s :
  ∃ sp, s = sp +:+ lstrip s ∧ all_chars isspace sp = true.
Proof.
  induction s as [|c s (sp & Hs & Hsp)].
  - by exists "".
  - cbn [lstrip]. destruct (isspace c) eqn:Hc.
    + exists (String c sp). rewrite app_cons, <- Hs. split; [done|].
      cbn [all_chars]. by rewrite Hc.
    + by exists "".
Qed.

Lemma lstrip_idemp s : lstrip (lstrip s) = lstrip s.
Proof.
  induction s as [|c s IH]; simpl; [done|].
  destruct (isspace c) eqn:Hc; [done|]. simpl. by rewrite Hc.
Qed.

Lemma lstrip_app_fixed a b : a ≠ "" → lstrip (a +:+ b) = a +:+ b →
  lstrip a = a.
Proof.
  destruct a as [|c a]; [done|]. intros _. simpl.
  destruct (isspace c) eqn:Hc; [|done].
  intros Heq. destruct (lstrip_split (a +:+ b)) as (sp & Hs & _).
  assert (String.length (lstrip (a +:+ b))
          = S (String.length (a +:+ b))) as Hlen
    by (by rewrite Heq).
  rewrite Hs in Hlen at 2. rewrite length_app in Hlen. lia.
Qed.

Lemma strip_trimmed s : trimmed (strip s).
Proof.
  unfold trimmed, strip.
  set (t := lstrip s). set (v := lstrip (String.rev t)).
  rewrite rev_involutive_str. split; [|apply lstrip_idemp].
  destruct (lstrip_split (String.rev t)) as (sp & Ht & _). fold v in Ht.
  apply (f_equal String.rev) in Ht.
  rewrite rev_involutive_str, rev_app_str in Ht.
  destruct (String.rev v) as [|c w] eqn:Hv; [done|].
  apply (lstrip_app_fixed _ (String.rev sp)); [done|].
  rewrite <- Ht. apply lstrip_idemp.
Qed.

Lemma strip_fixed s : trimmed s → strip s = s.
Proof.
  intros [H1 H2]. unfold strip. by rewrite H1, H2, rev_involutive_str.
Qed.

Lemma elem_of_expected_prompts lines q :
  q ∈ expected_prompts_of lines ↔
  q ≠ "" ∧ ∃ line, line ∈ lines ∧ strip line = q.
Proof.
  unfold expected_prompts_of.
  rewrite elem_of_list_to_set, list_elem_of_filter, list_elem_of_fmap.
  naive_solver.
Qed.

(** X24: the expected prompts are the lines of the file without the white
    space around them, the blank lines left out; so no expected prompt is
    empty or starts or ends with white space, stripping one again changes
    nothing, and a line that starts with # is a prompt like any other. *)
Theorem expected_prompts_trimmed (lines : list string) (p : string) :
  (p ∈ expected_prompts_of lines ↔
   p ≠ "" ∧ ∃ line, line ∈ lines ∧ strip line = p)
  ∧ (p ∈ expected_prompts_of lines →
     trimmed p ∧ strip p = p
     ∧ expected_prompts_of (lines ++ [p]) = expected_prompts_of lines)
  ∧ (strip ("#" +:+ p) ≠ "" ∧
     strip ("#" +:+ p) ∈ expected_prompts_of (lines ++ ["#" +:+ p])).
Proof.
  pose proof elem_of_expected_prompts as Hmem.
  split; [apply Hmem|]. split.
  - intros (Hne & line & Hin & <-)%Hmem.
    split; [apply strip_trimmed|].
    split; [apply strip_fixed, strip_trimmed|].
    apply set_eq. intros q. rewrite !Hmem.
    setoid_rewrite elem_of_app. setoid_rewrite list_elem_of_singleton.
    split; [|naive_solver].
    intros (Hq & l & [Hl| ->] & Hs); split; try done.
    + by exists l.
    + exists line. split; [done|].
      rewrite <- Hs. symmetry. apply strip_fixed, strip_trimmed.
  - assert (strip ("#" +:+ p) ≠ "") as Hne.
    { assert (Hl : lstrip ("#" +:+ p) = String "#" p) by reflexivity.
      unfold strip. rewrite Hl, rev_cons.
      intros H%(f_equal String.rev). rewrite rev_involutive_str in H.
      change (String.rev "") with "" in H.
      destruct (lstrip_split (String.rev p +:+ "#")) as (sp & Hs & Hsp).
      rewrite H, app_nil_r_str in Hs. rewrite <- Hs in Hsp.
      clear -Hsp. revert Hsp. generalize (String.rev p). intros r.
      induction r as [|c r IH]; [done|].
      rewrite app_cons. cbn [all_chars].
      intros [_ ?]%andb_true_iff. auto. }
    split; [done|]. apply Hmem. split; [done|].
    exists ("#" +:+ p). split; [|done]. apply elem_of_app. right. by left.
Qed.

(** X25: the template file announces that lines starting with # are
    ignored, but read back as the file of the expected prompts its header
    lines are prompts: whenever no clip of the dump has that text as its
    prompt, the line of the announcement is reported and written as a prompt
    never attempted, next to the 26 prompts of the template. *)
Theorem template_comment_reported (clips : list summary) :
  Forall (fun s => promptText s ≠ Val comment_line) clips →
  let d := detect_missing_prompts clips (Some (readlines template)) in
  size (expected_prompts_of (readlines template)) = 29%nat
  ∧ (comment_line, completely_skipped) ∈ csv_rows d
  ∧ ∃ missing, never_attempted d = Some missing ∧ comment_line ∈ missing.
Proof.
  intros Hno d.
  assert (Hin : comment_line ∈ expected_prompts_of (readlines template)).
  { apply elem_of_expected_prompts. split; [done|].
    exists (comment_line +:+ String "010" ""). split; [|by vm_compute].
    apply list_elem_of_In. vm_compute. tauto. }
  assert (Hnot : comment_line ∉ attempted_prompts (track_all clips)).
  { intros (_ & s & Hs & Hp)%track_all_spec.
    rewrite Forall_forall in Hno. by apply (Hno s Hs). }
  destruct (elem_of_missing_prompts _ _ _ Hin Hnot) as (missing & Hm & Hq).
  split; [by vm_compute|].
  split; [|exists missing; split; [exact Hm|exact Hq]].
  apply elem_of_csv_rows. right. exists missing. split; [exact Hm|].
  exists comment_line. split; [exact Hq|reflexivity].
Qed.

(** X25, witness: the example attempts checked against the template file. *)
Lemma template_comment_reported_witness :
  let d := detect_missing_prompts example_attempts
             (Some (readlines template)) in
  (comment_line, completely_skipped) ∈ csv_rows d.
Proof.
  intros d.
  apply (template_comment_reported example_attempts).
  repeat constructor; vm_compute; discriminate.
Defined.

End ExpectedPrompts.

(** ** Examples of the further statements *)

Section FurtherExamples.
Import Re Dump4 Dump4Main PySorted.

(** X2, witness: of four documents the stream yields two clips, one session document and
    one message, the clips being those of the documents kept, in order. *)
Lemma get_data_in_stream_order_witness :
  length (clips (dump_of example_stream)) = 2%nat
  ∧ length (sessions (dump_of example_stream)) = 1%nat
  ∧ length (Dump4.skipped (dump_of example_stream)) = 1%nat
  ∧ clips (dump_of example_stream)
    = omap (fun d => kept_clip (process Iso.fromisoformat d)) example_stream.
Proof.
  destruct (get_data_in_stream_order Iso.fromisoformat example_stream
              (dump_of example_stream))
    as (Hc & _ & _ & _); [vm_compute; reflexivity|].
  split; [vm_compute; reflexivity|]. split; [vm_compute; reflexivity|].
  split; [vm_compute; reflexivity|exact Hc].
Defined.

(** X4, witness: the filename of the examples is accepted, and its groups give
    the user id and the three digits of the session. *)
Lemma filename_accepted_shape_witness :
  ∃ user_id session,
    filename_shape example_filename (group example_match 1) user_id session
    ∧ group example_match 2 = Some user_id
    ∧ format_03d (int_group example_match 3) = session.
Proof.
  destruct (filename_accepted_shape example_filename example_match)
    as (u & se & Hshape & H2 & _ & _ & _ & H3); [vm_compute; reflexivity|].
  by exists u, se.
Defined.

(** X5, witness: the clips returned for the example stream. *)
Lemma get_data_summaries_witness :
  Forall (dumped example_stream) (clips (dump_of example_stream)).
Proof.
  apply (get_data_summaries Iso.fromisoformat). vm_compute. reflexivity.
Defined.

(** X11, witness: a prompt completed once and skipped once next to a prompt
    skipped once. *)
Lemma prompt_statistics_totals_witness :
  let valid_clips :=
    [example_clip (Val "Rich") (Val true) (Val f0_0) (Val f2_0)] in
  let invalid_clips :=
    [example_clip (Val "Rich") (Val false) (Val f0_0) (Val f2_0);
     example_clip (Val "Poor") Null (Val f0_0) (Val f2_0)] in
  sum_list (map CheckReport.completed (statistics_of valid_clips invalid_clips)) = 1%nat
  ∧ sum_list (map CheckReport.skipped (statistics_of valid_clips invalid_clips)) = 2%nat.
Proof.
  intros valid_clips invalid_clips.
  destruct (prompt_statistics_totals valid_clips invalid_clips
              (statistics_of valid_clips invalid_clips))
    as (_ & _ & Hc & Hs & _); [vm_compute; reflexivity|].
  split; [exact Hc|exact Hs].
Defined.

(** X15, witness: a clip that starts and ends one second into the video. *)
Lemma zero_duration_row_witness :
  let s := example_clip (Val "Rich") (Val true) (Val f1_0) (Val f1_0) in
  VerifyClips.bucket_of s = VerifyClips.low_confidence
  ∧ VerifyClipsCsv.duration_s
      (VerifyClipsCsv.row_of VerifyClips.low_confidence
                             (snd (VerifyClips.categorize s))) = "N/A".
Proof.
  intros s.
  destruct (zero_duration_row s "Rich" f1_0) as (Hb & _ & Hd);
    [reflexivity | reflexivity | discriminate | reflexivity | reflexivity
     | reflexivity | ].
  split; [exact Hb|exact Hd].
Defined.

(** X18, witness: the listing of the invalid clips of the example stream does
    not raise. *)
Lemma dump_read_back_witness :
  (CheckReport.analyze_clips (map c_summary (clips (dump_of example_stream)))).2
  ≠ Raise ValueError.
Proof.
  destruct (dump_read_back Iso.fromisoformat example_stream
              (dump_of example_stream))
    as (_ & Hv & _); [vm_compute; reflexivity|].
  exact Hv.
Defined.

(** X7, witness: the files written for one user with the example stream. *)
Lemma main_output_witness :
  Sorted by_filename_clip (json_clips (files_of [example_stream]))
  ∧ csv (files_of [example_stream])
    = filter (fun s => valid s = Val true)
             (map c_summary (json_clips (files_of [example_stream]))).
Proof.
  destruct (main_output Iso.fromisoformat [example_stream]
              (files_of [example_stream]))
    as (rs & _ & _ & Hs & _ & _ & _ & Hcsv); [vm_compute; reflexivity|].
  split; [exact Hs|exact Hcsv].
Defined.

(** X20, witness: the example attempts read in the opposite order. *)
Lemma detect_missing_prompts_order_witness :
  Video2.detect_missing_prompts example_attempts None
  = Video2.detect_missing_prompts (rev example_attempts) None.
Proof.
  apply detect_missing_prompts_order.
  unfold example_attempts. simpl. apply Permutation_rev.
Defined.

End FurtherExamples.
